(** * Agentic structured extraction (idp_common/extraction/agentic_idp.py)

    A shallow embedding of the extraction orchestration of
    [structured_output_async]: capability detection and the output-token
    clamp, the three tools working on the agent state, the outer retry
    loop, the optional review exchange and the token accounting.

    Python values are embedded as follows.  Integers are [Z].  Strings
    are [string] (model identifiers and messages are ASCII).  A raised
    exception is a value of [PyExn] returned on the left of a sum.  The
    agent state, the count of model calls and the log of [asyncio.sleep]
    delays are threaded explicitly. *)

From Stdlib Require Import ZArith List String Ascii Bool Lia DecimalString.
Import ListNotations.
Open Scope string_scope.
Open Scope Z_scope.
Set Warnings "-register-all".

(** ** Python string helpers *)

Module PyStr.

(** [pat in s] for Python strings: [pat] occurs as a contiguous
    substring of [s]. *)
Fixpoint contains (pat s : string) : bool :=
  String.prefix pat s
  || match s with
     | EmptyString => false
     | String _ rest => contains pat rest
     end.

Definition lower_ascii (c : ascii) : ascii :=
  let n := nat_of_ascii c in
  if ((65 <=? n)%nat && (n <=? 90)%nat)%bool
  then ascii_of_nat (n + 32)
  else c.

(** [s.lower()] on an ASCII string. *)
Fixpoint lower (s : string) : string :=
  match s with
  | EmptyString => EmptyString
  | String c rest => String (lower_ascii c) (lower rest)
  end.

(** [x in xs] for a list of strings. *)
Definition mem (x : string) (xs : list string) : bool :=
  existsb (String.eqb x) xs.

End PyStr.

(** ** Capability detection and the output-token clamp
    (structured_output_async, lines 435-466) *)

Module Capability.

(** [re.search(r"claude-(opus|sonnet|haiku)-4", s)]: the pattern is a
    literal with a three-way alternation, so a match anywhere in [s] is
    the occurrence of one of the three literal strings. *)
Definition re_search_claude4 (s : string) : bool :=
  existsb (fun family => PyStr.contains ("claude-" ++ family ++ "-4") s)
          ["opus"; "sonnet"; "haiku"].

Definition nova_families : list string :=
  ["nova-premier"; "nova-pro"; "nova-lite"; "nova-micro"].

(** [any(nova in model_id_lower for nova in [...])] *)
Definition any_nova (s : string) : bool :=
  existsb (fun nova => PyStr.contains nova s) nova_families.

Definition model_max (model_id : string) : Z :=
  let model_id_lower := PyStr.lower model_id in
  if re_search_claude4 model_id_lower then 64000
  else if any_nova model_id_lower then 10000
  else if PyStr.contains "claude-3" model_id_lower then 8192
  else 4096.

(** The clamp of lines 450-466; [max_tokens] is [Optional[int]]. *)
Definition clamp (max_tokens : option Z) (model_max : Z) : Z :=
  match max_tokens with
  | Some requested =>
      if requested >? model_max then model_max else requested
  | None => model_max
  end.

Definition max_output_tokens (model_id : string) (max_tokens : option Z) : Z :=
  clamp max_tokens (model_max model_id).

End Capability.

(** ** Python values held in the agent state *)

Inductive json : Type :=
| JNull
| JBool (b : bool)
| JInt (n : Z)
| JStr (s : string)
| JList (items : list json)
| JDict (members : list (string * json)).

Module Py.

(** Truthiness, as tested by [if x:] and [not x]. *)
Definition truthy (v : json) : bool :=
  match v with
  | JNull => false
  | JBool b => b
  | JInt n => negb (n =? 0)
  | JStr s => negb (String.eqb s "")
  | JList items => match items with [] => false | _ => true end
  | JDict members => match members with [] => false | _ => true end
  end.

(** A name bound to [None] or to a value. *)
Definition truthy_opt (v : option json) : bool :=
  match v with
  | None => false
  | Some d => truthy d
  end.

Fixpoint dict_get (key : string) (members : list (string * json)) : option json :=
  match members with
  | [] => None
  | (k, v) :: rest => if String.eqb k key then Some v else dict_get key rest
  end.

(** [a == b].  Dicts (keys are unique) compare without regard to the
    order of insertion, lists position by position, and a bool equals
    the integer it stands for. *)
Fixpoint eqb (a b : json) {struct a} : bool :=
  match a, b with
  | JNull, JNull => true
  | JBool x, JBool y => Bool.eqb x y
  | JBool x, JInt n => n =? (if x then 1 else 0)
  | JInt n, JBool x => n =? (if x then 1 else 0)
  | JInt x, JInt y => x =? y
  | JStr x, JStr y => String.eqb x y
  | JList xs, JList ys =>
      (fix go (xs ys : list json) {struct xs} : bool :=
         match xs, ys with
         | [], [] => true
         | x :: xs', y :: ys' => eqb x y && go xs' ys'
         | _, _ => false
         end) xs ys
  | JDict xs, JDict ys =>
      (List.length xs =? List.length ys)%nat
      && forallb (fun kv => match dict_get (fst kv) ys with
                            | Some w => eqb (snd kv) w
                            | None => false
                            end) xs
  | _, _ => false
  end.

Definition eqb_opt (a b : option json) : bool :=
  match a, b with
  | None, None => true
  | Some x, Some y => eqb x y
  | _, _ => false
  end.

End Py.

(** ** Exceptions *)

(** What the code observes of a raised exception: [type(e).__name__],
    [str(e)] and [isinstance(e, ClientError)]. *)
Record PyExn : Type := mkExn {
  exn_type : string;
  exn_msg : string;
  exn_is_client_error : bool
}.

Definition ValueError (msg : string) : PyExn := mkExn "ValueError" msg false.
Definition TypeError (msg : string) : PyExn := mkExn "TypeError" msg false.

(** ** Agent state and the three tools *)

(** [Agent(state={"current_extraction": ..., "images": {}, "existing_data": ...})] *)
Record AgentState : Type := mkState {
  current_extraction : option json;
  images : json;
  existing_data : option json
}.

(** [agent.state.set(key="current_extraction", value=v)] *)
Definition set_current_extraction (v : json) (st : AgentState) : AgentState :=
  {| current_extraction := Some v;
     images := images st;
     existing_data := existing_data st |}.

(** What a tool call hands back to the tool exchange: the returned
    value, or the exception it raised (reported to the model as a tool
    error; it does not leave the exchange). *)
Inductive ToolResult : Type :=
| ToolReturned (v : json)
| ToolRaised (e : PyExn).

Definition tool_error (r : ToolResult) : bool :=
  match r with
  | ToolRaised _ => true
  | ToolReturned v =>
      match v with
      | JDict members => match Py.dict_get "error" members with
                         | Some _ => true
                         | None => false
                         end
      | _ => false
      end
  end.

Inductive ToolCall : Type :=
| CallExtractionTool (extraction : json)
| CallApplyJsonPatches (patches : list json)
| CallViewExistingExtraction.

Section Tools.

(** The caller's Pydantic model: constructing [model_class] from the
    keyword arguments [d] either raises a validation error or yields an
    instance, [model_dump] serialises an
    instance. *)
Variable TargetModel : Type.
Variable model_class : json -> PyExn + TargetModel.
Variable model_dump : TargetModel -> json.

(** The [jsonpatch] library.  [JsonPatch(patches)] builds one operation
    per entry, raising on a malformed entry; [patch.apply(obj)] runs the
    operations in order on a deep copy of [obj] (in_place=False), each
    operation returning the updated object or raising. *)
Variable Operation : Type.
Variable get_operation : json -> PyExn + Operation.
Variable operation_apply : Operation -> json -> PyExn + json.

Fixpoint JsonPatch (patches : list json) : PyExn + list Operation :=
  match patches with
  | [] => inr []
  | p :: rest =>
      match get_operation p with
      | inl e => inl e
      | inr op =>
          match JsonPatch rest with
          | inl e => inl e
          | inr ops => inr (op :: ops)
          end
      end
  end.

Fixpoint JsonPatch_apply (ops : list Operation) (obj : json) : PyExn + json :=
  match ops with
  | [] => inr obj
  | op :: rest =>
      match operation_apply op obj with
      | inl e => inl e
      | inr obj' => JsonPatch_apply rest obj'
      end
  end.

Definition apply_patches_to_data (existing_data : json) (patches : list json)
  : PyExn + json :=
  match patches with
  | [] => inr existing_data
  | _ =>
      match JsonPatch patches with
      | inl e => inl e
      | inr patch => JsonPatch_apply patch existing_data
      end
  end.

Definition extraction_tool (extraction : json) (st : AgentState)
  : AgentState * ToolResult :=
  match model_class extraction with
  | inl e => (st, ToolRaised e)
  | inr extraction_model =>
      let extraction_dict := model_dump extraction_model in
      (set_current_extraction extraction_dict st,
       ToolReturned (JStr "Extraction succeeded, the data format is correct"))
  end.

(** The value the patch tool returns when its guard fails. *)
Definition no_current_extraction : json :=
  JDict [("error", JStr "No current extraction to patch")].

(** Lines 212-239.  [agent.state.get] hands out a copy of the stored
    value and the patch runs on a copy of that, so the stored extraction
    changes only through the [agent.state.set] that follows validation. *)
Definition apply_json_patches (patches : list json) (st : AgentState)
  : AgentState * ToolResult :=
  let current_data := current_extraction st in
  if negb (Py.truthy_opt current_data) then
    (st, ToolReturned no_current_extraction)
  else
    match current_data with
    | None => (st, ToolReturned no_current_extraction)
    | Some data =>
        match apply_patches_to_data data patches with
        | inl e => (st, ToolRaised e)
        | inr patched_data =>
            match model_class patched_data with
            | inl e => (st, ToolRaised e)
            | inr validated_patched_data =>
                (set_current_extraction (model_dump validated_patched_data) st,
                 ToolReturned
                   (JDict [("status", JStr "success");
                           ("patches_applied", JInt (Z.of_nat (List.length patches)))]))
            end
        end
    end.

Definition view_existing_extraction (st : AgentState) : AgentState * ToolResult :=
  (st, ToolReturned (match current_extraction st with
                     | Some d => d
                     | None => JNull
                     end)).

Definition run_tool (c : ToolCall) (st : AgentState) : AgentState * ToolResult :=
  match c with
  | CallExtractionTool extraction => extraction_tool extraction st
  | CallApplyJsonPatches patches => apply_json_patches patches st
  | CallViewExistingExtraction => view_existing_extraction st
  end.

(** The state left by the tool calls of one exchange, in order. *)
Fixpoint run_tools (cs : list ToolCall) (st : AgentState) : AgentState :=
  match cs with
  | [] => st
  | c :: rest => run_tools rest (fst (run_tool c st))
  end.

(** One operation of the set fails where the operations before it have
    run: the entry is malformed, or it raises on the object its
    predecessors produced. *)
Definition operation_fails (data : json) (patches : list json) : Prop :=
  exists pre p post,
    patches = (pre ++ p :: post)%list
    /\ ((exists e, get_operation p = inl e)
        \/ (exists ops obj op e,
               JsonPatch pre = inr ops
               /\ JsonPatch_apply ops data = inr obj
               /\ get_operation p = inr op
               /\ operation_apply op obj = inl e)).

(** No call of [calls] is a successful [extraction_tool] call. *)
Definition no_successful_extraction (calls : list ToolCall) : Prop :=
  Forall (fun c => match c with
                   | CallExtractionTool extraction =>
                       exists e, model_class extraction = inl e
                   | _ => True
                   end) calls.

End Tools.

Arguments JsonPatch {Operation} get_operation patches.
Arguments JsonPatch_apply {Operation} operation_apply ops obj.
Arguments apply_patches_to_data {Operation} get_operation operation_apply
  existing_data patches.
Arguments extraction_tool {TargetModel} model_class model_dump extraction st.
Arguments apply_json_patches {TargetModel} model_class model_dump {Operation}
  get_operation operation_apply patches st.
Arguments run_tool {TargetModel} model_class model_dump {Operation}
  get_operation operation_apply c st.
Arguments run_tools {TargetModel} model_class model_dump {Operation}
  get_operation operation_apply cs st.
Arguments operation_fails {Operation} get_operation operation_apply data patches.
Arguments no_successful_extraction {TargetModel} model_class calls.

(** ** Token usage *)

Record BedrockUsage : Type := mkUsage {
  inputTokens : Z;
  outputTokens : Z;
  totalTokens : Z;
  cacheReadInputTokens : Z;
  cacheWriteInputTokens : Z
}.

Inductive UsageKey : Type :=
| InputTokens | OutputTokens | TotalTokens
| CacheReadInputTokens | CacheWriteInputTokens.

Definition key_name (k : UsageKey) : string :=
  match k with
  | InputTokens => "inputTokens"
  | OutputTokens => "outputTokens"
  | TotalTokens => "totalTokens"
  | CacheReadInputTokens => "cacheReadInputTokens"
  | CacheWriteInputTokens => "cacheWriteInputTokens"
  end.

Definition counter (k : UsageKey) (u : BedrockUsage) : Z :=
  match k with
  | InputTokens => inputTokens u
  | OutputTokens => outputTokens u
  | TotalTokens => totalTokens u
  | CacheReadInputTokens => cacheReadInputTokens u
  | CacheWriteInputTokens => cacheWriteInputTokens u
  end.

(** The usage dict a response carries, [metrics.accumulated_usage]. *)
Definition UsageDict : Type := list (string * Z).

(** [usage.get(key, default)] *)
Fixpoint usage_get (usage : UsageDict) (key : string) (default : Z) : Z :=
  match usage with
  | [] => default
  | (k, v) :: rest => if String.eqb k key then v else usage_get rest key default
  end.

Record EventLoopMetrics : Type := mkMetrics {
  accumulated_usage : UsageDict
}.

(** The [AgentResult] of one [agent.invoke_async]; [metrics] may be
    absent. *)
Record AgentResult : Type := mkResult {
  metrics : option EventLoopMetrics
}.

(** Lines 556-562. *)
Definition token_usage_init : BedrockUsage := mkUsage 0 0 0 0 0.

(** [for key in token_usage.keys(): token_usage[key] += usage.get(key, 0)] *)
Definition add_usage (token_usage : BedrockUsage) (usage : UsageDict) : BedrockUsage :=
  {| inputTokens := inputTokens token_usage + usage_get usage "inputTokens" 0;
     outputTokens := outputTokens token_usage + usage_get usage "outputTokens" 0;
     totalTokens := totalTokens token_usage + usage_get usage "totalTokens" 0;
     cacheReadInputTokens :=
       cacheReadInputTokens token_usage + usage_get usage "cacheReadInputTokens" 0;
     cacheWriteInputTokens :=
       cacheWriteInputTokens token_usage + usage_get usage "cacheWriteInputTokens" 0 |}.

(** Lines 648-651 and 720-725: the guard
    [response and response.metrics and response.metrics.accumulated_usage]
    skips an absent response, absent metrics and an empty usage dict. *)
Definition accumulate (token_usage : BedrockUsage) (response : option AgentResult)
  : BedrockUsage :=
  match response with
  | None => token_usage
  | Some r =>
      match metrics r with
      | None => token_usage
      | Some m =>
          match accumulated_usage m with
          | [] => token_usage
          | usage => add_usage token_usage usage
          end
      end
  end.

(** What one exchange reports for a counter. *)
Definition exchange_usage (k : UsageKey) (response : AgentResult) : Z :=
  match metrics response with
  | None => 0
  | Some m => usage_get (accumulated_usage m) (key_name k) 0
  end.

(** ** The orchestration loop *)

(** One [agent.invoke_async]: the tool calls the model makes, in order,
    and then either the exception the call raises or its result. *)
Record Exchange : Type := mkExchange {
  tool_calls : list ToolCall;
  outcome : PyExn + AgentResult
}.

(** The agent's state together with what the run has done so far: the
    [max_tokens] the Bedrock model was configured with, how many times
    the model was invoked, and the delays passed to [asyncio.sleep]. *)
Record World : Type := mkWorld {
  agent_state : AgentState;
  bedrock_max_tokens : Z;
  calls : nat;
  slept : list Z
}.

Definition sleep (delay : Z) (w : World) : World :=
  {| agent_state := agent_state w;
     bedrock_max_tokens := bedrock_max_tokens w;
     calls := calls w;
     slept := slept w ++ [delay] |}.

(** Lines 596-606. *)
Definition is_retryable (e : PyExn) : bool :=
  PyStr.mem (exn_type e)
            ["ProtocolError"; "ConnectionError"; "ReadTimeoutError"; "IncompleteRead"]
  || PyStr.contains "Response ended prematurely" (exn_msg e)
  || PyStr.contains "Connection" (exn_msg e).

(** What leaves the [except] block for an exception that is not retried:
    a [ClientError] is re-raised as it is, anything else is wrapped. *)
Definition reraise (e : PyExn) : PyExn :=
  if exn_is_client_error e then e
  else ValueError ("Agent invocation failed: " ++ exn_msg e).

Record BedrockInvokeModelResponse : Type := mkResponse {
  metering_key : string;
  metering_usage : BedrockUsage
}.

Section Orchestration.

(** The caller-supplied schema [data_format] and the [jsonpatch]
    library, as in [Tools]. *)
Variable TargetModel : Type.
Variable data_format : json -> PyExn + TargetModel.
Variable model_dump : TargetModel -> json.
Variable Operation : Type.
Variable get_operation : json -> PyExn + Operation.
Variable operation_apply : Operation -> json -> PyExn + json.

(** The model behind the agent: what the n-th invocation does. *)
Variable model : nat -> Exchange.

(** [await agent.invoke_async(...)]: the tools run on the agent state,
    then the call returns or raises. *)
Definition invoke_async (w : World) : World * (PyExn + AgentResult) :=
  let exchange := model (calls w) in
  ({| agent_state :=
        run_tools data_format model_dump get_operation operation_apply
                  (tool_calls exchange) (agent_state w);
      bedrock_max_tokens := bedrock_max_tokens w;
      calls := S (calls w);
      slept := slept w |},
   outcome exchange).

(** Line 582; the assignment shadows the parameter of the same name,
    which only configures the transport. *)
Definition max_retries : nat := 3.

(** Lines 585-646, by recursion on the attempts left in
    [range(max_retries)].  The result is the raised exception, or the
    value of [response] when the loop is left. *)
Fixpoint retry_loop (attempts : list nat) (retry_delay : Z) (w : World)
  : World * (PyExn + option AgentResult) :=
  match attempts with
  | [] => (w, inr None)
  | attempt :: rest =>
      match invoke_async w with
      | (w1, inr response) => (w1, inr (Some response))
      | (w1, inl e) =>
          let is_last_attempt := (attempt =? max_retries - 1)%nat in
          if is_retryable e && negb is_last_attempt then
            retry_loop rest (retry_delay * 2) (sleep retry_delay w1)
          else
            (w1, inl (reraise e))
      end
  end.

(** Constructing [data_format] from the keyword arguments held in a
    name that may be [None]. *)
Definition construct (extraction : option json) : PyExn + TargetModel :=
  match extraction with
  | None => inl (TypeError "argument after ** must be a mapping, not NoneType")
  | Some d => data_format d
  end.

(** Lines 743-761; a model instance and an agent result are truthy. *)
Definition finish (model_id context : string) (w : World)
           (result : option TargetModel) (response : option AgentResult)
           (token_usage : BedrockUsage)
  : World * (PyExn + (TargetModel * BedrockInvokeModelResponse)) :=
  match result, response with
  | Some r, Some _ =>
      (w, inr (r, {| metering_key := context ++ "/bedrock/" ++ model_id;
                     metering_usage := token_usage |}))
  | _, _ => (w, inl (ValueError "Failed to generate valid structured output."))
  end.

Definition initial_world (model_id : string) (existing : option TargetModel)
           (max_tokens : option Z) : World :=
  let state :=
    {| current_extraction := None;
       images := JDict [];
       existing_data := option_map model_dump existing |} in
  {| agent_state :=
       match existing with
       | Some e => set_current_extraction (model_dump e) state
       | None => state
       end;
     bedrock_max_tokens := Capability.max_output_tokens model_id max_tokens;
     calls := 0;
     slept := [] |}.

(** Lines 555-761.  The review exchange sits in the branch taken when
    the state holds no truthy extraction.  Its prompt is the value of
    [prompt_content.append(...)], so the agent is invoked on the
    conversation it already has; the invocation is outside the retry
    loop and an exception it raises leaves the call unchanged. *)
Definition structured_output_async
           (model_id : string) (existing : option TargetModel)
           (review_agent : bool) (context : string) (max_tokens : option Z)
  : World * (PyExn + (TargetModel * BedrockInvokeModelResponse)) :=
  let token_usage := token_usage_init in
  let retry_delay := 2 in
  match retry_loop (seq 0 max_retries) retry_delay
                   (initial_world model_id existing max_tokens) with
  | (w1, inl e) => (w1, inl e)
  | (w1, inr response) =>
      let token_usage := accumulate token_usage response in
      let current := current_extraction (agent_state w1) in
      if Py.truthy_opt current then
        match construct current with
        | inr result => finish model_id context w1 (Some result) response token_usage
        | inl e =>
            (w1, inl (ValueError ("Failed to validate extraction against schema: "
                                    ++ exn_msg e)))
        end
      else if review_agent then
        match invoke_async w1 with
        | (w2, inl e) => (w2, inl e)
        | (w2, inr review_response) =>
            let token_usage := accumulate token_usage (Some review_response) in
            let updated := current_extraction (agent_state w2) in
            let result :=
              if negb (Py.eqb_opt updated current) then
                match construct updated with
                | inr r => Some r
                | inl _ => None
                end
              else None in
            finish model_id context w2 result response token_usage
        end
      else finish model_id context w1 None response token_usage
  end.

End Orchestration.

Arguments invoke_async {TargetModel} data_format model_dump {Operation}
  get_operation operation_apply model w.
Arguments retry_loop {TargetModel} data_format model_dump {Operation}
  get_operation operation_apply model attempts retry_delay w.
Arguments construct {TargetModel} data_format extraction.
Arguments finish {TargetModel} model_id context w result response token_usage.
Arguments initial_world {TargetModel} model_dump model_id existing max_tokens.
Arguments structured_output_async {TargetModel} data_format model_dump {Operation}
  get_operation operation_apply model model_id existing review_agent context
  max_tokens.

(** ** A concrete patch engine: the add / replace / remove fragment of
    RFC 6902 that the system prompt advertises, with JSON-pointer
    paths.  It instantiates the [jsonpatch] parameters of the sections
    above wherever a statement is evaluated on concrete data. *)

Module Rfc6902.

Inductive Operation : Type :=
| AddOperation (path : list string) (value : json)
| ReplaceOperation (path : list string) (value : json)
| RemoveOperation (path : list string).

Definition InvalidJsonPatch (msg : string) : PyExn := mkExn "InvalidJsonPatch" msg false.
Definition JsonPatchConflict (msg : string) : PyExn := mkExn "JsonPatchConflict" msg false.
Definition JsonPointerException (msg : string) : PyExn :=
  mkExn "JsonPointerException" msg false.

(** Reference tokens of a pointer whose leading "/" has been removed. *)
Fixpoint split_tokens (acc s : string) : list string :=
  match s with
  | EmptyString => [acc]
  | String c rest =>
      if Ascii.eqb c "/"%char then acc :: split_tokens "" rest
      else split_tokens (acc ++ String c "") rest
  end.

Definition parse_pointer (p : string) : PyExn + list string :=
  match p with
  | EmptyString => inr []
  | String c rest =>
      if Ascii.eqb c "/"%char then inr (split_tokens "" rest)
      else inl (JsonPointerException "Location must start with /")
  end.

Definition get_operation (p : json) : PyExn + Operation :=
  match p with
  | JDict members =>
      match Py.dict_get "op" members, Py.dict_get "path" members with
      | Some (JStr op), Some (JStr path) =>
          match parse_pointer path with
          | inl e => inl e
          | inr tokens =>
              if String.eqb op "remove" then inr (RemoveOperation tokens)
              else
                match Py.dict_get "value" members with
                | None =>
                    inl (InvalidJsonPatch "The operation does not contain a 'value' member")
                | Some v =>
                    if String.eqb op "add" then inr (AddOperation tokens v)
                    else if String.eqb op "replace" then inr (ReplaceOperation tokens v)
                    else inl (InvalidJsonPatch "Unknown operation")
                end
          end
      | _, _ => inl (InvalidJsonPatch "Operation must have 'op' and 'path' members")
      end
  | _ => inl (InvalidJsonPatch "Operation must be a mapping")
  end.

Definition digit (c : ascii) : option nat :=
  let n := nat_of_ascii c in
  if ((48 <=? n) && (n <=? 57))%nat then Some (n - 48)%nat else None.

Fixpoint digits (acc : nat) (s : string) : option nat :=
  match s with
  | EmptyString => Some acc
  | String c rest =>
      match digit c with
      | Some d => digits (10 * acc + d)%nat rest
      | None => None
      end
  end.

(** An array index: "0" or a decimal number without a leading zero. *)
Definition array_index (token : string) : option nat :=
  match token with
  | EmptyString => None
  | String c rest =>
      if (Ascii.eqb c "0"%char && negb (String.eqb rest ""))%bool then None
      else digits 0 token
  end.

Fixpoint dict_set (key : string) (v : json) (members : list (string * json))
  : list (string * json) :=
  match members with
  | [] => [(key, v)]
  | (k, w) :: rest =>
      if String.eqb k key then (k, v) :: rest else (k, w) :: dict_set key v rest
  end.

Fixpoint dict_remove (key : string) (members : list (string * json))
  : list (string * json) :=
  match members with
  | [] => []
  | (k, w) :: rest =>
      if String.eqb k key then rest else (k, w) :: dict_remove key rest
  end.

Fixpoint list_set (i : nat) (v : json) (items : list json) : list json :=
  match items, i with
  | [], _ => []
  | _ :: rest, O => v :: rest
  | x :: rest, S j => x :: list_set j v rest
  end.

Fixpoint list_insert (i : nat) (v : json) (items : list json) : list json :=
  match i, items with
  | O, _ => v :: items
  | S j, x :: rest => x :: list_insert j v rest
  | S _, [] => [v]
  end.

Fixpoint list_remove (i : nat) (items : list json) : list json :=
  match items, i with
  | [], _ => []
  | _ :: rest, O => rest
  | x :: rest, S j => x :: list_remove j rest
  end.

(** The member of [obj] that a reference token addresses. *)
Definition walk (token : string) (obj : json) : PyExn + json :=
  match obj with
  | JDict members =>
      match Py.dict_get token members with
      | Some v => inr v
      | None => inl (JsonPointerException "member not found")
      end
  | JList items =>
      match array_index token with
      | Some i =>
          match nth_error items i with
          | Some v => inr v
          | None => inl (JsonPointerException "index out of bounds")
          end
      | None => inl (JsonPointerException "not a valid sequence index")
      end
  | _ => inl (JsonPointerException "document is not a mapping or sequence")
  end.

(** Put [v] back where [token] addresses an existing member. *)
Definition put (token : string) (v : json) (obj : json) : json :=
  match obj with
  | JDict members => JDict (dict_set token v members)
  | JList items =>
      match array_index token with
      | Some i => JList (list_set i v items)
      | None => obj
      end
  | _ => obj
  end.

(** Apply [leaf] at the parent addressed by all but the last token. *)
Fixpoint at_parent (leaf : string -> json -> PyExn + json)
         (token : string) (rest : list string) (obj : json) : PyExn + json :=
  match rest with
  | [] => leaf token obj
  | next :: rest' =>
      match walk token obj with
      | inl e => inl e
      | inr child =>
          match at_parent leaf next rest' child with
          | inl e => inl e
          | inr child' => inr (put token child' obj)
          end
      end
  end.

Definition add_leaf (value : json) (token : string) (obj : json) : PyExn + json :=
  match obj with
  | JDict members => inr (JDict (dict_set token value members))
  | JList items =>
      if String.eqb token "-" then inr (JList (items ++ [value]))
      else
        match array_index token with
        | Some i =>
            if (i <=? List.length items)%nat then inr (JList (list_insert i value items))
            else inl (JsonPatchConflict "can't insert outside of list")
        | None => inl (JsonPointerException "not a valid sequence index")
        end
  | _ => inl (TypeError "invalid document type")
  end.

Definition replace_leaf (value : json) (token : string) (obj : json) : PyExn + json :=
  match obj with
  | JDict members =>
      match Py.dict_get token members with
      | Some _ => inr (JDict (dict_set token value members))
      | None => inl (JsonPatchConflict "can't replace a non-existent object")
      end
  | JList items =>
      match array_index token with
      | Some i =>
          if (i <? List.length items)%nat then inr (JList (list_set i value items))
          else inl (JsonPatchConflict "can't replace outside of list")
      | None => inl (JsonPointerException "not a valid sequence index")
      end
  | _ => inl (TypeError "invalid document type")
  end.

Definition remove_leaf (token : string) (obj : json) : PyExn + json :=
  match obj with
  | JDict members =>
      match Py.dict_get token members with
      | Some _ => inr (JDict (dict_remove token members))
      | None => inl (JsonPatchConflict "can't remove a non-existent object")
      end
  | JList items =>
      match array_index token with
      | Some i =>
          if (i <? List.length items)%nat then inr (JList (list_remove i items))
          else inl (JsonPatchConflict "can't remove a non-existent object")
      | None => inl (JsonPointerException "not a valid sequence index")
      end
  | _ => inl (JsonPointerException "document is not a mapping or sequence")
  end.

Definition operation_apply (op : Operation) (obj : json) : PyExn + json :=
  match op with
  | AddOperation [] value => inr value
  | AddOperation (t :: rest) value => at_parent (add_leaf value) t rest obj
  | ReplaceOperation [] value => inr value
  | ReplaceOperation (t :: rest) value => at_parent (replace_leaf value) t rest obj
  | RemoveOperation [] => inl (JsonPatchConflict "can't remove the root")
  | RemoveOperation (t :: rest) => at_parent remove_leaf t rest obj
  end.

End Rfc6902.

(** ** Two concrete schemas *)

(** [class Persona(BaseModel): age: int; name: str] of the module's
    [__main__] block. *)
Module Persona.

Record t : Type := mk { age : Z; name : string }.

Definition ValidationError (msg : string) : PyExn := mkExn "ValidationError" msg false.

Definition validate (d : json) : PyExn + t :=
  match d with
  | JDict members =>
      match Py.dict_get "age" members, Py.dict_get "name" members with
      | Some (JInt a), Some (JStr n) => inr (mk a n)
      | _, _ => inl (ValidationError "validation errors for Persona")
      end
  | _ => inl (TypeError "argument after ** must be a mapping")
  end.

Definition model_dump (p : t) : json :=
  JDict [("age", JInt (age p)); ("name", JStr (name p))].

End Persona.

(** A model that declares no field: every mapping validates and the
    dump is the empty dict. *)
Module EmptyModel.

Definition validate (d : json) : PyExn + unit :=
  match d with
  | JDict _ => inr tt
  | _ => inl (TypeError "argument after ** must be a mapping")
  end.

Definition model_dump (_ : unit) : json := JDict [].

End EmptyModel.

(** ** The tools on the Persona schema *)

Module PersonaTools.

Definition patch_tool :=
  apply_json_patches Persona.validate Persona.model_dump
                     Rfc6902.get_operation Rfc6902.operation_apply.

Definition tools :=
  run_tools Persona.validate Persona.model_dump
            Rfc6902.get_operation Rfc6902.operation_apply.

Definition jane (age : Z) : json :=
  JDict [("age", JInt age); ("name", JStr "Jane")].

Definition empty_state : AgentState :=
  {| current_extraction := None; images := JDict []; existing_data := None |}.

Definition jane_state : AgentState :=
  {| current_extraction := Some (jane 34);
     images := JDict [];
     existing_data := None |}.

Definition replace_age : json :=
  JDict [("op", JStr "replace"); ("path", JStr "/age"); ("value", JInt 35)].

Definition remove_missing : json :=
  JDict [("op", JStr "remove"); ("path", JStr "/missing/0")].

Definition age_to_text : json :=
  JDict [("op", JStr "replace"); ("path", JStr "/age"); ("value", JStr "thirty-five")].

Definition replace_name : json :=
  JDict [("op", JStr "replace"); ("path", JStr "/name"); ("value", JStr "Janet")].

End PersonaTools.

(** ** Usage over several exchanges *)

Definition Zsum (l : list Z) : Z := fold_right Z.add 0 l.

(** The running total after the given exchanges, oldest first. *)
Definition accumulate_all (responses : list AgentResult) : BedrockUsage :=
  fold_left (fun token_usage r => accumulate token_usage (Some r))
            responses token_usage_init.

(** The results of the invocations, among the first [n], that returned. *)
Definition received (model : nat -> Exchange) (n : nat) : list AgentResult :=
  flat_map (fun i => match outcome (model i) with
                     | inr r => [r]
                     | inl _ => []
                     end) (seq 0 n).

(** ** Runs on the Persona schema *)

Module Scenario.

Definition run (model : nat -> Exchange) (review_agent : bool) (max_tokens : option Z) :=
  structured_output_async Persona.validate Persona.model_dump
                          Rfc6902.get_operation Rfc6902.operation_apply model
                          "us.anthropic.claude-sonnet-4-20250514-v1:0"
                          None review_agent "Extraction" max_tokens.

Definition connection_reset : PyExn :=
  mkExn "ConnectionError" "Connection reset by peer" false.

Definition access_denied : PyExn :=
  mkExn "ClientError"
        "An error occurred (AccessDeniedException) when calling the Converse operation"
        true.

Definition usage (input output : Z) : option EventLoopMetrics :=
  Some (mkMetrics [("inputTokens", input); ("outputTokens", output);
                   ("totalTokens", input + output)]).

Definition raises (e : PyExn) : Exchange := mkExchange [] (inl e).

(** The model stores {age: 34, name: "Jane"} and yields (Scenario A). *)
Definition extracts_jane : Exchange :=
  mkExchange [CallExtractionTool (PersonaTools.jane 34)]
             (inr (mkResult (usage 100 20))).

(** The model yields without calling a tool. *)
Definition answers_in_text : Exchange :=
  mkExchange [] (inr (mkResult (usage 90 10))).

(** The model corrects the age with a patch. *)
Definition patches_age : Exchange :=
  mkExchange [CallApplyJsonPatches [PersonaTools.replace_age]]
             (inr (mkResult (usage 150 5))).

Definition failures_then_jane (failures : nat) (n : nat) : Exchange :=
  if (n <? failures)%nat then raises connection_reset else extracts_jane.

Definition denied_then_jane (n : nat) : Exchange :=
  match n with
  | O => raises access_denied
  | _ => extracts_jane
  end.

Definition jane_then_patch (n : nat) : Exchange :=
  match n with
  | O => extracts_jane
  | _ => patches_age
  end.

Definition text_then_jane (n : nat) : Exchange :=
  match n with
  | O => answers_in_text
  | _ => extracts_jane
  end.

Definition only_text (n : nat) : Exchange := answers_in_text.

(** The model only ever patches; it never calls extraction_tool. *)
Definition only_patch (n : nat) : Exchange := patches_age.

End Scenario.

(** ** Model configuration and caching (lines 56-82 and 428-501) *)

Module Caching.

Definition supports_tool_caching (model_id : string) : bool :=
  PyStr.contains "anthropic.claude" model_id
  || PyStr.contains "us.anthropic.claude" model_id.

(** [CACHEPOINT_SUPPORTED_MODELS] is imported from the Bedrock client
    module and is a parameter here. *)
Definition supports_prompt_caching (CACHEPOINT_SUPPORTED_MODELS : list string)
           (model_id : string) : bool :=
  PyStr.mem model_id CACHEPOINT_SUPPORTED_MODELS.

(** The keyword arguments handed to [BedrockModel]; an absent key is
    [None]. *)
Record ModelConfig : Type := mkConfig {
  config_model_id : string;
  config_max_tokens : Z;
  cache_prompt : option string;
  cache_tools : option string
}.

Definition model_config (CACHEPOINT_SUPPORTED_MODELS : list string)
           (model_id : string) (max_tokens : option Z) : ModelConfig :=
  let max_output_tokens := Capability.max_output_tokens model_id max_tokens in
  if supports_prompt_caching CACHEPOINT_SUPPORTED_MODELS model_id then
    if supports_tool_caching model_id then
      mkConfig model_id max_output_tokens (Some "default") (Some "default")
    else
      mkConfig model_id max_output_tokens (Some "default") None
  else
    mkConfig model_id max_output_tokens None None.

End Caching.

(** ** The blocking entry point (lines 764-893) *)

(** [structured_output] runs [structured_output_async] to completion,
    directly or on a worker thread with a loop of its own, and returns
    its result or raises its exception.  It has no [max_tokens]
    parameter, so the coroutine runs with the default [None]. *)
Definition structured_output {TargetModel Operation : Type}
           (data_format : json -> PyExn + TargetModel)
           (model_dump : TargetModel -> json)
           (get_operation : json -> PyExn + Operation)
           (operation_apply : Operation -> json -> PyExn + json)
           (model : nat -> Exchange)
           (model_id : string) (existing : option TargetModel)
           (review_agent : bool) (context : string)
  : World * (PyExn + (TargetModel * BedrockInvokeModelResponse)) :=
  structured_output_async data_format model_dump get_operation operation_apply
                          model model_id existing review_agent context None.


(** ** More Python helpers, for the error-analyzer tools *)

Module PyLib.

(** Plain dicts of the analyzer tools. *)
Definition Dict : Type := list (string * json).

(** [d.get(key, default)] and [d.get(key)]; Python's [None] is [JNull]. *)
Definition get_or (key : string) (default : json) (d : Dict) : json :=
  match Py.dict_get key d with
  | Some v => v
  | None => default
  end.

Definition get (key : string) (d : Dict) : json := get_or key JNull d.

Definition AttributeError (msg : string) : PyExn := mkExn "AttributeError" msg false.
Definition KeyError (msg : string) : PyExn := mkExn "KeyError" msg false.

(** [v.get(key, default)] on a value that is only known to be some
    object: a dict answers, anything else has no [get]. *)
Definition value_get (key : string) (default : json) (v : json) : PyExn + json :=
  match v with
  | JDict d => inr (get_or key default d)
  | _ => inl (AttributeError "object has no attribute 'get'")
  end.

(** [v[key]] where [v] is a dict that has the key. *)
Definition item (key : string) (v : json) : option json :=
  match v with
  | JDict d => Py.dict_get key d
  | _ => None
  end.

(** [a or b] *)
Definition py_or (a b : json) : json := if Py.truthy a then a else b.

Definition bind {A B : Type} (m : PyExn + A) (f : A -> PyExn + B) : PyExn + B :=
  match m with
  | inl e => inl e
  | inr a => f a
  end.

(** [s.replace(old, new)]: occurrences are replaced from the left and
    do not overlap; [skip] counts the characters of an occurrence still
    to be dropped. *)
Fixpoint replace_from (old new : string) (skip : nat) (s : string) : string :=
  match s with
  | EmptyString => EmptyString
  | String c rest =>
      match skip with
      | S k => replace_from old new k rest
      | O =>
          if String.prefix old s
          then new ++ replace_from old new (String.length old - 1) rest
          else String c (replace_from old new 0 rest)
      end
  end.

(** With an empty [old], [new] goes before every character and at the
    end. *)
Fixpoint replace_empty (new s : string) : string :=
  match s with
  | EmptyString => new
  | String c rest => new ++ String c (replace_empty new rest)
  end.

Definition replace (old new s : string) : string :=
  match old with
  | EmptyString => replace_empty new s
  | _ => replace_from old new 0 s
  end.

(** [l[start:]] and [l[:stop]] for a list, [s[:stop]] for a string;
    a negative bound counts from the end. *)
Definition slice_from {A : Type} (start : Z) (l : list A) : list A :=
  if start <? 0
  then skipn (Z.to_nat (Z.max 0 (Z.of_nat (List.length l) + start))) l
  else skipn (Z.to_nat start) l.

Definition slice_to {A : Type} (stop : Z) (l : list A) : list A :=
  if stop <? 0
  then firstn (Z.to_nat (Z.max 0 (Z.of_nat (List.length l) + stop))) l
  else firstn (Z.to_nat stop) l.

Definition str_slice_to (stop : Z) (s : string) : string :=
  if stop <? 0
  then String.substring 0 (Z.to_nat (Z.max 0 (Z.of_nat (String.length s) + stop))) s
  else String.substring 0 (Z.to_nat stop) s.

(** [str(n)] for an int. *)
Definition str_int (n : Z) : string := NilZero.string_of_int (Z.to_int n).

(** [", ".join(parts)] for any separator. *)
Fixpoint join (sep : string) (parts : list string) : string :=
  match parts with
  | [] => ""
  | [p] => p
  | p :: rest => p ++ sep ++ join sep rest
  end.

End PyLib.

Declare Scope exn_scope.
Notation "x <- m ;; k" := (PyLib.bind m (fun x => k))
  (at level 100, m at next level, right associativity) : exn_scope.
Open Scope exn_scope.

(** ** Step Functions tools
    (agents/error_analyzer/tools/stepfunction_tools.py) *)

Module StepFunctions.

Import PyLib.

Definition failure_events : list string :=
  ["ExecutionFailed"; "TaskFailed"; "LambdaFunctionFailed"; "TaskTimedOut";
   "ExecutionTimedOut"].

(** Lines 17-63.  The result is [None] or the [details] dict. *)
Definition _extract_failure_details (event : Dict) : PyExn + option Dict :=
  match get_or "type" (JStr "") event with
  | JStr event_type =>
      if negb (PyStr.mem event_type failure_events) then inr None
      else if String.eqb event_type "ExecutionFailed" then
        let failure_detail := get_or "executionFailedEventDetails" (JDict []) event in
        error <- value_get "error" (JStr "Unknown execution error") failure_detail ;;
        cause <- value_get "cause" (JStr "No cause provided") failure_detail ;;
        inr (Some [("error", error); ("cause", cause)])
      else if String.eqb event_type "TaskFailed" then
        let failure_detail := get_or "taskFailedEventDetails" (JDict []) event in
        error <- value_get "error" (JStr "Unknown task error") failure_detail ;;
        cause <- value_get "cause" (JStr "No cause provided") failure_detail ;;
        resource <- value_get "resource" (JStr "Unknown resource") failure_detail ;;
        inr (Some [("error", error); ("cause", cause); ("resource", resource)])
      else if String.eqb event_type "LambdaFunctionFailed" then
        let failure_detail :=
          get_or "lambdaFunctionFailedEventDetails" (JDict []) event in
        error <- value_get "error" (JStr "Lambda function failed") failure_detail ;;
        cause <- value_get "cause" (JStr "No cause provided") failure_detail ;;
        inr (Some [("error", error); ("cause", cause)])
      else if PyStr.contains "TimedOut" event_type then
        let timeout_detail :=
          py_or (get "executionTimedOutEventDetails" event)
                (get_or "taskTimedOutEventDetails" (JDict []) event) in
        cause <- value_get "cause" (JStr "Execution exceeded timeout limit")
                           timeout_detail ;;
        inr (Some [("error", JStr (replace "EventDetails" "" event_type));
                   ("cause", cause)])
      else inr (Some [])
  | _ => inr None
  end.

(** The loop variables of [_analyze_execution_timeline]. *)
Record Scan : Type := mkScan {
  timeline : list json;
  failure_point : option Dict;
  last_successful_state : json
}.

Definition scan_start : Scan := mkScan [] None JNull.

Section Timeline.

(** [str(v)] for a value that is not a string, as an f-string formats
    it. *)
Variable str_other : json -> string.

Definition format_value (v : json) : string :=
  match v with
  | JStr s => s
  | _ => str_other v
  end.

(** The limit [_analyze_execution_timeline] reads from the analyzer
    configuration, 3 when the configuration cannot be loaded or has no
    such entry. *)
Variable max_timeline_events : Z.

(** One iteration of the loop of lines 75-111. *)
Definition scan_event (s : Scan) (event : Dict) : PyExn + Scan :=
  let timestamp := get "timestamp" event in
  let event_type := get_or "type" (JStr "") event in
  s1 <- (if Py.eqb event_type (JStr "StateEntered") then
           state_name <- value_get "name" (JStr "Unknown")
                                   (get_or "stateEnteredEventDetails" (JDict []) event) ;;
           inr (mkScan
                  (timeline s
                   ++ [JDict [("timestamp", timestamp);
                              ("event", JStr ("Entered state: " ++ format_value state_name));
                              ("state", state_name)]])
                  (failure_point s)
                  state_name)
         else if Py.eqb event_type (JStr "StateExited") then
           state_name <- value_get "name" (JStr "Unknown")
                                   (get_or "stateExitedEventDetails" (JDict []) event) ;;
           inr (mkScan
                  (timeline s
                   ++ [JDict [("timestamp", timestamp);
                              ("event", JStr ("Exited state: " ++ format_value state_name));
                              ("state", state_name)]])
                  (failure_point s)
                  (last_successful_state s))
         else inr s) ;;
  failure_details <- _extract_failure_details event ;;
  match failure_details, failure_point s1 with
  | Some ((_ :: _) as details), None =>
      inr (mkScan (timeline s1)
                  (Some [("timestamp", timestamp);
                         ("event_type", event_type);
                         ("state", last_successful_state s1);
                         ("details", JDict details)])
                  (last_successful_state s1))
  | _, _ => inr s1
  end.

Fixpoint scan (s : Scan) (events : list Dict) : PyExn + Scan :=
  match events with
  | [] => inr s
  | event :: rest => s' <- scan_event s event ;; scan s' rest
  end.

(** Lines 66-126. *)
Definition _analyze_execution_timeline (events : list Dict) : PyExn + json :=
  match events with
  | [] => inr (JDict [("error", JStr "No execution events available")])
  | _ =>
      s <- scan scan_start events ;;
      inr (JDict [("timeline", JList (slice_from (- max_timeline_events) (timeline s)));
                  ("failure_point",
                   match failure_point s with
                   | Some p => JDict p
                   | None => JNull
                   end);
                  ("last_successful_state", last_successful_state s)])
  end.

End Timeline.

(** An event whose type is one of the five failure types. *)
Definition is_failure (event : Dict) : bool :=
  match get_or "type" (JStr "") event with
  | JStr event_type => PyStr.mem event_type failure_events
  | _ => false
  end.

(** An event that adds a line to the timeline. *)
Definition is_state_event (event : Dict) : bool :=
  Py.eqb (get_or "type" (JStr "") event) (JStr "StateEntered")
  || Py.eqb (get_or "type" (JStr "") event) (JStr "StateExited").

(** An event that enters a state. *)
Definition is_entered (event : Dict) : bool :=
  Py.eqb (get_or "type" (JStr "") event) (JStr "StateEntered").

(** The entry lines 84-90 append for a StateEntered event and lines
    95-101 for a StateExited event. *)
Definition timeline_entry (str_other : json -> string) (event : Dict)
  : PyExn + json :=
  let timestamp := get "timestamp" event in
  if is_entered event then
    state_name <- value_get "name" (JStr "Unknown")
                            (get_or "stateEnteredEventDetails" (JDict []) event) ;;
    inr (JDict [("timestamp", timestamp);
                ("event", JStr ("Entered state: " ++ format_value str_other state_name));
                ("state", state_name)])
  else
    state_name <- value_get "name" (JStr "Unknown")
                            (get_or "stateExitedEventDetails" (JDict []) event) ;;
    inr (JDict [("timestamp", timestamp);
                ("event", JStr ("Exited state: " ++ format_value str_other state_name));
                ("state", state_name)]).

End StepFunctions.

(** ** An execution history, most recent event first *)

Module History.

Import PyLib.

Definition str_other (v : json) : string :=
  match v with
  | JNull => "None"
  | JInt n => str_int n
  | JBool true => "True"
  | JBool false => "False"
  | _ => ""
  end.

Definition execution_failed : Dict :=
  [("timestamp", JInt 5); ("type", JStr "ExecutionFailed");
   ("executionFailedEventDetails",
    JDict [("error", JStr "States.TaskFailed"); ("cause", JStr "Lambda raised")])].

Definition task_failed : Dict :=
  [("timestamp", JInt 4); ("type", JStr "TaskFailed");
   ("taskFailedEventDetails", JDict [("error", JStr "Lambda.Unknown")])].

Definition entered (timestamp : Z) (name : string) : Dict :=
  [("timestamp", JInt timestamp); ("type", JStr "StateEntered");
   ("stateEnteredEventDetails", JDict [("name", JStr name)])].

Definition exited (timestamp : Z) (name : string) : Dict :=
  [("timestamp", JInt timestamp); ("type", JStr "StateExited");
   ("stateExitedEventDetails", JDict [("name", JStr name)])].

Definition task_timed_out : Dict :=
  [("timestamp", JInt 6); ("type", JStr "TaskTimedOut");
   ("taskTimedOutEventDetails", JDict [("cause", JStr "task heartbeat")]);
   ("executionTimedOutEventDetails", JDict [("cause", JStr "execution limit")])].

Definition events : list Dict :=
  [execution_failed; task_failed; entered 3 "Extraction"; exited 2 "OCR";
   entered 1 "OCR"].

Definition analysis (max_timeline_events : Z) : PyExn + json :=
  StepFunctions._analyze_execution_timeline str_other max_timeline_events events.

End History.

(** ** System-wide analysis tool
    (agents/error_analyzer/tools/general_analysis_tool.py) *)

Module GeneralAnalysis.

Import PyLib.

(** Lines 19-27. *)
Definition _get_prioritized_error_patterns : list (string * Z) :=
  [("ERROR", 5); ("Exception", 3); ("ValidationException", 2); ("Failed", 2);
   ("Timeout", 1)].

(** *** The two substitutions of the error signature

    Log messages are taken as ASCII text, so [\d] is a decimal digit
    0-9 and a character is a byte. *)

Definition is_digit (c : ascii) : bool :=
  let n := nat_of_ascii c in ((48 <=? n) && (n <=? 57))%nat.

(** The class [a-f0-9-]. *)
Definition is_request_id_char (c : ascii) : bool :=
  let n := nat_of_ascii c in
  is_digit c || ((97 <=? n) && (n <=? 102))%nat || Ascii.eqb c "-"%char.

(** [shape] read with "d" for [\d] and any other character for itself:
    what is left of [s] after a match of the shape at its start. *)
Fixpoint match_shape (shape s : string) : option string :=
  match shape with
  | EmptyString => Some s
  | String p shape' =>
      match s with
      | EmptyString => None
      | String c s' =>
          if (if Ascii.eqb p "d"%char then is_digit c else Ascii.eqb c p)
          then match_shape shape' s'
          else None
      end
  end.

(** [.*?Z] at the start of [s]: the length up to and including the
    first "Z", provided no newline comes before it. *)
Fixpoint lazy_to_Z (s : string) : option nat :=
  match s with
  | EmptyString => None
  | String c rest =>
      if Ascii.eqb c "Z"%char then Some 1%nat
      else if Ascii.eqb c (ascii_of_nat 10) then None
      else option_map S (lazy_to_Z rest)
  end.

(** Length of the match of [\d{4}-\d{2}-\d{2}.*?Z] at the start of
    [s]. *)
Definition match_timestamp (s : string) : option nat :=
  match match_shape "dddd-dd-dd" s with
  | Some rest => option_map (Nat.add 10) (lazy_to_Z rest)
  | None => None
  end.

(** How many leading characters of [s] satisfy [p]. *)
Fixpoint span (p : ascii -> bool) (s : string) : nat :=
  match s with
  | EmptyString => O
  | String c rest => if p c then S (span p rest) else O
  end.

(** What is left of [s] after the literal [lit] at its start. *)
Fixpoint match_literal (lit s : string) : option string :=
  match lit with
  | EmptyString => Some s
  | String p lit' =>
      match s with
      | EmptyString => None
      | String c s' => if Ascii.eqb c p then match_literal lit' s' else None
      end
  end.

(** Length of the match of [RequestId: [a-f0-9-]+] at the start of
    [s]. *)
Definition match_request_id (s : string) : option nat :=
  match match_literal "RequestId: " s with
  | Some rest =>
      match span is_request_id_char rest with
      | O => None
      | n => Some (11 + n)%nat
      end
  | None => None
  end.

(** [re.sub(pattern, "", s)] for a pattern that never matches the empty
    string: the leftmost match is dropped, the search goes on behind
    it.  [skip] counts the characters of a match still to be dropped. *)
Fixpoint sub_from (matcher : string -> option nat) (skip : nat) (s : string)
  : string :=
  match s with
  | EmptyString => EmptyString
  | String c rest =>
      match skip with
      | S k => sub_from matcher k rest
      | O =>
          match matcher s with
          | Some (S n) => sub_from matcher n rest
          | _ => String c (sub_from matcher 0 rest)
          end
      end
  end.

(** Lines 42-43. *)
Definition error_signature (message : string) : string :=
  sub_from match_request_id 0 (sub_from match_timestamp 0 message).

(** *** _filter_and_deduplicate_events (lines 30-61) *)

(** A value used as an integer: an int, or a bool (which is an int). *)
Definition int_value (v : json) : option Z :=
  match v with
  | JInt n => Some n
  | JBool b => Some (if b then 1 else 0)
  | _ => None
  end.

(** [v[:50]] *)
Definition first_50 (v : json) : PyExn + json :=
  match v with
  | JStr s => inr (JStr (str_slice_to 50 s))
  | JList items => inr (JList (slice_to 50 items))
  | _ => inl (TypeError "object is not subscriptable")
  end.

(** Lines 49-51. *)
Definition truncate (max_length : Z) (message : string) : string :=
  if Z.of_nat (String.length message) >? max_length
  then str_slice_to max_length message ++ "..."
  else message.

Record FilterState : Type := mkFilter {
  seen_messages : list string;
  filtered : list Dict
}.

(** One iteration of the loop. *)
Definition filter_event (config : Dict) (st : FilterState) (event : Dict)
  : PyExn + FilterState :=
  match get_or "message" (JStr "") event with
  | JStr message =>
      let signature := error_signature message in
      if negb (PyStr.mem signature (seen_messages st))
         && (List.length (filtered st) <? 10)%nat
      then
        match int_value (get_or "max_log_message_length" (JInt 200) config) with
        | None => inl (TypeError "'>' not supported between instances")
        | Some max_length =>
            let truncated_message := truncate max_length message in
            match Py.dict_get "timestamp" event with
            | None => inl (KeyError "timestamp")
            | Some timestamp =>
                log_stream <- first_50 (get_or "log_stream" (JStr "") event) ;;
                inr (mkFilter
                       (seen_messages st ++ [signature])
                       (filtered st
                        ++ [[("timestamp", timestamp);
                             ("message", JStr truncated_message);
                             ("log_stream", log_stream)]]))
            end
        end
      else inr st
  | _ => inl (TypeError "expected string or bytes-like object")
  end.

Fixpoint filter_events (config : Dict) (st : FilterState) (events : list Dict)
  : PyExn + FilterState :=
  match events with
  | [] => inr st
  | event :: rest => st' <- filter_event config st event ;; filter_events config st' rest
  end.

Definition _filter_and_deduplicate_events (events : list Dict) (config : Dict)
  : PyExn + list Dict :=
  st <- filter_events config (mkFilter [] []) events ;;
  inr (filtered st).

(** *** _categorize_errors (lines 64-87) *)

Definition category_names : list string :=
  ["validation_errors"; "processing_errors"; "system_errors"; "timeout_errors";
   "access_errors"].

(** The dict of categories, in insertion order. *)
Definition Categories : Type := list (string * list Dict).

(** [categories[key].append(event)] *)
Fixpoint append_to (key : string) (event : Dict) (categories : Categories)
  : Categories :=
  match categories with
  | [] => []
  | (k, errors) :: rest =>
      if String.eqb k key then (k, (errors ++ [event])%list) :: rest
      else (k, errors) :: append_to key event rest
  end.

(** The chain of tests on the lower-cased message. *)
Definition category_of (message : string) : string :=
  if PyStr.contains "validation" message || PyStr.contains "invalid" message
  then "validation_errors"
  else if PyStr.contains "timeout" message then "timeout_errors"
  else if PyStr.contains "access" message || PyStr.contains "denied" message
  then "access_errors"
  else if PyStr.contains "exception" message || PyStr.contains "error" message
  then "processing_errors"
  else "system_errors".

Fixpoint categorize (categories : Categories) (log_events : list Dict)
  : PyExn + Categories :=
  match log_events with
  | [] => inr categories
  | event :: rest =>
      match get_or "message" (JStr "") event with
      | JStr text =>
          let message := PyStr.lower text in
          categorize (append_to (category_of message) event categories) rest
      | _ => inl (AttributeError "object has no attribute 'lower'")
      end
  end.

Definition _categorize_errors (log_events : list Dict) : PyExn + Categories :=
  categorize (map (fun name => (name, [])) category_names) log_events.

(** *** _generate_error_summary (lines 90-109) *)

Definition _generate_error_summary (categories : Categories)
           (failed_documents : list json) (total_estimate : Z) : string :=
  let total_errors :=
    fold_right Nat.add O (map (fun kv => List.length (snd kv)) categories) in
  if (total_errors =? 0)%nat then
    "No processing errors found in the specified time range"
  else
    let header :=
      "Found " ++ str_int total_estimate ++ " total errors across "
      ++ str_int (Z.of_nat (List.length failed_documents)) ++ " failed documents" in
    let breakdown :=
      flat_map (fun kv =>
                  match snd kv with
                  | [] => []
                  | errors =>
                      [str_int (Z.of_nat (List.length errors)) ++ " "
                       ++ replace "_" " " (fst kv)]
                  end) categories in
    join ". " (header :: breakdown).

(** The class an event falls in, if its message is a string. *)
Definition event_category (event : Dict) : option string :=
  match get_or "message" (JStr "") event with
  | JStr text => Some (category_of (PyStr.lower text))
  | _ => None
  end.

Definition in_category (name : string) (event : Dict) : bool :=
  match event_category event with
  | Some c => String.eqb c name
  | None => false
  end.

(** The message of an event, if it is a string. *)
Definition event_message (event : Dict) : option string :=
  match get_or "message" (JStr "") event with
  | JStr text => Some text
  | _ => None
  end.

(** The error signatures of the events whose message is a string. *)
Definition signatures (events : list Dict) : list string :=
  flat_map (fun event => match event_message event with
                         | Some text => [error_signature text]
                         | None => []
                         end) events.

(** The whole of [ts] is one match of the timestamp pattern. *)
Definition is_timestamp (ts : string) : bool :=
  match match_timestamp ts with
  | Some n => (n =? String.length ts)%nat
  | None => false
  end.

(** The invariant of the filter loop over the signatures [read] so
    far: as many entries as signatures seen, no signature seen twice,
    every signature seen was read, below the cap every signature read
    was seen, and never more than ten entries. *)
Definition filter_invariant (st : FilterState) (read : list string) : Prop :=
  List.length (filtered st) = List.length (seen_messages st)
  /\ NoDup (seen_messages st)
  /\ incl (seen_messages st) read
  /\ ((List.length (filtered st) < 10)%nat -> incl read (seen_messages st))
  /\ (List.length (filtered st) <= 10)%nat.

End GeneralAnalysis.

(** ** The multi-pattern search of analyze_recent_system_errors
    (general_analysis_tool.py, lines 174-208) *)

Module RecentErrors.

Import PyLib GeneralAnalysis.

(** What the loop reads of one search result: the entries
    "total_events_found" and "results", and of every element of
    "results" the entry "events"; each may be absent. *)
Record LogGroupResult : Type := mkGroup {
  events : option (list Dict)
}.

Record SearchResults : Type := mkSearch {
  total_events_found : option Z;
  results : option (list LogGroupResult)
}.

(** One entry of [error_summary]. *)
Record PatternSummary : Type := mkSummary {
  count : Z;
  sample_events : list Dict
}.

(** The variables of the loop, and the searches made so far as
    (pattern, max_log_events asked for). *)
Record Collected : Type := mkCollected {
  error_summary : list (string * PatternSummary);
  all_log_events : list Dict;
  total_events_collected : Z;
  searches : list (string * Z)
}.

Definition collect_start : Collected := mkCollected [] [] 0 [].

(** [d[key] = v] *)
Fixpoint assoc_set {V : Type} (key : string) (v : V) (d : list (string * V))
  : list (string * V) :=
  match d with
  | [] => [(key, v)]
  | (k, w) :: rest =>
      if String.eqb k key then (k, v) :: rest else (k, w) :: assoc_set key v rest
  end.

Section Search.

(** [search_stack_logs] of cloudwatch_tools, called with
    filter_pattern, hours_back, max_log_events and max_log_groups.  It
    is defined outside the files at hand and is a parameter here. *)
Variable search_stack_logs : string -> Z -> Z -> Z -> PyExn + SearchResults.

(** The analyzer configuration in force. *)
Variable config : Dict.

(** [time_range_hours] and [max_log_events] after their conversion to
    int. *)
Variable time_range_hours : Z.
Variable max_log_events : Z.

Definition default {A : Type} (d : A) (o : option A) : A :=
  match o with
  | Some a => a
  | None => d
  end.

(** The body of the loop behind the budget test. *)
Definition collect_pattern (c : Collected) (pattern : string) (max_events : Z)
  : PyExn + Collected :=
  let asked := Z.min max_events (max_log_events - total_events_collected c) in
  found <- search_stack_logs pattern time_range_hours asked 10 ;;
  let searched := (searches c ++ [(pattern, asked)])%list in
  if default 0 (total_events_found found) >? 0 then
    let pattern_events :=
      flat_map (fun result => default [] (events result))
               (default [] (results found)) in
    filtered_events <- _filter_and_deduplicate_events pattern_events config ;;
    match int_value (get_or "max_response_events_per_group" (JInt 1) config) with
    | None => inl (TypeError "slice indices must be integers")
    | Some per_group =>
        inr (mkCollected
               (assoc_set pattern
                          (mkSummary (default 0 (total_events_found found))
                                     (slice_to (per_group * 2) filtered_events))
                          (error_summary c))
               (all_log_events c ++ filtered_events)
               (total_events_collected c
                + Z.of_nat (List.length filtered_events))
               searched)
    end
  else
    inr (mkCollected (error_summary c) (all_log_events c)
                     (total_events_collected c) searched).

Fixpoint collect (patterns : list (string * Z)) (c : Collected)
  : PyExn + Collected :=
  match patterns with
  | [] => inr c
  | (pattern, max_events) :: rest =>
      if total_events_collected c >=? max_log_events then inr c
      else c' <- collect_pattern c pattern max_events ;; collect rest c'
  end.

(** Step 2 of the tool. *)
Definition multi_pattern_search : PyExn + Collected :=
  collect _get_prioritized_error_patterns collect_start.

End Search.

End RecentErrors.

(** ** A handful of log events *)

Module Logs.

Import PyLib.

Definition event (timestamp : Z) (message : string) : Dict :=
  [("timestamp", JInt timestamp); ("message", JStr message);
   ("log_stream", JStr "2024/01/15/[$LATEST]0123456789abcdef")].

Definition invalid_first : Dict :=
  event 1 "2024-01-15T10:30:00Z Validation failed for document".

Definition invalid_again : Dict :=
  event 2 "2024-01-16T11:31:05Z Validation failed for document".

Definition timed_out : Dict := event 3 "Task timeout after 30s".

Definition events : list Dict := [invalid_first; invalid_again; timed_out].

Definition config : Dict := [("max_log_message_length", JInt 20)].

(** A log search that finds the three events under "ERROR" and nothing
    under the other patterns. *)
Definition search_stack_logs (filter_pattern : string)
           (hours_back max_log_events max_log_groups : Z)
  : PyExn + RecentErrors.SearchResults :=
  if String.eqb filter_pattern "ERROR"
  then inr (RecentErrors.mkSearch (Some 3) (Some [RecentErrors.mkGroup (Some events)]))
  else inr (RecentErrors.mkSearch (Some 0) (Some [])).

Definition search (max_log_events : Z) : PyExn + RecentErrors.Collected :=
  RecentErrors.multi_pattern_search search_stack_logs config 24 max_log_events.

Definition collected (max_log_events : Z) : RecentErrors.Collected :=
  match search max_log_events with
  | inr c => c
  | inl _ => RecentErrors.collect_start
  end.

End Logs.

(** * Properties *)

(** ** Substring search *)

Lemma prefix_iff (p s : string) :
  String.prefix p s = true <-> exists post, s = p ++ post.
Proof.
  revert s; induction p as [|c p IH]; intros s; simpl.
  - split; [intros _; exists s; reflexivity | intros _; destruct s; reflexivity].
  - destruct s as [|d s].
    + split; [discriminate | intros [post H]; discriminate].
    + simpl. destruct (ascii_dec c d) as [Hcd|Hcd].
      * subst d. rewrite IH. split; intros [post H]; exists post.
        -- now rewrite H.
        -- now inversion H.
      * split; [discriminate | intros [post H]; inversion H; congruence].
Qed.

Lemma contains_iff (pat s : string) :
  PyStr.contains pat s = true <-> exists pre post, s = pre ++ pat ++ post.
Proof.
  induction s as [|c s IH]; cbn [PyStr.contains].
  - rewrite orb_false_r, prefix_iff. split.
    + intros [post H]. exists "", post. exact H.
    + intros [pre [post H]]. destruct pre; simpl in H.
      * exists post. exact H.
      * discriminate.
  - rewrite orb_true_iff, IH, prefix_iff. split.
    + intros [[post H] | [pre [post H]]].
      * exists "", post. exact H.
      * exists (String c pre), post. simpl. now rewrite H.
    + intros [pre [post H]]. destruct pre as [|d pre]; simpl in H.
      * left. exists post. exact H.
      * right. inversion H. exists pre, post. reflexivity.
Qed.

(** ** Capability detection *)

(** C6. Capability detection maps a model identifier to its maximum
    output tokens by a fixed precedence: a match of the generation-4
    pattern gives 64000; otherwise a Nova family name gives 10000;
    otherwise "claude-3" gives 8192; otherwise the default 4096.  A
    generation-4 identifier with no explicit max_tokens therefore runs
    with an effective maximum of 64000. *)
Theorem model_max_precedence (model_id : string) :
  let s := PyStr.lower model_id in
  (Capability.re_search_claude4 s = true ->
   Capability.model_max model_id = 64000
   /\ Capability.max_output_tokens model_id None = 64000)
  /\ (Capability.re_search_claude4 s = false ->
      Capability.any_nova s = true ->
      Capability.model_max model_id = 10000)
  /\ (Capability.re_search_claude4 s = false ->
      Capability.any_nova s = false ->
      PyStr.contains "claude-3" s = true ->
      Capability.model_max model_id = 8192)
  /\ (Capability.re_search_claude4 s = false ->
      Capability.any_nova s = false ->
      PyStr.contains "claude-3" s = false ->
      Capability.model_max model_id = 4096).
Proof.
  unfold Capability.max_output_tokens, Capability.clamp, Capability.model_max.
  cbv zeta.
  repeat split; intros; repeat match goal with H : _ = _ |- _ => rewrite H end;
    reflexivity.
Qed.

Lemma model_max_precedence_witness :
  Capability.model_max "us.anthropic.claude-sonnet-4-20250514-v1:0" = 64000
  /\ Capability.max_output_tokens "us.anthropic.claude-sonnet-4-20250514-v1:0" None = 64000
  /\ Capability.model_max "us.amazon.nova-pro-v1:0" = 10000
  /\ Capability.model_max "anthropic.claude-3-5-sonnet-20241022-v2:0" = 8192
  /\ Capability.model_max "meta.llama3-70b-instruct-v1:0" = 4096.
Proof.
  split; [| split; [| split; [| split]]].
  - apply (proj1 (model_max_precedence "us.anthropic.claude-sonnet-4-20250514-v1:0")).
    reflexivity.
  - apply (proj1 (model_max_precedence "us.anthropic.claude-sonnet-4-20250514-v1:0")).
    reflexivity.
  - apply (proj1 (proj2 (model_max_precedence "us.amazon.nova-pro-v1:0")));
      reflexivity.
  - apply (proj1 (proj2 (proj2
      (model_max_precedence "anthropic.claude-3-5-sonnet-20241022-v2:0"))));
      reflexivity.
  - apply (proj2 (proj2 (proj2
      (model_max_precedence "meta.llama3-70b-instruct-v1:0"))));
      reflexivity.
Defined.

(** The four classes are told apart by the first match only: an
    identifier naming both a generation-4 family and "claude-3" is in the
    first class. *)
Example model_max_first_match :
  Capability.model_max "claude-3-proxy/claude-opus-4" = 64000.
Proof. reflexivity. Qed.

(** ** The clamp *)

Lemma clamp_le (max_tokens : option Z) (m : Z) : Capability.clamp max_tokens m <= m.
Proof.
  unfold Capability.clamp. destruct max_tokens as [t|]; [|lia].
  destruct (Z.gtb_spec t m); lia.
Qed.

(** ** The patch tool *)

Section ToolFacts.

Variable TargetModel : Type.
Variable model_class : json -> PyExn + TargetModel.
Variable model_dump : TargetModel -> json.
Variable Operation : Type.
Variable get_operation : json -> PyExn + Operation.
Variable operation_apply : Operation -> json -> PyExn + json.

Local Abbreviation patch_tool :=
  (apply_json_patches model_class model_dump get_operation operation_apply).
Local Abbreviation set_tool := (extraction_tool model_class model_dump).
Local Abbreviation tools :=
  (run_tools model_class model_dump get_operation operation_apply).
Local Abbreviation patch_data := (apply_patches_to_data get_operation operation_apply).

Lemma JsonPatch_app (pre post : list json) (ops1 ops2 : list Operation) :
  JsonPatch get_operation pre = inr ops1 ->
  JsonPatch get_operation post = inr ops2 ->
  JsonPatch get_operation (pre ++ post)%list = inr (ops1 ++ ops2)%list.
Proof.
  revert ops1; induction pre as [|p pre IH]; intros ops1 H1 H2; simpl in *.
  - inversion H1; subst. exact H2.
  - destruct (get_operation p) as [e|op]; [discriminate|].
    destruct (JsonPatch get_operation pre) as [e|ops]; [discriminate|].
    inversion H1; subst. rewrite (IH ops eq_refl H2). reflexivity.
Qed.

Lemma JsonPatch_split (pre post : list json) (ops : list Operation) :
  JsonPatch get_operation (pre ++ post)%list = inr ops ->
  exists ops1 ops2,
    JsonPatch get_operation pre = inr ops1
    /\ JsonPatch get_operation post = inr ops2
    /\ ops = (ops1 ++ ops2)%list.
Proof.
  revert ops; induction pre as [|p pre IH]; intros ops H; simpl in *.
  - exists [], ops. auto.
  - destruct (get_operation p) as [e|op]; [discriminate|].
    destruct (JsonPatch get_operation (pre ++ post)%list) as [e|ops'] eqn:E;
      [discriminate|].
    destruct (IH ops' eq_refl) as (ops1 & ops2 & H1 & H2 & H3).
    rewrite H1. inversion H; subst.
    exists (op :: ops1), ops2. auto.
Qed.

Lemma JsonPatch_apply_app (ops1 ops2 : list Operation) (obj obj1 : json) :
  JsonPatch_apply operation_apply ops1 obj = inr obj1 ->
  JsonPatch_apply operation_apply (ops1 ++ ops2)%list obj
  = JsonPatch_apply operation_apply ops2 obj1.
Proof.
  revert obj; induction ops1 as [|op ops1 IH]; intros obj H; simpl in *.
  - inversion H; subst. reflexivity.
  - destruct (operation_apply op obj) as [e|obj']; [discriminate|].
    apply IH. exact H.
Qed.

Lemma operation_fails_whole_set (data : json) (patches : list json) :
  operation_fails get_operation operation_apply data patches ->
  exists e, patch_data data patches = inl e.
Proof.
  intros (pre & p & post & -> & Hfail).
  unfold apply_patches_to_data.
  destruct (pre ++ p :: post)%list as [|x xs] eqn:Epatches.
  { destruct pre; discriminate. }
  rewrite <- Epatches. clear x xs Epatches.
  destruct (JsonPatch get_operation (pre ++ p :: post)%list) as [e|all] eqn:Eall.
  { exists e. reflexivity. }
  destruct (JsonPatch_split _ _ _ Eall) as (ops1 & ops2 & H1 & H2 & ->).
  simpl in H2.
  destruct Hfail as [[e He] | (ops & obj & op & e & Hpre & Hrun & Hop & Hraise)].
  - rewrite He in H2. discriminate.
  - rewrite Hop in H2.
    destruct (JsonPatch get_operation post) as [e'|ops']; [discriminate|].
    inversion H2; subst. rewrite Hpre in H1. inversion H1; subst.
    rewrite (JsonPatch_apply_app _ _ _ _ Hrun). simpl. rewrite Hraise.
    exists e. reflexivity.
Qed.

Lemma patch_tool_unchanged_on_error (patches : list json) (st : AgentState) :
  tool_error (snd (patch_tool patches st)) = true ->
  fst (patch_tool patches st) = st.
Proof.
  unfold apply_json_patches.
  destruct (negb (Py.truthy_opt (current_extraction st))); [reflexivity|].
  destruct (current_extraction st) as [data|]; [|reflexivity].
  destruct (patch_data data patches) as [e|patched]; [reflexivity|].
  destruct (model_class patched) as [e|v]; [reflexivity|].
  simpl. discriminate.
Qed.

Lemma JsonPatch_apply_split (ops1 ops2 : list Operation) (obj patched : json) :
  JsonPatch_apply operation_apply (ops1 ++ ops2)%list obj = inr patched ->
  exists mid,
    JsonPatch_apply operation_apply ops1 obj = inr mid
    /\ JsonPatch_apply operation_apply ops2 mid = inr patched.
Proof.
  revert obj; induction ops1 as [|op ops1 IH]; intros obj H; simpl in *.
  - exists obj. auto.
  - destruct (operation_apply op obj) as [e|obj']; [discriminate|].
    apply IH. exact H.
Qed.

Lemma JsonPatch_operations (patches : list json) (ops : list Operation) :
  JsonPatch get_operation patches = inr ops ->
  Forall2 (fun p op => get_operation p = inr op) patches ops.
Proof.
  revert ops; induction patches as [|p patches IH]; intros ops H; simpl in H.
  - inversion H. constructor.
  - destruct (get_operation p) as [e|op] eqn:Hop; [discriminate|].
    destruct (JsonPatch get_operation patches) as [e|ops']; [discriminate|].
    inversion H; subst. constructor; [exact Hop | apply IH; reflexivity].
Qed.

(** The early return for an empty list agrees with building and
    applying an empty patch. *)
Lemma patch_data_unfold (data : json) (patches : list json) :
  patch_data data patches
  = match JsonPatch get_operation patches with
    | inl e => inl e
    | inr patch => JsonPatch_apply operation_apply patch data
    end.
Proof. destruct patches; reflexivity. Qed.

Lemma patch_data_ordered (data patched : json) (patches : list json) :
  patch_data data patches = inr patched ->
  (exists ops,
      Forall2 (fun p op => get_operation p = inr op) patches ops
      /\ JsonPatch_apply operation_apply ops data = inr patched)
  /\ (forall pre post,
         patches = (pre ++ post)%list ->
         exists mid,
           patch_data data pre = inr mid /\ patch_data mid post = inr patched).
Proof.
  rewrite patch_data_unfold.
  destruct (JsonPatch get_operation patches) as [e|ops] eqn:Hops; [discriminate|].
  intros Hrun. split.
  - exists ops. split; [apply JsonPatch_operations; exact Hops | exact Hrun].
  - intros pre post ->.
    destruct (JsonPatch_split _ _ _ Hops) as (ops1 & ops2 & H1 & H2 & ->).
    destruct (JsonPatch_apply_split _ _ _ _ Hrun) as (mid & Hmid & Hrest).
    exists mid. rewrite !patch_data_unfold, H1, H2. split; assumption.
Qed.

(** C2. Patch application is atomic.  Whenever the patch tool reports
    an error the stored extraction state is the state before the call.
    That is the case when some operation of the set fails and when the
    patched object fails validation.  When every operation applies and
    the result validates, the call commits: the extraction stored
    afterwards, as the view tool returns it, is the dump of the
    validated result, the other entries of the state are untouched and
    the tool reports success with the number of patches.  That result
    is the one of the whole set in its order: one operation per entry,
    run from first to last, each on the object its predecessors left. *)
Theorem apply_json_patches_atomic (patches : list json) (st : AgentState) :
  (tool_error (snd (patch_tool patches st)) = true ->
   fst (patch_tool patches st) = st)
  /\ (forall data,
         current_extraction st = Some data ->
         operation_fails get_operation operation_apply data patches ->
         fst (patch_tool patches st) = st
         /\ tool_error (snd (patch_tool patches st)) = true)
  /\ (forall data patched e,
         current_extraction st = Some data ->
         patch_data data patches = inr patched ->
         model_class patched = inl e ->
         fst (patch_tool patches st) = st
         /\ tool_error (snd (patch_tool patches st)) = true)
  /\ (forall data patched v,
         current_extraction st = Some data ->
         Py.truthy data = true ->
         patch_data data patches = inr patched ->
         model_class patched = inr v ->
         let st' := fst (patch_tool patches st) in
         current_extraction st' = Some (model_dump v)
         /\ images st' = images st
         /\ existing_data st' = existing_data st
         /\ snd (view_existing_extraction st') = ToolReturned (model_dump v)
         /\ snd (patch_tool patches st)
            = ToolReturned
                (JDict [("status", JStr "success");
                        ("patches_applied", JInt (Z.of_nat (List.length patches)))]))
  /\ (forall data patched,
         patch_data data patches = inr patched ->
         (exists ops,
             Forall2 (fun p op => get_operation p = inr op) patches ops
             /\ JsonPatch_apply operation_apply ops data = inr patched)
         /\ (forall pre post,
                patches = (pre ++ post)%list ->
                exists mid,
                  patch_data data pre = inr mid
                  /\ patch_data mid post = inr patched)).
Proof.
  split; [apply patch_tool_unchanged_on_error|].
  split; [|split; [|split]].
  - intros data Hcur Hfail.
    destruct (operation_fails_whole_set data patches Hfail) as [e He].
    unfold apply_json_patches. rewrite Hcur. simpl.
    destruct (Py.truthy data); simpl; [|auto].
    rewrite He. simpl. auto.
  - intros data patched e Hcur Hpatch Hval.
    unfold apply_json_patches. rewrite Hcur. simpl.
    destruct (Py.truthy data); simpl; [|auto].
    rewrite Hpatch, Hval. simpl. auto.
  - intros data patched v Hcur Htruthy Hpatch Hval. cbv zeta.
    unfold apply_json_patches. rewrite Hcur. simpl.
    rewrite Htruthy. simpl. rewrite Hpatch, Hval.
    repeat split.
  - intros data patched. apply patch_data_ordered.
Qed.

Lemma patch_tool_without_extraction (patches : list json) (st : AgentState) :
  current_extraction st = None ->
  patch_tool patches st = (st, ToolReturned no_current_extraction).
Proof.
  intros H. unfold apply_json_patches. rewrite H. reflexivity.
Qed.

Lemma run_tools_without_extraction (calls : list ToolCall) (st : AgentState) :
  current_extraction st = None ->
  no_successful_extraction model_class calls ->
  run_tools model_class model_dump get_operation operation_apply calls st = st.
Proof.
  intros Hnone Hcalls. induction Hcalls as [|c calls Hc _ IH]; simpl.
  - reflexivity.
  - destruct c as [extraction|patches|]; simpl.
    + destruct Hc as [e He]. unfold extraction_tool. rewrite He. exact IH.
    + rewrite (patch_tool_without_extraction patches st Hnone). exact IH.
    + exact IH.
Qed.

(** C8. Called when the state holds no current extraction, which is
    the case when the caller passed no existing_data and no successful
    extraction_tool call has stored one, the patch tool returns the
    error dict "No current extraction to patch" as its value, whatever
    the patch set, and leaves the state as it was.  With existing_data
    passed, its dump is the current extraction from the start, and the
    patch tool does not answer with that error although extraction_tool
    was never called. *)
Theorem apply_json_patches_requires_extraction
        (calls : list ToolCall) (patches : list json) :
  no_successful_extraction model_class calls ->
  (forall st0,
      current_extraction st0 = None ->
      let st := tools calls st0 in
      patch_tool patches st
      = (st, ToolReturned (JDict [("error", JStr "No current extraction to patch")]))
      /\ st = st0)
  /\ (forall model_id max_tokens,
         let st0 := agent_state (initial_world model_dump model_id None max_tokens) in
         let st := tools calls st0 in
         patch_tool patches st
         = (st, ToolReturned (JDict [("error", JStr "No current extraction to patch")]))
         /\ st = st0)
  /\ (forall model_id baseline max_tokens,
         Py.truthy (model_dump baseline) = true ->
         let st0 := agent_state
                      (initial_world model_dump model_id (Some baseline) max_tokens) in
         current_extraction st0 = Some (model_dump baseline)
         /\ snd (patch_tool patches st0)
            <> ToolReturned (JDict [("error", JStr "No current extraction to patch")])).
Proof.
  intros Hcalls.
  assert (Hnone : forall st0,
             current_extraction st0 = None ->
             patch_tool patches (tools calls st0)
             = (tools calls st0, ToolReturned no_current_extraction)
             /\ tools calls st0 = st0).
  { intros st0 Hnone.
    rewrite (run_tools_without_extraction calls st0 Hnone Hcalls).
    split; [|reflexivity].
    apply patch_tool_without_extraction. exact Hnone. }
  split; [|split].
  - intros st0 H0. cbv zeta. apply Hnone. exact H0.
  - intros model_id max_tokens. cbv zeta. apply Hnone. reflexivity.
  - intros model_id baseline max_tokens Htruthy. cbv zeta.
    split; [reflexivity|].
    unfold apply_json_patches.
    cbn [initial_world agent_state set_current_extraction current_extraction
         Py.truthy_opt].
    rewrite Htruthy. cbn [negb].
    destruct (patch_data (model_dump baseline) patches) as [e|patched];
      [discriminate|].
    destruct (model_class patched) as [e|v]; discriminate.
Qed.

(** C10. After a successful extraction_tool call whose stored dump is
    the empty dict, the patch tool still returns the
    "No current extraction to patch" error and applies nothing: the
    guard tests the truth value of the stored extraction, and an empty
    dict is false. *)
Theorem empty_extraction_rejected_by_patch_tool
        (extraction : json) (v : TargetModel) (patches : list json)
        (st : AgentState) :
  model_class extraction = inr v ->
  model_dump v = JDict [] ->
  let st1 := fst (set_tool extraction st) in
  snd (set_tool extraction st)
  = ToolReturned (JStr "Extraction succeeded, the data format is correct")
  /\ current_extraction st1 = Some (JDict [])
  /\ patch_tool patches st1
     = (st1, ToolReturned (JDict [("error", JStr "No current extraction to patch")])).
Proof.
  intros Hval Hdump. cbv zeta. unfold extraction_tool. rewrite Hval. simpl.
  rewrite Hdump. repeat split.
Qed.

End ToolFacts.

(** Scenario B: replacing /age commits the patched record. *)
Example scenario_B :
  PersonaTools.patch_tool [PersonaTools.replace_age] PersonaTools.jane_state
  = (set_current_extraction (PersonaTools.jane 35) PersonaTools.jane_state,
     ToolReturned (JDict [("status", JStr "success"); ("patches_applied", JInt 1)])).
Proof. reflexivity. Qed.

(** Scenario C: removing an unknown path raises inside the tool and the
    record stays retrievable. *)
Example scenario_C :
  PersonaTools.patch_tool [PersonaTools.remove_missing] PersonaTools.jane_state
  = (PersonaTools.jane_state,
     ToolRaised (Rfc6902.JsonPointerException "member not found"))
  /\ view_existing_extraction PersonaTools.jane_state
     = (PersonaTools.jane_state, ToolReturned (PersonaTools.jane 34)).
Proof. split; reflexivity. Qed.

Lemma apply_json_patches_atomic_witness :
  (* a valid replace followed by a remove of an unknown path *)
  (fst (PersonaTools.patch_tool
          [PersonaTools.replace_age; PersonaTools.remove_missing]
          PersonaTools.jane_state) = PersonaTools.jane_state
   /\ tool_error (snd (PersonaTools.patch_tool
                         [PersonaTools.replace_age; PersonaTools.remove_missing]
                         PersonaTools.jane_state)) = true)
  (* a replace whose result fails validation *)
  /\ (fst (PersonaTools.patch_tool [PersonaTools.age_to_text] PersonaTools.jane_state)
      = PersonaTools.jane_state
      /\ tool_error (snd (PersonaTools.patch_tool [PersonaTools.age_to_text]
                                                  PersonaTools.jane_state)) = true)
  (* a valid set of two: the age is replaced, then the name *)
  /\ (let st' := fst (PersonaTools.patch_tool
                        [PersonaTools.replace_age; PersonaTools.replace_name]
                        PersonaTools.jane_state) in
      current_extraction PersonaTools.jane_state
      = Some (JDict [("age", JInt 34); ("name", JStr "Jane")])
      /\ current_extraction st'
         = Some (JDict [("age", JInt 35); ("name", JStr "Janet")])
      /\ images st' = JDict []
      /\ existing_data st' = None
      /\ snd (view_existing_extraction st')
         = ToolReturned (JDict [("age", JInt 35); ("name", JStr "Janet")])
      /\ snd (PersonaTools.patch_tool
                [PersonaTools.replace_age; PersonaTools.replace_name]
                PersonaTools.jane_state)
         = ToolReturned (JDict [("status", JStr "success");
                                ("patches_applied", JInt 2)]))
  (* the same set, first entry then second *)
  /\ (exists mid,
         apply_patches_to_data Rfc6902.get_operation Rfc6902.operation_apply
                               (PersonaTools.jane 34) [PersonaTools.replace_age]
         = inr mid
         /\ apply_patches_to_data Rfc6902.get_operation Rfc6902.operation_apply
                                  mid [PersonaTools.replace_name]
            = inr (JDict [("age", JInt 35); ("name", JStr "Janet")])).
Proof.
  split; [|split; [|split]].
  - apply (proj1 (proj2
      (apply_json_patches_atomic _ Persona.validate Persona.model_dump _
         Rfc6902.get_operation Rfc6902.operation_apply
         [PersonaTools.replace_age; PersonaTools.remove_missing]
         PersonaTools.jane_state)) (PersonaTools.jane 34) eq_refl).
    exists [PersonaTools.replace_age], PersonaTools.remove_missing, [].
    split; [reflexivity|]. right.
    exists [Rfc6902.ReplaceOperation ["age"] (JInt 35)], (PersonaTools.jane 35),
      (Rfc6902.RemoveOperation ["missing"; "0"]),
      (Rfc6902.JsonPointerException "member not found").
    repeat split.
  - apply (proj1 (proj2 (proj2
      (apply_json_patches_atomic _ Persona.validate Persona.model_dump _
         Rfc6902.get_operation Rfc6902.operation_apply
         [PersonaTools.age_to_text] PersonaTools.jane_state)))
      (PersonaTools.jane 34)
      (JDict [("age", JStr "thirty-five"); ("name", JStr "Jane")])
      (Persona.ValidationError "validation errors for Persona"));
      reflexivity.
  - cbv zeta. split; [reflexivity|].
    apply (proj1 (proj2 (proj2 (proj2
      (apply_json_patches_atomic _ Persona.validate Persona.model_dump _
         Rfc6902.get_operation Rfc6902.operation_apply
         [PersonaTools.replace_age; PersonaTools.replace_name]
         PersonaTools.jane_state))))
      (PersonaTools.jane 34)
      (JDict [("age", JInt 35); ("name", JStr "Janet")])
      (Persona.mk 35 "Janet"));
      reflexivity.
  - apply (proj2 (proj2 (proj2 (proj2 (proj2
      (apply_json_patches_atomic _ Persona.validate Persona.model_dump _
         Rfc6902.get_operation Rfc6902.operation_apply
         [PersonaTools.replace_age; PersonaTools.replace_name]
         PersonaTools.jane_state))))
      (PersonaTools.jane 34)
      (JDict [("age", JInt 35); ("name", JStr "Janet")])
      eq_refl)
      [PersonaTools.replace_age] [PersonaTools.replace_name] eq_refl).
Defined.

Lemma apply_json_patches_requires_extraction_witness :
  (* a rejected extraction and a view, then a patch *)
  let calls := [CallExtractionTool (JDict [("name", JStr "Jane")]);
                CallViewExistingExtraction] in
  let st0 := agent_state
               (initial_world Persona.model_dump
                              "us.anthropic.claude-sonnet-4-20250514-v1:0" None None) in
  st0 = PersonaTools.empty_state
  /\ PersonaTools.patch_tool [PersonaTools.replace_age] (PersonaTools.tools calls st0)
     = (PersonaTools.tools calls st0,
        ToolReturned (JDict [("error", JStr "No current extraction to patch")]))
  /\ PersonaTools.tools calls st0 = st0.
Proof.
  cbv zeta. split; [reflexivity|].
  apply (proj1 (proj2
    (apply_json_patches_requires_extraction
       _ Persona.validate Persona.model_dump
       _ Rfc6902.get_operation Rfc6902.operation_apply
       [CallExtractionTool (JDict [("name", JStr "Jane")]);
        CallViewExistingExtraction]
       [PersonaTools.replace_age]
       ltac:(repeat constructor;
             exists (Persona.ValidationError "validation errors for Persona");
             reflexivity)))
    "us.anthropic.claude-sonnet-4-20250514-v1:0" None).
Defined.

(** C8, as stated, fails: the caller passes the record {age: 34, name:
    "Jane"} as existing_data and the model's only tool call is the
    patch tool.  No extraction_tool call is ever made, yet the patch is
    applied and the call returns the patched record. *)
Lemma patch_tool_applies_to_preloaded_data :
  let st0 := agent_state
               (initial_world Persona.model_dump
                              "us.anthropic.claude-sonnet-4-20250514-v1:0"
                              (Some (Persona.mk 34 "Jane")) None) in
  let r := structured_output_async
             Persona.validate Persona.model_dump
             Rfc6902.get_operation Rfc6902.operation_apply Scenario.only_patch
             "us.anthropic.claude-sonnet-4-20250514-v1:0"
             (Some (Persona.mk 34 "Jane")) false "Extraction" None in
  no_successful_extraction Persona.validate []
  /\ (forall n, tool_calls (Scenario.only_patch n)
                = [CallApplyJsonPatches [PersonaTools.replace_age]])
  /\ PersonaTools.patch_tool [PersonaTools.replace_age] st0
     <> (st0, ToolReturned (JDict [("error", JStr "No current extraction to patch")]))
  /\ snd (PersonaTools.patch_tool [PersonaTools.replace_age] st0)
     = ToolReturned (JDict [("status", JStr "success"); ("patches_applied", JInt 1)])
  /\ current_extraction (fst (PersonaTools.patch_tool [PersonaTools.replace_age] st0))
     = Some (JDict [("age", JInt 35); ("name", JStr "Jane")])
  /\ snd r = inr (Persona.mk 35 "Jane",
                  {| metering_key :=
                       "Extraction/bedrock/us.anthropic.claude-sonnet-4-20250514-v1:0";
                     metering_usage := mkUsage 150 5 155 0 0 |})
  /\ calls (fst r) = 1%nat.
Proof.
  cbv zeta. split; [constructor|]. split; [reflexivity|].
  split; [vm_compute; discriminate|].
  repeat split.
Qed.

Lemma empty_extraction_rejected_by_patch_tool_witness :
  let add_note := JDict [("op", JStr "add"); ("path", JStr "/note"); ("value", JStr "x")] in
  let st1 := fst (extraction_tool EmptyModel.validate EmptyModel.model_dump
                                  (JDict []) PersonaTools.empty_state) in
  snd (extraction_tool EmptyModel.validate EmptyModel.model_dump
                       (JDict []) PersonaTools.empty_state)
  = ToolReturned (JStr "Extraction succeeded, the data format is correct")
  /\ current_extraction st1 = Some (JDict [])
  /\ apply_json_patches EmptyModel.validate EmptyModel.model_dump
                        Rfc6902.get_operation Rfc6902.operation_apply
                        [add_note] st1
     = (st1, ToolReturned (JDict [("error", JStr "No current extraction to patch")])).
Proof.
  apply (empty_extraction_rejected_by_patch_tool _ EmptyModel.validate
           EmptyModel.model_dump _ Rfc6902.get_operation Rfc6902.operation_apply
           (JDict []) tt
           [JDict [("op", JStr "add"); ("path", JStr "/note"); ("value", JStr "x")]]
           PersonaTools.empty_state); reflexivity.
Defined.

(** ** The orchestration loop *)

Section OrchestrationFacts.

Variable TargetModel : Type.
Variable data_format : json -> PyExn + TargetModel.
Variable model_dump : TargetModel -> json.
Variable Operation : Type.
Variable get_operation : json -> PyExn + Operation.
Variable operation_apply : Operation -> json -> PyExn + json.
Variable model : nat -> Exchange.

Local Abbreviation invoke :=
  (invoke_async data_format model_dump get_operation operation_apply model).
Local Abbreviation retry :=
  (retry_loop data_format model_dump get_operation operation_apply model).
Local Abbreviation run :=
  (structured_output_async data_format model_dump get_operation operation_apply model).
Local Abbreviation start := (initial_world model_dump).

Lemma invoke_eta (w : World) :
  invoke w = (fst (invoke w), outcome (model (calls w))).
Proof. reflexivity. Qed.

Lemma invoke_calls (w : World) : calls (fst (invoke w)) = S (calls w).
Proof. reflexivity. Qed.

Lemma invoke_slept (w : World) : slept (fst (invoke w)) = slept w.
Proof. reflexivity. Qed.

Lemma invoke_max_tokens (w : World) :
  bedrock_max_tokens (fst (invoke w)) = bedrock_max_tokens w.
Proof. reflexivity. Qed.

(** The three ways through one iteration of the retry loop. *)

Lemma retry_break (attempt : nat) (rest : list nat) (delay : Z) (w : World)
      (response : AgentResult) :
  outcome (model (calls w)) = inr response ->
  retry (attempt :: rest) delay w = (fst (invoke w), inr (Some response)).
Proof.
  intros H. cbn [retry_loop]. rewrite invoke_eta, H. reflexivity.
Qed.

Lemma retry_again (attempt : nat) (rest : list nat) (delay : Z) (w : World)
      (e : PyExn) :
  outcome (model (calls w)) = inl e ->
  is_retryable e = true ->
  (attempt =? max_retries - 1)%nat = false ->
  retry (attempt :: rest) delay w
  = retry rest (delay * 2) (sleep delay (fst (invoke w))).
Proof.
  intros H Hretry Hlast. cbn [retry_loop]. rewrite invoke_eta, H, Hretry, Hlast.
  reflexivity.
Qed.

Lemma retry_raise (attempt : nat) (rest : list nat) (delay : Z) (w : World)
      (e : PyExn) :
  outcome (model (calls w)) = inl e ->
  is_retryable e && negb (attempt =? max_retries - 1)%nat = false ->
  retry (attempt :: rest) delay w = (fst (invoke w), inl (reraise e)).
Proof.
  intros H Hstop. cbn [retry_loop]. rewrite invoke_eta, H, Hstop. reflexivity.
Qed.

Lemma retry_max_tokens (attempts : list nat) (delay : Z) (w : World) :
  bedrock_max_tokens (fst (retry attempts delay w)) = bedrock_max_tokens w.
Proof.
  revert delay w; induction attempts as [|attempt rest IH]; intros delay w.
  - reflexivity.
  - cbn [retry_loop]. rewrite invoke_eta.
    destruct (outcome (model (calls w))) as [e|response]; [|reflexivity].
    destruct (is_retryable e && negb (attempt =? max_retries - 1)%nat).
    + rewrite IH. reflexivity.
    + reflexivity.
Qed.

(** A response that leaves the loop is the result of its last
    invocation, and every invocation before it raised. *)
Lemma retry_response (attempts : list nat) (delay : Z) (w w1 : World)
      (r : AgentResult) :
  retry attempts delay w = (w1, inr (Some r)) ->
  (calls w < calls w1)%nat
  /\ flat_map (fun i => match outcome (model i) with
                        | inr r => [r]
                        | inl _ => []
                        end)
              (seq (calls w) (calls w1 - calls w)) = [r].
Proof.
  revert delay w; induction attempts as [|attempt rest IH]; intros delay w H.
  - cbn in H. discriminate.
  - cbn [retry_loop] in H. rewrite invoke_eta in H.
    destruct (outcome (model (calls w))) as [e|r'] eqn:Hout.
    + destruct (is_retryable e && negb (attempt =? max_retries - 1)%nat);
        [|discriminate].
      destruct (IH _ _ H) as [Hlt Hrec].
      cbn [sleep calls] in Hlt, Hrec. rewrite invoke_calls in Hlt, Hrec.
      split; [lia|].
      replace (calls w1 - calls w)%nat with (S (calls w1 - S (calls w))) by lia.
      cbn [seq flat_map]. rewrite Hout. exact Hrec.
    + inversion H; subst. cbn [calls]. split; [lia|].
      replace (S (calls w) - calls w)%nat with 1%nat by lia.
      cbn [seq flat_map]. rewrite Hout. reflexivity.
Qed.

Lemma received_S (n : nat) :
  received model (S n)
  = (received model n ++ match outcome (model n) with
                         | inr r => [r]
                         | inl _ => []
                         end)%list.
Proof.
  unfold received. rewrite seq_S, flat_map_app. cbn [flat_map Nat.add].
  rewrite app_nil_r. reflexivity.
Qed.

Lemma finish_world (model_id context : string) (w : World)
      (result : option TargetModel) (response : option AgentResult)
      (token_usage : BedrockUsage) :
  fst (finish model_id context w result response token_usage) = w.
Proof. destruct result, response; reflexivity. Qed.

Lemma run_max_tokens (model_id : string) (existing : option TargetModel)
      (review_agent : bool) (context : string) (max_tokens : option Z) :
  bedrock_max_tokens (fst (run model_id existing review_agent context max_tokens))
  = Capability.max_output_tokens model_id max_tokens.
Proof.
  unfold structured_output_async.
  pose proof (retry_max_tokens (seq 0 max_retries) 2
                               (start model_id existing max_tokens)) as Hretry.
  destruct (retry (seq 0 max_retries) 2 (start model_id existing max_tokens))
    as [w1 [e|response]]; cbn [fst] in Hretry.
  - exact Hretry.
  - destruct (Py.truthy_opt (current_extraction (agent_state w1))).
    + destruct (construct data_format (current_extraction (agent_state w1)));
        [exact Hretry|].
      rewrite finish_world. exact Hretry.
    + destruct review_agent.
      * rewrite invoke_eta.
        destruct (outcome (model (calls w1))); [exact Hretry|].
        rewrite finish_world. exact Hretry.
      * rewrite finish_world. exact Hretry.
Qed.

Lemma run_raises (model_id : string) (existing : option TargetModel)
      (review_agent : bool) (context : string) (max_tokens : option Z)
      (w1 : World) (e : PyExn) :
  retry (seq 0 max_retries) 2 (start model_id existing max_tokens) = (w1, inl e) ->
  run model_id existing review_agent context max_tokens = (w1, inl e).
Proof.
  intros H. unfold structured_output_async. rewrite H. reflexivity.
Qed.

(** C5. The max_tokens the Bedrock model is configured with is the
    caller's value when one is given and does not exceed the maximum
    detected for the model, and the detected maximum otherwise; it never
    exceeds that maximum. *)
Theorem effective_max_tokens (model_id : string) (existing : option TargetModel)
        (review_agent : bool) (context : string) (max_tokens : option Z) :
  let model_max := Capability.model_max model_id in
  let effective :=
    bedrock_max_tokens
      (fst (run model_id existing review_agent context max_tokens)) in
  (forall requested,
      max_tokens = Some requested -> requested <= model_max ->
      effective = requested)
  /\ (forall requested,
         max_tokens = Some requested -> model_max < requested ->
         effective = model_max)
  /\ (max_tokens = None -> effective = model_max)
  /\ effective <= model_max.
Proof.
  cbv zeta. rewrite run_max_tokens.
  unfold Capability.max_output_tokens.
  split; [|split; [|split]].
  - intros requested -> Hle. unfold Capability.clamp.
    destruct (Z.gtb_spec requested (Capability.model_max model_id)); [lia|reflexivity].
  - intros requested -> Hlt. unfold Capability.clamp.
    destruct (Z.gtb_spec requested (Capability.model_max model_id)); [reflexivity|lia].
  - intros ->. reflexivity.
  - apply clamp_le.
Qed.

(** C4. An exception of the model call that is not in the retryable
    set leaves the retry loop at once: no further invocation, no sleep.
    A ClientError (authorization, quota) is re-raised as it is; any other
    exception leaves as a ValueError carrying its message.  On the first
    attempt the whole call ends after one invocation and without a
    sleep. *)
Theorem non_retryable_error_propagates (e : PyExn) :
  is_retryable e = false ->
  (forall attempt rest delay w,
      outcome (model (calls w)) = inl e ->
      let r := retry (attempt :: rest) delay w in
      snd r = inl (reraise e)
      /\ calls (fst r) = S (calls w)
      /\ slept (fst r) = slept w)
  /\ (forall model_id existing review_agent context max_tokens,
         outcome (model 0%nat) = inl e ->
         let r := run model_id existing review_agent context max_tokens in
         snd r = inl (reraise e)
         /\ calls (fst r) = 1%nat
         /\ slept (fst r) = [])
  /\ (exn_is_client_error e = true -> reraise e = e).
Proof.
  intros Hnot. split; [|split].
  - intros attempt rest delay w Hout. cbv zeta.
    rewrite (retry_raise attempt rest delay w e Hout)
      by (rewrite Hnot; reflexivity).
    repeat split.
  - intros model_id existing review_agent context max_tokens Hout. cbv zeta.
    rewrite (run_raises model_id existing review_agent context max_tokens
               (fst (invoke (start model_id existing max_tokens))) (reraise e)).
    + repeat split.
    + apply retry_raise; [exact Hout | rewrite Hnot; reflexivity].
  - intros Hclient. unfold reraise. rewrite Hclient. reflexivity.
Qed.

(** C3 (as the code has it). The outer loop makes at most three
    attempts.  Two consecutive retryable failures followed by a success
    leave the loop with that response after exactly three invocations
    and sleeps of 2 and then 4 seconds, and the call succeeds when the
    state then holds a valid extraction; nothing is invoked after the
    success.  When the third attempt fails as well, its exception is
    raised after the same three invocations and two sleeps. *)
Theorem retry_two_failures_then_success
        (model_id : string) (existing : option TargetModel) (review_agent : bool)
        (context : string) (max_tokens : option Z) (e0 e1 : PyExn) :
  outcome (model 0%nat) = inl e0 -> is_retryable e0 = true ->
  outcome (model 1%nat) = inl e1 -> is_retryable e1 = true ->
  let loop := retry (seq 0 max_retries) 2 (start model_id existing max_tokens) in
  let r := run model_id existing review_agent context max_tokens in
  (forall response,
      outcome (model 2%nat) = inr response ->
      snd loop = inr (Some response)
      /\ calls (fst loop) = 3%nat
      /\ slept (fst loop) = [2; 4]
      /\ (forall d result,
             current_extraction (agent_state (fst loop)) = Some d ->
             Py.truthy d = true ->
             data_format d = inr result ->
             r = (fst loop,
                  inr (result,
                       {| metering_key := context ++ "/bedrock/" ++ model_id;
                          metering_usage :=
                            accumulate token_usage_init (Some response) |}))))
  /\ (forall e2,
         outcome (model 2%nat) = inl e2 ->
         snd r = inl (reraise e2)
         /\ calls (fst r) = 3%nat
         /\ slept (fst r) = [2; 4]).
Proof.
  intros H0 Hr0 H1 Hr1. cbv zeta.
  set (w0 := start model_id existing max_tokens).
  set (wa := sleep 2 (fst (invoke w0))).
  set (wb := sleep (2 * 2) (fst (invoke wa))).
  assert (Hloop : retry (seq 0 max_retries) 2 w0
                  = retry [2%nat] (2 * 2 * 2) wb).
  { cbn [seq max_retries].
    rewrite (retry_again 0 _ 2 w0 e0 H0 Hr0 eq_refl). fold wa.
    rewrite (retry_again 1 _ (2 * 2) wa e1 H1 Hr1 eq_refl). reflexivity. }
  split.
  - intros response H2.
    assert (Hbreak : retry (seq 0 max_retries) 2 w0
                     = (fst (invoke wb), inr (Some response))).
    { rewrite Hloop. apply retry_break. exact H2. }
    rewrite Hbreak. cbn [fst snd].
    split; [reflexivity|]. split; [reflexivity|]. split; [reflexivity|].
    intros d result Hcur Htruthy Hvalid.
    unfold structured_output_async. fold w0. rewrite Hbreak.
    rewrite Hcur. cbn [Py.truthy_opt construct]. rewrite Htruthy, Hvalid.
    reflexivity.
  - intros e2 H2.
    rewrite (run_raises model_id existing review_agent context max_tokens
               (fst (invoke wb)) (reraise e2)).
    + repeat split.
    + fold w0. rewrite Hloop. apply retry_raise; [exact H2|].
      cbn. apply andb_false_r.
Qed.

(** C1. Every invocation either raises, or returns a record together
    with usage metering, and then the record is what the caller's schema
    validated from the extraction held in the final state; nothing else
    is ever returned.  Hence when the final state holds no extraction
    that validates, the call raises; and when the exchange returned
    without leaving an extraction and no review was requested, it raises
    the terminal "Failed to generate valid structured output." *)
Theorem structured_output_valid_or_error
        (model_id : string) (existing : option TargetModel) (review_agent : bool)
        (context : string) (max_tokens : option Z) :
  let r := run model_id existing review_agent context max_tokens in
  ((exists e, snd r = inl e)
   \/ (exists result metering d,
          snd r = inr (result, metering)
          /\ current_extraction (agent_state (fst r)) = Some d
          /\ data_format d = inr result
          /\ metering_key metering = context ++ "/bedrock/" ++ model_id))
  /\ ((forall d result,
          current_extraction (agent_state (fst r)) = Some d ->
          data_format d <> inr result) ->
      exists e, snd r = inl e)
  /\ (forall response,
         outcome (model 0%nat) = inr response ->
         Py.truthy_opt (current_extraction (agent_state (fst r))) = false ->
         review_agent = false ->
         snd r = inl (ValueError "Failed to generate valid structured output.")).
Proof.
  cbv zeta.
  assert (Hmain :
    (exists e, snd (run model_id existing review_agent context max_tokens) = inl e)
    \/ (exists result metering d,
           snd (run model_id existing review_agent context max_tokens)
           = inr (result, metering)
           /\ current_extraction
                (agent_state (fst (run model_id existing review_agent context
                                       max_tokens))) = Some d
           /\ data_format d = inr result
           /\ metering_key metering = context ++ "/bedrock/" ++ model_id)).
  { unfold structured_output_async.
    destruct (retry (seq 0 max_retries) 2 (start model_id existing max_tokens))
      as [w1 [e|response]].
    { left. exists e. reflexivity. }
    destruct (current_extraction (agent_state w1)) as [d|] eqn:Hcur;
      cbn [Py.truthy_opt construct].
    - destruct (Py.truthy d).
      + destruct (data_format d) as [e|result] eqn:Hvalid.
        * left. eexists. reflexivity.
        * destruct response as [resp|]; cbn [finish].
          -- right. eexists _, _, d. cbn [fst snd metering_key]. auto.
          -- left. eexists. reflexivity.
      + destruct review_agent.
        * rewrite invoke_eta.
          destruct (outcome (model (calls w1))) as [e|review_response].
          { left. exists e. reflexivity. }
          destruct (negb (Py.eqb_opt
                            (current_extraction (agent_state (fst (invoke w1))))
                            (Some d))).
          -- destruct (current_extraction (agent_state (fst (invoke w1))))
               as [d'|] eqn:Hupd; cbn [construct].
             ++ destruct (data_format d') as [e|result] eqn:Hvalid.
                ** left. eexists. reflexivity.
                ** destruct response as [resp|]; cbn [finish].
                   --- right. eexists _, _, d'. cbn [fst snd metering_key]. auto.
                   --- left. eexists. reflexivity.
             ++ left. eexists. reflexivity.
          -- left. eexists. reflexivity.
        * left. eexists. reflexivity.
    - destruct review_agent.
      + rewrite invoke_eta.
        destruct (outcome (model (calls w1))) as [e|review_response].
        { left. exists e. reflexivity. }
        destruct (negb (Py.eqb_opt
                          (current_extraction (agent_state (fst (invoke w1))))
                          None)).
        * destruct (current_extraction (agent_state (fst (invoke w1))))
            as [d'|] eqn:Hupd; cbn [construct].
          -- destruct (data_format d') as [e|result] eqn:Hvalid.
             ++ left. eexists. reflexivity.
             ++ destruct response as [resp|]; cbn [finish].
                ** right. eexists _, _, d'. cbn [fst snd metering_key]. auto.
                ** left. eexists. reflexivity.
          -- left. eexists. reflexivity.
        * left. eexists. reflexivity.
      + left. eexists. reflexivity. }
  split; [exact Hmain|]. split.
  - intros Hnone. destruct Hmain as [He | (result & metering & d & _ & Hcur & Hvalid & _)].
    + exact He.
    + exfalso. exact (Hnone d result Hcur Hvalid).
  - intros response Hout Hfalsy ->. revert Hfalsy.
    unfold structured_output_async. cbn [seq max_retries].
    rewrite (retry_break 0 _ 2 (start model_id existing max_tokens) response Hout).
    destruct (Py.truthy_opt
                (current_extraction
                   (agent_state (fst (invoke (start model_id existing max_tokens))))))
      eqn:Htruthy.
    + destruct (construct data_format
                  (current_extraction
                     (agent_state (fst (invoke (start model_id existing max_tokens))))))
        as [e|result]; cbn [fst snd finish]; intros Hfalsy.
      * reflexivity || (rewrite Htruthy in Hfalsy; discriminate).
      * rewrite Htruthy in Hfalsy. discriminate.
    + intros _. reflexivity.
Qed.

(** *** Token accounting *)

Lemma add_usage_counter (k : UsageKey) (token_usage : BedrockUsage) (usage : UsageDict) :
  counter k (add_usage token_usage usage)
  = counter k token_usage + usage_get usage (key_name k) 0.
Proof. destruct k; reflexivity. Qed.

Lemma accumulate_counter (k : UsageKey) (token_usage : BedrockUsage)
      (response : AgentResult) :
  counter k (accumulate token_usage (Some response))
  = counter k token_usage + exchange_usage k response.
Proof.
  unfold accumulate, exchange_usage.
  destruct (metrics response) as [m|]; [|lia].
  destruct (accumulated_usage m) as [|entry usage] eqn:Husage.
  - cbn. lia.
  - apply add_usage_counter.
Qed.

Lemma fold_accumulate_counter (k : UsageKey) (responses : list AgentResult)
      (token_usage : BedrockUsage) :
  counter k (fold_left (fun tu r => accumulate tu (Some r)) responses token_usage)
  = counter k token_usage + Zsum (map (exchange_usage k) responses).
Proof.
  revert token_usage; induction responses as [|r responses IH]; intros token_usage.
  - cbn. lia.
  - cbn [fold_left map Zsum fold_right]. rewrite IH, accumulate_counter.
    fold (Zsum (map (exchange_usage k) responses)). lia.
Qed.

Lemma run_metering (model_id : string) (existing : option TargetModel)
      (review_agent : bool) (context : string) (max_tokens : option Z)
      (result : TargetModel) (metering : BedrockInvokeModelResponse) :
  snd (run model_id existing review_agent context max_tokens)
  = inr (result, metering) ->
  metering_usage metering
  = accumulate_all
      (received model
         (calls (fst (run model_id existing review_agent context max_tokens)))).
Proof.
  unfold structured_output_async.
  destruct (retry (seq 0 max_retries) 2 (start model_id existing max_tokens))
    as [w1 [e|response]] eqn:Hloop; [discriminate|].
  destruct response as [resp|].
  2:{ destruct (Py.truthy_opt (current_extraction (agent_state w1))).
      - destruct (construct data_format (current_extraction (agent_state w1)));
          discriminate.
      - destruct review_agent; [|discriminate].
        rewrite invoke_eta. destruct (outcome (model (calls w1))); [discriminate|].
        destruct (if negb _ then _ else _); discriminate. }
  destruct (retry_response _ _ _ _ _ Hloop) as [_ Hrec].
  cbn [start initial_world calls] in Hrec. rewrite Nat.sub_0_r in Hrec.
  fold (received model (calls w1)) in Hrec.
  destruct (Py.truthy_opt (current_extraction (agent_state w1))).
  - destruct (construct data_format (current_extraction (agent_state w1)));
      [discriminate|].
    cbn [finish fst snd]. intros H. inversion H; subst. cbn [metering_usage].
    rewrite Hrec. reflexivity.
  - destruct review_agent; [|discriminate].
    rewrite invoke_eta.
    destruct (outcome (model (calls w1))) as [e|review_response] eqn:Hreview;
      [discriminate|].
    destruct (if negb _ then _ else _) as [r|]; [|discriminate].
    cbn [finish fst snd]. intros H. inversion H; subst. cbn [metering_usage].
    rewrite invoke_calls, received_S, Hrec, Hreview. reflexivity.
Qed.

(** C9. Token accounting is a running sum.  Every counter starts at
    zero; one exchange adds what it reports for the counter (zero for a
    key it does not report); after any number of exchanges each counter
    is the sum of what the exchanges reported; a step with a non-negative
    report does not decrease the counter; and the usage a successful call
    returns is this total over the invocations that returned. *)
Theorem token_accounting (k : UsageKey) :
  counter k token_usage_init = 0
  /\ (forall token_usage response,
         counter k (accumulate token_usage (Some response))
         = counter k token_usage + exchange_usage k response)
  /\ (forall responses,
         counter k (accumulate_all responses)
         = Zsum (map (exchange_usage k) responses))
  /\ (forall token_usage response,
         0 <= exchange_usage k response ->
         counter k token_usage <= counter k (accumulate token_usage (Some response)))
  /\ (forall model_id existing review_agent context max_tokens result metering,
         snd (run model_id existing review_agent context max_tokens)
         = inr (result, metering) ->
         counter k (metering_usage metering)
         = Zsum (map (exchange_usage k)
                     (received model
                        (calls (fst (run model_id existing review_agent context
                                         max_tokens)))))).
Proof.
  split; [destruct k; reflexivity|].
  split; [intros; apply accumulate_counter|].
  assert (Hall : forall responses,
             counter k (accumulate_all responses)
             = Zsum (map (exchange_usage k) responses)).
  { intros responses. unfold accumulate_all. rewrite fold_accumulate_counter.
    destruct k; reflexivity. }
  split; [exact Hall|].
  split.
  - intros token_usage response Hpos. rewrite accumulate_counter. lia.
  - intros model_id existing review_agent context max_tokens result metering H.
    rewrite (run_metering _ _ _ _ _ _ _ H). apply Hall.
Qed.

(** The review exchange is reached only when the first exchange left no
    truthy extraction: with one, the call ends after the retry loop. *)
Lemma review_skipped_when_extracted
      (model_id : string) (existing : option TargetModel) (review_agent : bool)
      (context : string) (max_tokens : option Z) (response : AgentResult) :
  outcome (model 0%nat) = inr response ->
  Py.truthy_opt
    (current_extraction
       (agent_state (fst (invoke (start model_id existing max_tokens))))) = true ->
  calls (fst (run model_id existing review_agent context max_tokens)) = 1%nat.
Proof.
  intros Hout Htruthy. unfold structured_output_async. cbn [seq max_retries].
  rewrite (retry_break 0 _ 2 (start model_id existing max_tokens) response Hout).
  rewrite Htruthy.
  destruct (construct data_format _); [reflexivity|].
  rewrite finish_world. reflexivity.
Qed.

End OrchestrationFacts.

(** *** The loop on the Persona runs *)

Lemma effective_max_tokens_witness :
  bedrock_max_tokens (fst (Scenario.run Scenario.text_then_jane true (Some 1000)))
  = 1000
  /\ bedrock_max_tokens (fst (Scenario.run Scenario.text_then_jane true (Some 100000)))
     = 64000
  /\ bedrock_max_tokens (fst (Scenario.run Scenario.text_then_jane true None))
     = 64000.
Proof.
  split; [|split].
  - apply (proj1 (effective_max_tokens
                    _ Persona.validate Persona.model_dump _
                    Rfc6902.get_operation Rfc6902.operation_apply
                    Scenario.text_then_jane
                    "us.anthropic.claude-sonnet-4-20250514-v1:0" None true
                    "Extraction" (Some 1000)) 1000 eq_refl).
    vm_compute. discriminate.
  - apply (proj1 (proj2 (effective_max_tokens
                    _ Persona.validate Persona.model_dump _
                    Rfc6902.get_operation Rfc6902.operation_apply
                    Scenario.text_then_jane
                    "us.anthropic.claude-sonnet-4-20250514-v1:0" None true
                    "Extraction" (Some 100000))) 100000 eq_refl).
    vm_compute. reflexivity.
  - apply (proj1 (proj2 (proj2 (effective_max_tokens
                    _ Persona.validate Persona.model_dump _
                    Rfc6902.get_operation Rfc6902.operation_apply
                    Scenario.text_then_jane
                    "us.anthropic.claude-sonnet-4-20250514-v1:0" None true
                    "Extraction" None))) eq_refl).
Defined.

Lemma non_retryable_error_propagates_witness :
  is_retryable Scenario.access_denied = false
  /\ snd (Scenario.run Scenario.denied_then_jane false None)
     = inl Scenario.access_denied
  /\ calls (fst (Scenario.run Scenario.denied_then_jane false None)) = 1%nat
  /\ slept (fst (Scenario.run Scenario.denied_then_jane false None)) = [].
Proof.
  split; [reflexivity|].
  apply (proj1 (proj2 (non_retryable_error_propagates
                         _ Persona.validate Persona.model_dump _
                         Rfc6902.get_operation Rfc6902.operation_apply
                         Scenario.denied_then_jane Scenario.access_denied eq_refl))
               "us.anthropic.claude-sonnet-4-20250514-v1:0" None false "Extraction"
               None eq_refl).
Defined.

(** C3, as stated, fails: with three consecutive connection failures and
    a fourth invocation that would succeed, the call raises after the
    third invocation; the fourth is never made. *)
Lemma three_failures_then_success_raises :
  let model := Scenario.failures_then_jane 3 in
  let r := Scenario.run model false None in
  (forall n, (n < 3)%nat ->
             outcome (model n) = inl Scenario.connection_reset)
  /\ is_retryable Scenario.connection_reset = true
  /\ outcome (model 3%nat) = outcome Scenario.extracts_jane
  /\ snd r = inl (ValueError "Agent invocation failed: Connection reset by peer")
  /\ calls (fst r) = 3%nat
  /\ slept (fst r) = [2; 4]
  /\ ~ (exists result metering, snd r = inr (result, metering)).
Proof.
  cbv zeta. split.
  { intros n Hn. unfold Scenario.failures_then_jane.
    destruct (Nat.ltb_spec n 3); [reflexivity|lia]. }
  repeat split.
  intros (result & metering & H). vm_compute in H. discriminate.
Qed.

Lemma retry_two_failures_then_success_witness :
  let model := Scenario.failures_then_jane 2 in
  snd (Scenario.run model false None)
  = inr (Persona.mk 34 "Jane",
         {| metering_key := "Extraction/bedrock/us.anthropic.claude-sonnet-4-20250514-v1:0";
            metering_usage := mkUsage 100 20 120 0 0 |})
  /\ calls (fst (Scenario.run model false None)) = 3%nat
  /\ slept (fst (Scenario.run model false None)) = [2; 4].
Proof.
  cbv zeta.
  destruct (proj1 (retry_two_failures_then_success
                     _ Persona.validate Persona.model_dump _
                     Rfc6902.get_operation Rfc6902.operation_apply
                     (Scenario.failures_then_jane 2)
                     "us.anthropic.claude-sonnet-4-20250514-v1:0" None false
                     "Extraction" None
                     Scenario.connection_reset Scenario.connection_reset
                     eq_refl eq_refl eq_refl eq_refl)
                  (mkResult (Scenario.usage 100 20)) eq_refl)
    as (_ & Hcalls & Hslept & Hrun).
  specialize (Hrun (PersonaTools.jane 34) (Persona.mk 34 "Jane")
                   eq_refl eq_refl eq_refl).
  fold (Scenario.run (Scenario.failures_then_jane 2) false None) in Hrun.
  rewrite Hrun. cbn [fst snd]. split; [reflexivity|].
  split; [exact Hcalls | exact Hslept].
Defined.

Lemma structured_output_valid_or_error_witness :
  snd (Scenario.run Scenario.only_text false None)
  = inl (ValueError "Failed to generate valid structured output.").
Proof.
  apply (proj2 (proj2 (structured_output_valid_or_error
                         _ Persona.validate Persona.model_dump _
                         Rfc6902.get_operation Rfc6902.operation_apply
                         Scenario.only_text
                         "us.anthropic.claude-sonnet-4-20250514-v1:0" None false
                         "Extraction" None))
               (mkResult (Scenario.usage 90 10)) eq_refl eq_refl eq_refl).
Defined.

Lemma token_accounting_witness :
  (* the first exchange yields no extraction, the review exchange stores one *)
  counter InputTokens
          (accumulate (mkUsage 90 10 100 0 0) (Some (mkResult (Scenario.usage 100 20))))
  >= 90
  /\ exists metering,
       snd (Scenario.run Scenario.text_then_jane true None)
       = inr (Persona.mk 34 "Jane", metering)
       /\ counter InputTokens (metering_usage metering) = 90 + 100.
Proof.
  split.
  - apply Z.le_ge.
    apply (proj1 (proj2 (proj2 (proj2
             (token_accounting _ Persona.validate Persona.model_dump _
                Rfc6902.get_operation Rfc6902.operation_apply
                Scenario.text_then_jane InputTokens))))
             (mkUsage 90 10 100 0 0) (mkResult (Scenario.usage 100 20))).
    vm_compute. discriminate.
  - eexists. split; [reflexivity|].
    rewrite (proj2 (proj2 (proj2 (proj2
               (token_accounting _ Persona.validate Persona.model_dump _
                  Rfc6902.get_operation Rfc6902.operation_apply
                  Scenario.text_then_jane InputTokens))))
               "us.anthropic.claude-sonnet-4-20250514-v1:0" None true "Extraction"
               None (Persona.mk 34 "Jane") _ eq_refl).
    reflexivity.
Defined.

(** C7 on the code.  The caller requests the review pass and the first
    exchange stores a valid extraction.  The call returns after that one
    invocation with the usage of that exchange alone: no second exchange
    runs, although the model would have patched the age in it. *)
Theorem review_requested_but_not_run :
  let r := Scenario.run Scenario.jane_then_patch true None in
  snd r
  = inr (Persona.mk 34 "Jane",
         {| metering_key := "Extraction/bedrock/us.anthropic.claude-sonnet-4-20250514-v1:0";
            metering_usage := mkUsage 100 20 120 0 0 |})
  /\ calls (fst r) = 1%nat
  /\ received Scenario.jane_then_patch (calls (fst r))
     = [mkResult (Scenario.usage 100 20)].
Proof. repeat split. Qed.

(** * Further properties of the extraction module *)

Lemma string_app_assoc (a b c : string) : (a ++ b) ++ c = a ++ b ++ c.
Proof. induction a as [|x a IH]; simpl; [reflexivity | now rewrite IH]. Qed.

Lemma mem_iff (x : string) (xs : list string) : PyStr.mem x xs = true <-> In x xs.
Proof.
  unfold PyStr.mem. rewrite existsb_exists. split.
  - intros (y & Hin & Heq). apply String.eqb_eq in Heq. now subst.
  - intros Hin. exists x. split; [exact Hin | apply String.eqb_refl].
Qed.

Lemma supports_tool_caching_iff_aux (model_id : string) :
  Caching.supports_tool_caching model_id = true
  <-> exists pre post, model_id = pre ++ "anthropic.claude" ++ post.
Proof.
  unfold Caching.supports_tool_caching.
  rewrite orb_true_iff, <- contains_iff. split; [|tauto].
  intros [H|H]; [exact H|].
  apply contains_iff in H. destruct H as (pre & post & ->).
  apply contains_iff. exists (pre ++ "us."), post. now rewrite string_app_assoc.
Qed.

(** X1. A model supports tool caching exactly when its identifier, as
    written (no case folding), contains "anthropic.claude"; the separate
    test for "us.anthropic.claude" never changes the answer. *)
Theorem supports_tool_caching_iff (model_id : string) :
  (Caching.supports_tool_caching model_id = true
   <-> exists pre post, model_id = pre ++ "anthropic.claude" ++ post)
  /\ Caching.supports_tool_caching model_id
     = PyStr.contains "anthropic.claude" model_id.
Proof.
  split; [apply supports_tool_caching_iff_aux|].
  pose proof (supports_tool_caching_iff_aux model_id) as Hiff.
  rewrite <- contains_iff in Hiff.
  destruct (Caching.supports_tool_caching model_id),
           (PyStr.contains "anthropic.claude" model_id);
    try reflexivity.
  - symmetry. apply Hiff. reflexivity.
  - apply Hiff. reflexivity.
Qed.

(** X2. Tool caching is switched on only together with prompt caching:
    a configuration with cache_tools has cache_prompt, its model is on
    the allow-list and is a Claude model; a model off the allow-list gets
    neither.  The configured max_tokens never exceeds the model
    maximum. *)
Theorem tool_caching_needs_prompt_caching
        (supported : list string) (model_id : string) (max_tokens : option Z) :
  let c := Caching.model_config supported model_id max_tokens in
  (Caching.cache_tools c <> None ->
   Caching.cache_prompt c = Some "default"
   /\ In model_id supported
   /\ exists pre post, model_id = pre ++ "anthropic.claude" ++ post)
  /\ (~ In model_id supported ->
      Caching.cache_prompt c = None /\ Caching.cache_tools c = None)
  /\ Caching.config_max_tokens c <= Capability.model_max model_id.
Proof.
  cbv zeta. unfold Caching.model_config, Caching.supports_prompt_caching.
  destruct (PyStr.mem model_id supported) eqn:Hmem.
  - apply mem_iff in Hmem.
    destruct (Caching.supports_tool_caching model_id) eqn:Htool; cbn.
    + split; [|split].
      * intros _. split; [reflexivity|]. split; [exact Hmem|].
        apply (proj1 (supports_tool_caching_iff_aux model_id)). exact Htool.
      * intros Hnot. contradiction.
      * apply clamp_le.
    + split; [|split].
      * intros H. contradiction.
      * intros Hnot. contradiction.
      * apply clamp_le.
  - cbn. split; [|split].
    + intros H. contradiction.
    + intros _. split; reflexivity.
    + apply clamp_le.
Qed.

Section ExtractionFacts.

Variable TargetModel : Type.
Variable data_format : json -> PyExn + TargetModel.
Variable model_dump : TargetModel -> json.
Variable Operation : Type.
Variable get_operation : json -> PyExn + Operation.
Variable operation_apply : Operation -> json -> PyExn + json.
Variable model : nat -> Exchange.

Local Abbreviation tool := (run_tool data_format model_dump get_operation operation_apply).
Local Abbreviation tools := (run_tools data_format model_dump get_operation operation_apply).
Local Abbreviation patch_tool :=
  (apply_json_patches data_format model_dump get_operation operation_apply).
Local Abbreviation set_tool := (extraction_tool data_format model_dump).
Local Abbreviation invoke :=
  (invoke_async data_format model_dump get_operation operation_apply model).
Local Abbreviation retry :=
  (retry_loop data_format model_dump get_operation operation_apply model).
Local Abbreviation run :=
  (structured_output_async data_format model_dump get_operation operation_apply model).
Local Abbreviation start := (initial_world model_dump).

(** What a tool call can do to the state: nothing, or store the dump of
    a validated instance. *)
Lemma run_tool_cases (c : ToolCall) (st : AgentState) :
  fst (tool c st) = st
  \/ exists v, fst (tool c st) = set_current_extraction (model_dump v) st.
Proof.
  destruct c as [extraction|patches|]; cbn [run_tool].
  - unfold extraction_tool. destruct (data_format extraction) as [e|v].
    + left. reflexivity.
    + right. exists v. reflexivity.
  - unfold apply_json_patches.
    destruct (negb (Py.truthy_opt (current_extraction st))); [left; reflexivity|].
    destruct (current_extraction st) as [d|]; [|left; reflexivity].
    destruct (apply_patches_to_data get_operation operation_apply d patches)
      as [e|patched]; [left; reflexivity|].
    destruct (data_format patched) as [e|v]; [left; reflexivity|].
    right. exists v. reflexivity.
  - left. reflexivity.
Qed.

Lemma run_tools_invariant (P : AgentState -> Prop) :
  (forall st v, P st -> P (set_current_extraction (model_dump v) st)) ->
  forall cs st, P st -> P (tools cs st).
Proof.
  intros Hset cs. induction cs as [|c cs IH]; intros st HP; cbn [run_tools].
  - exact HP.
  - apply IH. destruct (run_tool_cases c st) as [-> | [v ->]].
    + exact HP.
    + apply Hset. exact HP.
Qed.

Lemma retry_invariant (P : AgentState -> Prop) :
  (forall st v, P st -> P (set_current_extraction (model_dump v) st)) ->
  forall attempts delay w,
    P (agent_state w) -> P (agent_state (fst (retry attempts delay w))).
Proof.
  intros Hset attempts.
  induction attempts as [|attempt rest IH]; intros delay w HP; cbn [retry_loop].
  - exact HP.
  - rewrite invoke_eta.
    assert (HP1 : P (agent_state (fst (invoke w)))).
    { cbn. apply run_tools_invariant; assumption. }
    destruct (outcome (model (calls w))) as [e|response]; [|exact HP1].
    destruct (is_retryable e && negb (attempt =? max_retries - 1)%nat).
    + apply IH. exact HP1.
    + exact HP1.
Qed.

Lemma run_invariant (P : AgentState -> Prop) :
  (forall st v, P st -> P (set_current_extraction (model_dump v) st)) ->
  forall model_id existing review_agent context max_tokens,
    P (agent_state (start model_id existing max_tokens)) ->
    P (agent_state (fst (run model_id existing review_agent context max_tokens))).
Proof.
  intros Hset model_id existing review_agent context max_tokens HP.
  pose proof (retry_invariant P Hset (seq 0 max_retries) 2 _ HP) as H1.
  unfold structured_output_async.
  destruct (retry (seq 0 max_retries) 2 (start model_id existing max_tokens))
    as [w1 [e|response]]; cbn [fst] in H1; [exact H1|].
  destruct (Py.truthy_opt (current_extraction (agent_state w1))).
  - destruct (construct data_format (current_extraction (agent_state w1)));
      [exact H1|].
    rewrite finish_world. exact H1.
  - destruct review_agent; [|rewrite finish_world; exact H1].
    rewrite invoke_eta.
    assert (H2 : P (agent_state (fst (invoke w1)))).
    { cbn. apply run_tools_invariant; assumption. }
    destruct (outcome (model (calls w1))); [exact H2|].
    rewrite finish_world. exact H2.
Qed.

(** X3. The tools write the current extraction and nothing else: over
    any tool calls, and over a whole call, the images entry stays the
    empty dict it was created as and the existing_data entry stays the
    dump of the caller's baseline. *)
Theorem tools_write_current_extraction_only :
  (forall cs st,
      images (tools cs st) = images st
      /\ existing_data (tools cs st) = existing_data st)
  /\ (forall model_id existing review_agent context max_tokens,
         let st :=
           agent_state (fst (run model_id existing review_agent context max_tokens)) in
         images st = JDict []
         /\ existing_data st = option_map model_dump existing).
Proof.
  split.
  - intros cs st.
    apply (run_tools_invariant
             (fun s => images s = images st /\ existing_data s = existing_data st)).
    + intros s v H. exact H.
    + split; reflexivity.
  - intros model_id existing review_agent context max_tokens. cbv zeta.
    apply (run_invariant
             (fun s => images s = JDict []
                       /\ existing_data s = option_map model_dump existing)).
    + intros s v H. exact H.
    + destruct existing; split; reflexivity.
Qed.



(** X6. A baseline record handed in by the caller is preloaded: the
    patch tool accepts patches on it before any extraction_tool call,
    and when the model answers without calling a tool the call returns
    the baseline as the schema validates it, after one invocation. *)
Theorem existing_data_is_preloaded
        (model_id : string) (baseline : TargetModel) (review_agent : bool)
        (context : string) (max_tokens : option Z) :
  Py.truthy (model_dump baseline) = true ->
  (forall patches,
      snd (patch_tool patches
                      (agent_state (start model_id (Some baseline) max_tokens)))
      <> ToolReturned no_current_extraction)
  /\ (forall response result,
         tool_calls (model 0%nat) = [] ->
         outcome (model 0%nat) = inr response ->
         data_format (model_dump baseline) = inr result ->
         let r := run model_id (Some baseline) review_agent context max_tokens in
         snd r = inr (result,
                      {| metering_key := context ++ "/bedrock/" ++ model_id;
                         metering_usage :=
                           accumulate token_usage_init (Some response) |})
         /\ calls (fst r) = 1%nat
         /\ current_extraction (agent_state (fst r)) = Some (model_dump baseline)).
Proof.
  intros Htruthy. split.
  - intros patches. unfold apply_json_patches. cbn. rewrite Htruthy. cbn.
    destruct (apply_patches_to_data get_operation operation_apply
                                    (model_dump baseline) patches) as [e|patched];
      [discriminate|].
    destruct (data_format patched); cbn; discriminate.
  - intros response result Hcalls Hout Hvalid. cbv zeta.
    unfold structured_output_async. cbn [seq max_retries].
    rewrite (retry_break _ data_format model_dump _ get_operation operation_apply
               model 0 _ 2 (start model_id (Some baseline) max_tokens)
               response Hout).
    cbn [invoke_async fst snd agent_state initial_world calls].
    rewrite Hcalls. cbn [run_tools set_current_extraction current_extraction
                         Py.truthy_opt construct].
    rewrite Htruthy, Hvalid. cbn. repeat split.
Qed.

(** The three ways the retry loop of a call can end. *)
Lemma retry_bounds (w : World) :
  let r := retry (seq 0 max_retries) 2 w in
  (calls (fst r) = S (calls w) /\ slept (fst r) = slept w)
  \/ (calls (fst r) = S (S (calls w)) /\ slept (fst r) = (slept w ++ [2])%list)
  \/ (calls (fst r) = S (S (S (calls w)))
      /\ slept (fst r) = ((slept w ++ [2]) ++ [4])%list).
Proof.
  cbv zeta. cbn [seq max_retries retry_loop].
  rewrite invoke_eta.
  destruct (outcome (model (calls w))) as [e0|r0]; [|left; split; reflexivity].
  destruct (is_retryable e0); cbn [andb negb Nat.eqb Nat.sub];
    [|left; split; reflexivity].
  rewrite invoke_eta.
  destruct (outcome (model _)) as [e1|r1]; [|right; left; split; reflexivity].
  destruct (is_retryable e1); cbn [andb negb Nat.eqb Nat.sub];
    [|right; left; split; reflexivity].
  rewrite invoke_eta.
  destruct (outcome (model _)) as [e2|r2]; [|right; right; split; reflexivity].
  rewrite andb_false_r. right; right; split; reflexivity.
Qed.

(** X7. Whatever the model does, one call invokes it at least once and
    at most four times (three attempts and one review), at most three
    times without review, and sleeps for nothing, for 2 seconds, or for 2
    and then 4 seconds; it never sleeps as often as it invokes. *)
Theorem invocations_and_sleeps_are_bounded
        (model_id : string) (existing : option TargetModel) (review_agent : bool)
        (context : string) (max_tokens : option Z) :
  let w := fst (run model_id existing review_agent context max_tokens) in
  (1 <= calls w <= 4)%nat
  /\ (review_agent = false -> (calls w <= 3)%nat)
  /\ (slept w = [] \/ slept w = [2] \/ slept w = [2; 4])
  /\ (List.length (slept w) < calls w)%nat.
Proof.
  cbv zeta.
  pose proof (retry_bounds (start model_id existing max_tokens)) as Hb.
  cbv zeta in Hb. unfold structured_output_async.
  destruct (retry (seq 0 max_retries) 2 (start model_id existing max_tokens))
    as [w1 res]. cbn [fst initial_world calls slept app] in Hb.
  assert (Hw1 : (1 <= calls w1 <= 3)%nat
                /\ (slept w1 = [] \/ slept w1 = [2] \/ slept w1 = [2; 4])
                /\ (List.length (slept w1) < calls w1)%nat).
  { destruct Hb as [[Hc Hs] | [[Hc Hs] | [Hc Hs]]]; rewrite Hc, Hs; cbn;
      repeat split; auto; lia. }
  destruct Hw1 as (Hc & Hs & Hl).
  destruct res as [e|response]; cbn [fst].
  { repeat split; auto; lia. }
  destruct (Py.truthy_opt (current_extraction (agent_state w1))).
  - destruct (construct data_format (current_extraction (agent_state w1)));
      [|rewrite finish_world]; cbn [fst]; repeat split; auto; lia.
  - destruct review_agent.
    + rewrite invoke_eta.
      destruct (outcome (model (calls w1))); [|rewrite finish_world];
        cbn [fst invoke_async calls slept]; repeat split; auto; try lia;
        discriminate.
    + rewrite finish_world. repeat split; auto; lia.
Qed.

(** X8. When the first exchange returns with an empty state, a review
    exchange can rescue the call only by a successful extraction_tool
    call: if it makes none (patches and views are refused or change
    nothing) the call ends in the terminal ValueError; if it stores an
    extraction that validates, that record is returned with the usage of
    both exchanges. *)
Theorem review_needs_a_fresh_extraction
        (model_id : string) (review_response response : AgentResult)
        (context : string) (max_tokens : option Z) :
  tool_calls (model 0%nat) = [] ->
  outcome (model 0%nat) = inr response ->
  outcome (model 1%nat) = inr review_response ->
  let r := run model_id None true context max_tokens in
  (no_successful_extraction data_format (tool_calls (model 1%nat)) ->
   snd r = inl (ValueError "Failed to generate valid structured output.")
   /\ calls (fst r) = 2%nat)
  /\ (forall d result,
         current_extraction
           (tools (tool_calls (model 1%nat))
                  (agent_state (start model_id None max_tokens))) = Some d ->
         data_format d = inr result ->
         snd r = inr (result,
                      {| metering_key := context ++ "/bedrock/" ++ model_id;
                         metering_usage :=
                           accumulate (accumulate token_usage_init (Some response))
                                      (Some review_response) |})).
Proof.
  intros Hcalls0 Hout0 Hout1. cbv zeta.
  unfold structured_output_async. cbn [seq max_retries].
  rewrite (retry_break _ data_format model_dump _ get_operation operation_apply
             model 0 _ 2 (start model_id None max_tokens) response Hout0).
  cbn [invoke_async fst snd agent_state initial_world calls].
  rewrite Hcalls0.
  cbn [run_tools current_extraction Py.truthy_opt agent_state calls].
  rewrite Hout1. split.
  - intros Hnone.
    pose proof (run_tools_without_extraction _ data_format model_dump _
                  get_operation operation_apply (tool_calls (model 1%nat))
                  (agent_state (start model_id None max_tokens)) eq_refl Hnone)
      as Hsame.
    cbn [initial_world agent_state] in Hsame. rewrite Hsame.
    cbn. split; reflexivity.
  - intros d result Hcur Hvalid.
    cbn [initial_world agent_state] in Hcur. rewrite Hcur.
    cbn [Py.eqb_opt negb construct]. rewrite Hvalid. reflexivity.
Qed.

(** X9. The blocking entry point cannot pass a token limit: whatever
    the other arguments, the model is configured with the maximum
    detected for its identifier. *)
Theorem structured_output_uses_model_maximum
        (model_id : string) (existing : option TargetModel) (review_agent : bool)
        (context : string) :
  bedrock_max_tokens
    (fst (structured_output data_format model_dump get_operation operation_apply
                            model model_id existing review_agent context))
  = Capability.model_max model_id.
Proof.
  unfold structured_output. rewrite run_max_tokens. reflexivity.
Qed.

Lemma run_tools_app (cs1 cs2 : list ToolCall) (st : AgentState) :
  tools (cs1 ++ cs2)%list st = tools cs2 (tools cs1 st).
Proof.
  revert st; induction cs1 as [|c cs1 IH]; intros st; cbn [run_tools app].
  - reflexivity.
  - apply IH.
Qed.

(** X10. An empty patch set is not refused: the patch library is not
    consulted, the stored extraction is validated again and stored as
    dumped, and the tool reports 0 patches applied; if the stored
    extraction no longer validates the tool raises and the state
    stays. *)
Theorem empty_patch_set_revalidates
        (Operation' : Type) (get_operation' : json -> PyExn + Operation')
        (operation_apply' : Operation' -> json -> PyExn + json)
        (st : AgentState) (d : json) :
  current_extraction st = Some d ->
  Py.truthy d = true ->
  apply_json_patches data_format model_dump get_operation' operation_apply' [] st
  = patch_tool [] st
  /\ (forall v, data_format d = inr v ->
                patch_tool [] st
                = (set_current_extraction (model_dump v) st,
                   ToolReturned (JDict [("status", JStr "success");
                                        ("patches_applied", JInt 0)])))
  /\ (forall e, data_format d = inl e -> patch_tool [] st = (st, ToolRaised e)).
Proof.
  intros Hcur Htruthy. unfold apply_json_patches. rewrite Hcur.
  cbn [Py.truthy_opt apply_patches_to_data]. rewrite Htruthy. cbn [negb].
  split; [reflexivity|]. split.
  - intros v ->. reflexivity.
  - intros e ->. reflexivity.
Qed.

(** X11. extraction_tool overwrites: after any earlier tool calls, a
    successful extraction_tool call leaves exactly the dump of its
    instance as current extraction, which view_existing_extraction then
    returns without changing the state; a rejected call leaves what the
    earlier calls stored. *)
Theorem extraction_tool_overwrites
        (cs : list ToolCall) (extraction : json) (st : AgentState) :
  (forall v,
      data_format extraction = inr v ->
      let st1 := tools (cs ++ [CallExtractionTool extraction])%list st in
      st1 = set_current_extraction (model_dump v) (tools cs st)
      /\ view_existing_extraction st1 = (st1, ToolReturned (model_dump v)))
  /\ (forall e,
         data_format extraction = inl e ->
         tools (cs ++ [CallExtractionTool extraction])%list st = tools cs st).
Proof.
  split.
  - intros v Hvalid. cbv zeta. rewrite run_tools_app.
    cbn [run_tools run_tool]. unfold extraction_tool. rewrite Hvalid.
    split; reflexivity.
  - intros e Hinvalid. rewrite run_tools_app.
    cbn [run_tools run_tool]. unfold extraction_tool. rewrite Hinvalid.
    reflexivity.
Qed.

End ExtractionFacts.

(** *** The further properties on the Persona runs *)

Lemma tool_caching_needs_prompt_caching_witness :
  let supported := ["us.anthropic.claude-sonnet-4-20250514-v1:0"; "us.amazon.nova-pro-v1:0"] in
  Caching.cache_prompt
    (Caching.model_config supported "us.anthropic.claude-sonnet-4-20250514-v1:0" None)
  = Some "default"
  /\ Caching.cache_tools
       (Caching.model_config supported "anthropic.claude-3-haiku-20240307-v1:0" None)
     = None.
Proof.
  cbv zeta. split.
  - apply (proj1 (tool_caching_needs_prompt_caching
                    ["us.anthropic.claude-sonnet-4-20250514-v1:0";
                     "us.amazon.nova-pro-v1:0"]
                    "us.anthropic.claude-sonnet-4-20250514-v1:0" None)).
    vm_compute. discriminate.
  - apply (proj1 (proj2 (tool_caching_needs_prompt_caching
                    ["us.anthropic.claude-sonnet-4-20250514-v1:0";
                     "us.amazon.nova-pro-v1:0"]
                    "anthropic.claude-3-haiku-20240307-v1:0" None))).
    intros [H|[H|[]]]; discriminate.
Defined.




Lemma existing_data_is_preloaded_witness :
  let r := structured_output_async
             Persona.validate Persona.model_dump
             Rfc6902.get_operation Rfc6902.operation_apply Scenario.only_text
             "us.anthropic.claude-sonnet-4-20250514-v1:0"
             (Some (Persona.mk 34 "Jane")) false "Extraction" None in
  snd r = inr (Persona.mk 34 "Jane",
               {| metering_key := "Extraction/bedrock/us.anthropic.claude-sonnet-4-20250514-v1:0";
                  metering_usage := mkUsage 90 10 100 0 0 |})
  /\ calls (fst r) = 1%nat
  /\ current_extraction (agent_state (fst r)) = Some (PersonaTools.jane 34).
Proof.
  apply (proj2 (existing_data_is_preloaded
                  _ Persona.validate Persona.model_dump _
                  Rfc6902.get_operation Rfc6902.operation_apply Scenario.only_text
                  "us.anthropic.claude-sonnet-4-20250514-v1:0"
                  (Persona.mk 34 "Jane") false "Extraction" None eq_refl)
               (mkResult (Scenario.usage 90 10)) (Persona.mk 34 "Jane")
               eq_refl eq_refl eq_refl).
Defined.

Lemma invocations_and_sleeps_are_bounded_witness :
  (calls (fst (Scenario.run (Scenario.failures_then_jane 3) false None)) <= 3)%nat.
Proof.
  apply (proj1 (proj2 (invocations_and_sleeps_are_bounded
                         _ Persona.validate Persona.model_dump _
                         Rfc6902.get_operation Rfc6902.operation_apply
                         (Scenario.failures_then_jane 3)
                         "us.anthropic.claude-sonnet-4-20250514-v1:0" None false
                         "Extraction" None)) eq_refl).
Defined.

Lemma review_needs_a_fresh_extraction_witness :
  snd (Scenario.run Scenario.only_text true None)
  = inl (ValueError "Failed to generate valid structured output.")
  /\ snd (Scenario.run Scenario.text_then_jane true None)
     = inr (Persona.mk 34 "Jane",
            {| metering_key := "Extraction/bedrock/us.anthropic.claude-sonnet-4-20250514-v1:0";
               metering_usage := mkUsage 190 30 220 0 0 |}).
Proof.
  split.
  - apply (proj1 (review_needs_a_fresh_extraction
                    _ Persona.validate Persona.model_dump _
                    Rfc6902.get_operation Rfc6902.operation_apply Scenario.only_text
                    "us.anthropic.claude-sonnet-4-20250514-v1:0"
                    (mkResult (Scenario.usage 90 10)) (mkResult (Scenario.usage 90 10))
                    "Extraction" None eq_refl eq_refl eq_refl)).
    constructor.
  - apply (proj2 (review_needs_a_fresh_extraction
                    _ Persona.validate Persona.model_dump _
                    Rfc6902.get_operation Rfc6902.operation_apply
                    Scenario.text_then_jane
                    "us.anthropic.claude-sonnet-4-20250514-v1:0"
                    (mkResult (Scenario.usage 100 20)) (mkResult (Scenario.usage 90 10))
                    "Extraction" None eq_refl eq_refl eq_refl)
                 (PersonaTools.jane 34) (Persona.mk 34 "Jane") eq_refl eq_refl).
Defined.

Lemma empty_patch_set_revalidates_witness :
  PersonaTools.patch_tool [] PersonaTools.jane_state
  = (PersonaTools.jane_state,
     ToolReturned (JDict [("status", JStr "success"); ("patches_applied", JInt 0)])).
Proof.
  apply (proj1 (proj2 (empty_patch_set_revalidates
                         _ Persona.validate Persona.model_dump _
                         Rfc6902.get_operation Rfc6902.operation_apply
                         _ Rfc6902.get_operation Rfc6902.operation_apply
                         PersonaTools.jane_state (PersonaTools.jane 34)
                         eq_refl eq_refl))
               (Persona.mk 34 "Jane") eq_refl).
Defined.

Lemma extraction_tool_overwrites_witness :
  let st1 := PersonaTools.tools
               [CallApplyJsonPatches [PersonaTools.replace_age];
                CallExtractionTool (PersonaTools.jane 36)]
               PersonaTools.jane_state in
  current_extraction st1 = Some (PersonaTools.jane 36)
  /\ view_existing_extraction st1 = (st1, ToolReturned (PersonaTools.jane 36)).
Proof.
  cbv zeta.
  destruct (proj1 (extraction_tool_overwrites
                     _ Persona.validate Persona.model_dump _
                     Rfc6902.get_operation Rfc6902.operation_apply
                     [CallApplyJsonPatches [PersonaTools.replace_age]]
                     (PersonaTools.jane 36) PersonaTools.jane_state)
                  (Persona.mk 36 "Jane") eq_refl) as [Hst Hview].
  split.
  - unfold PersonaTools.tools.
    change [CallApplyJsonPatches [PersonaTools.replace_age];
            CallExtractionTool (PersonaTools.jane 36)]
      with ([CallApplyJsonPatches [PersonaTools.replace_age]]
              ++ [CallExtractionTool (PersonaTools.jane 36)])%list.
    rewrite Hst. reflexivity.
  - exact Hview.
Defined.

(** * The Step Functions tools *)

Module StepFunctionsFacts.

Import PyLib StepFunctions.

Lemma failure_events_cases (t : string) :
  PyStr.mem t failure_events = true ->
  t = "ExecutionFailed" \/ t = "TaskFailed" \/ t = "LambdaFunctionFailed"
  \/ t = "TaskTimedOut" \/ t = "ExecutionTimedOut".
Proof.
  intros H. apply mem_iff in H. cbn in H.
  destruct H as [H|[H|[H|[H|[H|[]]]]]]; subst; auto 6.
Qed.

Lemma value_get_inv (key : string) (default v r : json) :
  value_get key default v = inr r ->
  exists d, v = JDict d /\ r = get_or key default d.
Proof.
  destruct v; cbn; try discriminate. intros H. inversion H. eauto.
Qed.

(** What [_extract_failure_details] returns when it returns. *)
Lemma extract_failure_details_inv (event : Dict) (r : option Dict) :
  _extract_failure_details event = inr r ->
  (is_failure event = false /\ r = None)
  \/ (is_failure event = true
      /\ exists error cause more,
           r = Some (("error", error) :: ("cause", cause) :: more)).
Proof.
  unfold _extract_failure_details, is_failure.
  destruct (get_or "type" (JStr "") event) as [| | |t| |];
    try (intros H; inversion H; left; split; reflexivity).
  destruct (PyStr.mem t failure_events) eqn:Hmem; cbn [negb].
  2:{ intros H; inversion H. left. split; reflexivity. }
  intros H. right. split; [reflexivity|].
  destruct (failure_events_cases t Hmem) as [->|[->|[->|[->| ->]]]];
    cbn [String.eqb Ascii.eqb Bool.eqb] in H; cbn in H; unfold bind in H;
    repeat match type of H with
           | context [match value_get ?k ?d ?v with _ => _ end] =>
               destruct (value_get k d v); [discriminate|]
           end;
    inversion H; eauto.
Qed.

(** X12. [_extract_failure_details] answers None exactly for events
    whose type is not one of the five failure types (a missing or
    non-string type included); for a failure event the details it
    returns always carry an "error" and a "cause" entry, so they are
    never an empty dict. *)
Theorem extract_failure_details_classifies (event : Dict) (r : option Dict) :
  _extract_failure_details event = inr r ->
  (r = None <-> is_failure event = false)
  /\ (forall details,
         r = Some details ->
         is_failure event = true
         /\ Py.dict_get "error" details <> None
         /\ Py.dict_get "cause" details <> None
         /\ Py.truthy (JDict details) = true).
Proof.
  intros H.
  destruct (extract_failure_details_inv event r H)
    as [[Hno ->] | (Hyes & error & cause & more & ->)].
  - split; [tauto|]. intros details Hd. discriminate.
  - split.
    + split; [discriminate | rewrite Hyes; discriminate].
    + intros details Hd. inversion Hd; subst. cbn.
      split; [exact Hyes|]. repeat split; discriminate.
Qed.

(** X13. For a timed-out event the reported error is the event type
    itself.  The cause is taken from executionTimedOutEventDetails
    whenever that entry is a non-empty dict, also for a TaskTimedOut
    event that carries its own details; only when that entry is missing
    or empty is taskTimedOutEventDetails read, and without either the
    cause is the fixed text. *)
Theorem timed_out_details (event : Dict) (t : string) :
  get_or "type" (JStr "") event = JStr t ->
  t = "TaskTimedOut" \/ t = "ExecutionTimedOut" ->
  (forall d,
      Py.dict_get "executionTimedOutEventDetails" event = Some (JDict d) ->
      d <> [] ->
      _extract_failure_details event
      = inr (Some [("error", JStr t);
                   ("cause", get_or "cause" (JStr "Execution exceeded timeout limit") d)]))
  /\ (forall d,
         (Py.dict_get "executionTimedOutEventDetails" event = None
          \/ Py.dict_get "executionTimedOutEventDetails" event = Some (JDict [])) ->
         Py.dict_get "taskTimedOutEventDetails" event = Some (JDict d) ->
         _extract_failure_details event
         = inr (Some [("error", JStr t);
                      ("cause", get_or "cause" (JStr "Execution exceeded timeout limit") d)]))
  /\ (Py.dict_get "executionTimedOutEventDetails" event = None ->
      Py.dict_get "taskTimedOutEventDetails" event = None ->
      _extract_failure_details event
      = inr (Some [("error", JStr t);
                   ("cause", JStr "Execution exceeded timeout limit")])).
Proof.
  intros Htype Ht. unfold _extract_failure_details. rewrite Htype.
  unfold get, get_or.
  split; [|split].
  - intros d Hexec Hne. rewrite Hexec.
    destruct d as [|kv d]; [contradiction|].
    destruct Ht as [-> | ->]; reflexivity.
  - intros d Hexec Htask. rewrite Htask.
    destruct Hexec as [-> | ->]; destruct Ht as [-> | ->]; reflexivity.
  - intros Hexec Htask. rewrite Hexec, Htask.
    destruct Ht as [-> | ->]; reflexivity.
Qed.

Section TimelineFacts.

Variable str_other : json -> string.
Variable max_timeline_events : Z.

Local Abbreviation step := (scan_event str_other).
Local Abbreviation scan_all := (scan str_other).
Local Abbreviation analyze :=
  (_analyze_execution_timeline str_other max_timeline_events).

Lemma is_failure_not_state (event : Dict) :
  is_failure event = true ->
  is_state_event event = false /\ is_entered event = false.
Proof.
  unfold is_failure, is_state_event, is_entered.
  destruct (get_or "type" (JStr "") event) as [| | |t| |]; try discriminate.
  intros H.
  destruct (failure_events_cases t H) as [->|[->|[->|[->| ->]]]]; split; reflexivity.
Qed.

Lemma entered_not_exited (v : json) :
  Py.eqb v (JStr "StateEntered") = true -> Py.eqb v (JStr "StateExited") = false.
Proof.
  destruct v as [| | |t| |]; cbn; try discriminate.
  intros H. apply String.eqb_eq in H. subst. reflexivity.
Qed.

(** What one iteration does to the three loop variables. *)
Lemma scan_event_inv (s s' : Scan) (event : Dict) :
  step s event = inr s' ->
  List.length (timeline s')
  = (List.length (timeline s) + (if is_state_event event then 1 else 0))%nat
  /\ (is_entered event = false ->
      last_successful_state s' = last_successful_state s)
  /\ (forall p, failure_point s = Some p -> failure_point s' = Some p)
  /\ (is_failure event = false -> failure_point s' = failure_point s)
  /\ (is_failure event = true -> failure_point s = None ->
      exists details,
        _extract_failure_details event = inr (Some details)
        /\ failure_point s'
           = Some [("timestamp", get "timestamp" event);
                   ("event_type", get_or "type" (JStr "") event);
                   ("state", last_successful_state s);
                   ("details", JDict details)]).
Proof.
  unfold scan_event, bind, is_state_event, is_entered.
  destruct (Py.eqb (get_or "type" (JStr "") event) (JStr "StateEntered")) eqn:Hent.
  - rewrite (entered_not_exited _ Hent). cbn [orb].
    destruct (value_get "name" (JStr "Unknown")
                        (get_or "stateEnteredEventDetails" (JDict []) event))
      as [e|state_name]; [discriminate|].
    destruct (_extract_failure_details event) as [e|fd] eqn:Hfd; [discriminate|].
    destruct (extract_failure_details_inv event fd Hfd)
      as [[Hno ->] | (Hyes & error & cause & more & ->)].
    + intros H. inversion H; subst. cbn. rewrite length_app. cbn.
      repeat split; intros; try congruence; auto.
    + destruct (is_failure_not_state event Hyes) as [_ Hne].
      unfold is_entered in Hne. congruence.
  - cbn [orb].
    destruct (Py.eqb (get_or "type" (JStr "") event) (JStr "StateExited")) eqn:Hex.
    + destruct (value_get "name" (JStr "Unknown")
                          (get_or "stateExitedEventDetails" (JDict []) event))
        as [e|state_name]; [discriminate|].
      destruct (_extract_failure_details event) as [e|fd] eqn:Hfd; [discriminate|].
      destruct (extract_failure_details_inv event fd Hfd)
        as [[Hno ->] | (Hyes & error & cause & more & ->)].
      * intros H. inversion H; subst. cbn. rewrite length_app. cbn.
        repeat split; intros; try congruence; auto.
      * destruct (is_failure_not_state event Hyes) as [Hns _].
        unfold is_state_event in Hns. rewrite Hent, Hex in Hns. discriminate.
    + destruct (_extract_failure_details event) as [e|fd] eqn:Hfd; [discriminate|].
      destruct (extract_failure_details_inv event fd Hfd)
        as [[Hno ->] | (Hyes & error & cause & more & ->)].
      * intros H. inversion H; subst. rewrite Nat.add_0_r.
        repeat split; intros; try congruence; auto.
      * destruct (failure_point s) as [p|] eqn:Hfp; intros H; inversion H; subst;
          cbn; rewrite Nat.add_0_r.
        -- repeat split; intros; try congruence; auto.
        -- split; [reflexivity|]. split; [reflexivity|].
           split; [intros; congruence|]. split; [intros; congruence|].
           intros _ _. eexists. split; reflexivity.
Qed.

Lemma scan_app (s : Scan) (es1 es2 : list Dict) :
  scan_all s (es1 ++ es2)%list = (s1 <- scan_all s es1 ;; scan_all s1 es2).
Proof.
  revert s; induction es1 as [|e es1 IH]; intros s; cbn [scan app bind].
  - reflexivity.
  - unfold bind at 1 3. destruct (step s e) as [x|s1]; [reflexivity|]. apply IH.
Qed.

Lemma scan_keeps_failure_point (es : list Dict) (s s' : Scan) (p : Dict) :
  scan_all s es = inr s' -> failure_point s = Some p -> failure_point s' = Some p.
Proof.
  revert s; induction es as [|e es IH]; intros s H Hp; cbn [scan] in H.
  - inversion H; subst. exact Hp.
  - unfold bind in H. destruct (step s e) as [x|s1] eqn:Hstep; [discriminate|].
    destruct (scan_event_inv _ _ _ Hstep) as (_ & _ & Hkeep & _).
    apply (IH _ H). apply Hkeep. exact Hp.
Qed.

Lemma scan_without_failure (es : list Dict) (s s' : Scan) :
  scan_all s es = inr s' ->
  forallb (fun e => negb (is_failure e)) es = true ->
  failure_point s' = failure_point s.
Proof.
  revert s; induction es as [|e es IH]; intros s H Hno; cbn [scan forallb] in *.
  - inversion H; subst. reflexivity.
  - unfold bind in H. destruct (step s e) as [x|s1] eqn:Hstep; [discriminate|].
    apply andb_true_iff in Hno. destruct Hno as [He Hes].
    apply negb_true_iff in He.
    destruct (scan_event_inv _ _ _ Hstep) as (_ & _ & _ & Hsame & _).
    rewrite (IH _ H Hes). apply Hsame. exact He.
Qed.

Lemma scan_without_entered (es : list Dict) (s s' : Scan) :
  scan_all s es = inr s' ->
  forallb (fun e => negb (is_entered e)) es = true ->
  last_successful_state s' = last_successful_state s.
Proof.
  revert s; induction es as [|e es IH]; intros s H Hno; cbn [scan forallb] in *.
  - inversion H; subst. reflexivity.
  - unfold bind in H. destruct (step s e) as [x|s1] eqn:Hstep; [discriminate|].
    apply andb_true_iff in Hno. destruct Hno as [He Hes].
    apply negb_true_iff in He.
    destruct (scan_event_inv _ _ _ Hstep) as (_ & Hsame & _).
    rewrite (IH _ H Hes). apply Hsame. exact He.
Qed.

Lemma analyze_inv (events : list Dict) (out : json) :
  events <> [] ->
  analyze events = inr out ->
  exists s,
    scan_all scan_start events = inr s
    /\ out = JDict [("timeline",
                     JList (slice_from (- max_timeline_events) (timeline s)));
                    ("failure_point",
                     match failure_point s with
                     | Some p => JDict p
                     | None => JNull
                     end);
                    ("last_successful_state", last_successful_state s)].
Proof.
  intros Hne H. unfold _analyze_execution_timeline in H.
  destruct events as [|e es]; [contradiction|].
  unfold bind in H.
  destruct (scan_all scan_start (e :: es)) as [x|s]; [discriminate|].
  inversion H. exists s. split; reflexivity.
Qed.

Lemma slice_from_length (A : Type) (m : Z) (l : list A) :
  (0 < m -> List.length (slice_from (- m) l) = Nat.min (List.length l) (Z.to_nat m))
  /\ (m = 0 -> slice_from (- m) l = l)
  /\ (m < 0 -> List.length (slice_from (- m) l)
               = (List.length l - Z.to_nat (- m))%nat).
Proof.
  unfold slice_from. split; [|split]; intros Hm.
  - destruct (Z.ltb_spec (- m) 0); [|lia]. rewrite length_skipn. lia.
  - subst. reflexivity.
  - destruct (Z.ltb_spec (- m) 0); [lia|]. apply length_skipn.
Qed.

Lemma scan_event_entered (s s' : Scan) (event : Dict) (name : json) :
  is_entered event = true ->
  value_get "name" (JStr "Unknown")
            (get_or "stateEnteredEventDetails" (JDict []) event) = inr name ->
  step s event = inr s' ->
  last_successful_state s' = name.
Proof.
  unfold scan_event, bind, is_entered. intros Hent Hname. rewrite Hent, Hname.
  destruct (_extract_failure_details event) as [e|fd] eqn:Hfd; [discriminate|].
  destruct fd as [[|kv details]|]; cbn [failure_point].
  - intros H. inversion H. reflexivity.
  - destruct (failure_point s); intros H; inversion H; reflexivity.
  - intros H. inversion H. reflexivity.
Qed.

(** What one iteration appends to the timeline. *)
Lemma scan_event_timeline (s s' : Scan) (event : Dict) :
  step s event = inr s' ->
  if is_state_event event
  then exists entry,
         timeline_entry str_other event = inr entry
         /\ timeline s' = (timeline s ++ [entry])%list
  else timeline s' = timeline s.
Proof.
  unfold scan_event, bind, is_state_event, timeline_entry, is_entered.
  destruct (Py.eqb (get_or "type" (JStr "") event) (JStr "StateEntered")) eqn:Hent.
  - cbn [orb].
    destruct (value_get "name" (JStr "Unknown")
                        (get_or "stateEnteredEventDetails" (JDict []) event))
      as [e|state_name]; [discriminate|].
    destruct (_extract_failure_details event) as [e|fd]; [discriminate|].
    intros H. eexists. split; [reflexivity|].
    destruct fd as [[|kv details]|]; cbn [failure_point timeline] in H;
      try destruct (failure_point s); inversion H; reflexivity.
  - cbn [orb].
    destruct (Py.eqb (get_or "type" (JStr "") event) (JStr "StateExited")) eqn:Hex.
    + destruct (value_get "name" (JStr "Unknown")
                          (get_or "stateExitedEventDetails" (JDict []) event))
        as [e|state_name]; [discriminate|].
      destruct (_extract_failure_details event) as [e|fd]; [discriminate|].
      intros H. eexists. split; [reflexivity|].
      destruct fd as [[|kv details]|]; cbn [failure_point timeline] in H;
        try destruct (failure_point s); inversion H; reflexivity.
    + destruct (_extract_failure_details event) as [e|fd]; [discriminate|].
      intros H.
      destruct fd as [[|kv details]|]; cbn [failure_point timeline] in H;
        try destruct (failure_point s); inversion H; reflexivity.
Qed.

Lemma scan_timeline (es : list Dict) (s s' : Scan) :
  scan_all s es = inr s' ->
  exists added,
    timeline s' = (timeline s ++ added)%list
    /\ map (timeline_entry str_other) (filter is_state_event es)
       = map (@inr PyExn json) added.
Proof.
  revert s; induction es as [|e es IH]; intros s H; cbn [scan filter] in *.
  - inversion H; subst. exists []. split; [symmetry; apply app_nil_r | reflexivity].
  - unfold bind in H. destruct (step s e) as [x|s1] eqn:Hstep; [discriminate|].
    pose proof (scan_event_timeline _ _ _ Hstep) as Hone.
    destruct (IH _ H) as (added & Htl & Hmap).
    destruct (is_state_event e).
    + destruct Hone as (entry & Hentry & Hone).
      exists (entry :: added). split.
      * rewrite Htl, Hone, <- app_assoc. reflexivity.
      * cbn [map]. rewrite Hentry, Hmap. reflexivity.
    + exists added. split; [rewrite Htl, Hone; reflexivity | exact Hmap].
Qed.

(** A slice [l[start:]] is what is left of [l] after some first
    elements. *)
Lemma slice_from_suffix (A : Type) (start : Z) (l : list A) :
  exists dropped, l = (dropped ++ slice_from start l)%list.
Proof.
  unfold slice_from. destruct (start <? 0).
  - eexists. symmetry. apply firstn_skipn.
  - eexists. symmetry. apply firstn_skipn.
Qed.

(** X14. Without events the analysis is the error dict.  Otherwise the
    StateEntered and StateExited events give one entry each, in the
    order of the events, and the timeline returned is the end of that
    list, the entries before it being dropped: the last
    max_timeline_events entries (all when there are fewer) for a
    positive limit, but every entry for a limit of 0, and all but the
    first -limit for a negative one. *)
Theorem timeline_keeps_last_entries (events : list Dict) (out : json) :
  analyze [] = inr (JDict [("error", JStr "No execution events available")])
  /\ (events <> [] ->
      analyze events = inr out ->
      exists dropped entries,
        map (timeline_entry str_other) (filter is_state_event events)
        = map (@inr PyExn json) (dropped ++ entries)%list
        /\ item "timeline" out = Some (JList entries)
        /\ let n := List.length (filter is_state_event events) in
           (0 < max_timeline_events ->
            List.length entries = Nat.min n (Z.to_nat max_timeline_events))
           /\ (max_timeline_events = 0 -> dropped = [] /\ List.length entries = n)
           /\ (max_timeline_events < 0 ->
               List.length entries = (n - Z.to_nat (- max_timeline_events))%nat
               /\ List.length dropped = Nat.min n (Z.to_nat (- max_timeline_events)))).
Proof.
  split; [reflexivity|]. intros Hne H.
  destruct (analyze_inv events out Hne H) as (s & Hscan & ->).
  destruct (scan_timeline _ _ _ Hscan) as (added & Htl & Hmap).
  cbn [timeline scan_start app] in Htl. rewrite Htl. clear Htl.
  destruct (slice_from_suffix json (- max_timeline_events) added)
    as (dropped & Hsplit).
  exists dropped, (slice_from (- max_timeline_events) added).
  split; [rewrite <- Hsplit; exact Hmap|].
  split; [reflexivity|]. cbv zeta.
  assert (Hn : List.length (filter is_state_event events) = List.length added).
  { rewrite <- (length_map (timeline_entry str_other)), Hmap. apply length_map. }
  assert (Hsum : List.length added
                 = (List.length dropped
                    + List.length (slice_from (- max_timeline_events) added))%nat).
  { rewrite Hsplit at 1. apply length_app. }
  destruct (slice_from_length json max_timeline_events added)
    as (Hpos & Hzero & Hneg).
  rewrite Hn. split; [exact Hpos|]. split.
  - intros Hm. rewrite (Hzero Hm) in *. split; [|reflexivity].
    destruct dropped as [|d dropped]; [reflexivity|]. cbn in Hsum. lia.
  - intros Hm. specialize (Hneg Hm). split; [exact Hneg|]. lia.
Qed.

(** X15. The failure point is the first failure event of the list as
    given: there is none when no event is a failure; otherwise it
    carries that event's timestamp, type and extracted details, and as
    state the last state entered by the events before it (None when
    there is none).  Later failures do not replace it. *)
Theorem failure_point_is_first_failure (events : list Dict) (out : json) :
  events <> [] ->
  analyze events = inr out ->
  (forallb (fun e => negb (is_failure e)) events = true ->
   item "failure_point" out = Some JNull)
  /\ (forall pre f post,
         events = (pre ++ f :: post)%list ->
         forallb (fun e => negb (is_failure e)) pre = true ->
         is_failure f = true ->
         exists details before,
           _extract_failure_details f = inr (Some details)
           /\ scan_all scan_start pre = inr before
           /\ item "failure_point" out
              = Some (JDict [("timestamp", get "timestamp" f);
                             ("event_type", get_or "type" (JStr "") f);
                             ("state", last_successful_state before);
                             ("details", JDict details)])
           /\ (forallb (fun e => negb (is_entered e)) pre = true ->
               last_successful_state before = JNull)).
Proof.
  intros Hne H.
  destruct (analyze_inv events out Hne H) as (s & Hscan & ->). cbn [item Py.dict_get].
  cbn [String.eqb Ascii.eqb Bool.eqb]. split.
  - intros Hno. rewrite (scan_without_failure _ _ _ Hscan Hno). reflexivity.
  - intros pre f post -> Hno Hf.
    rewrite scan_app in Hscan. unfold bind in Hscan.
    destruct (scan_all scan_start pre) as [x|before] eqn:Hpre; [discriminate|].
    cbn [scan] in Hscan. unfold bind in Hscan.
    destruct (step before f) as [x|s1] eqn:Hstep; [discriminate|].
    pose proof (scan_without_failure _ _ _ Hpre Hno) as Hnone. cbn in Hnone.
    destruct (scan_event_inv _ _ _ Hstep) as (_ & _ & _ & _ & Hset).
    destruct (Hset Hf Hnone) as (details & Hdetails & Hpoint).
    exists details, before. split; [exact Hdetails|]. split; [reflexivity|].
    split.
    + rewrite (scan_keeps_failure_point _ _ _ _ Hscan Hpoint). reflexivity.
    + intros Hnoent. apply (scan_without_entered _ _ _ Hpre Hnoent).
Qed.

(** X16. The last successful state is the name of the last
    StateEntered event of the list as given (None without one),
    whether or not a failure comes before or after it. *)
Theorem last_successful_state_is_last_entered (events : list Dict) (out : json) :
  events <> [] ->
  analyze events = inr out ->
  (forallb (fun e => negb (is_entered e)) events = true ->
   item "last_successful_state" out = Some JNull)
  /\ (forall pre e post name,
         events = (pre ++ e :: post)%list ->
         is_entered e = true ->
         value_get "name" (JStr "Unknown")
                   (get_or "stateEnteredEventDetails" (JDict []) e) = inr name ->
         forallb (fun e => negb (is_entered e)) post = true ->
         item "last_successful_state" out = Some name).
Proof.
  intros Hne H.
  destruct (analyze_inv events out Hne H) as (s & Hscan & ->). cbn [item Py.dict_get].
  cbn [String.eqb Ascii.eqb Bool.eqb]. split.
  - intros Hno. rewrite (scan_without_entered _ _ _ Hscan Hno). reflexivity.
  - intros pre e post name -> Hent Hname Hpost.
    rewrite scan_app in Hscan. unfold bind in Hscan.
    destruct (scan_all scan_start pre) as [x|before]; [discriminate|].
    cbn [scan] in Hscan. unfold bind in Hscan.
    destruct (step before e) as [x|s1] eqn:Hstep; [discriminate|].
    rewrite (scan_without_entered _ _ _ Hscan Hpost).
    rewrite (scan_event_entered _ _ _ _ Hent Hname Hstep). reflexivity.
Qed.

End TimelineFacts.

End StepFunctionsFacts.

(** *** The analysis of a recorded history *)

Lemma extract_failure_details_classifies_witness :
  StepFunctions.is_failure History.task_failed = true
  /\ Py.dict_get "error" [("error", JStr "Lambda.Unknown");
                          ("cause", JStr "No cause provided");
                          ("resource", JStr "Unknown resource")] <> None
  /\ Py.dict_get "cause" [("error", JStr "Lambda.Unknown");
                          ("cause", JStr "No cause provided");
                          ("resource", JStr "Unknown resource")] <> None
  /\ Py.truthy (JDict [("error", JStr "Lambda.Unknown");
                       ("cause", JStr "No cause provided");
                       ("resource", JStr "Unknown resource")]) = true.
Proof.
  apply (proj2 (StepFunctionsFacts.extract_failure_details_classifies
                  History.task_failed
                  (Some [("error", JStr "Lambda.Unknown");
                         ("cause", JStr "No cause provided");
                         ("resource", JStr "Unknown resource")])
                  eq_refl) _ eq_refl).
Defined.

Lemma timed_out_details_witness :
  StepFunctions._extract_failure_details History.task_timed_out
  = inr (Some [("error", JStr "TaskTimedOut"); ("cause", JStr "execution limit")]).
Proof.
  apply (proj1 (StepFunctionsFacts.timed_out_details
                  History.task_timed_out "TaskTimedOut" eq_refl (or_introl eq_refl))
               [("cause", JStr "execution limit")] eq_refl).
  discriminate.
Defined.

Lemma timeline_keeps_last_entries_witness :
  (* three state events, the most recent first; a limit of 2 keeps the
     two at the end of the list *)
  exists dropped entries out,
    History.analysis 2 = inr out
    /\ map (StepFunctions.timeline_entry History.str_other)
           (filter StepFunctions.is_state_event History.events)
       = map (@inr PyExn json) (dropped ++ entries)%list
    /\ PyLib.item "timeline" out = Some (JList entries)
    /\ dropped = [JDict [("timestamp", JInt 3);
                         ("event", JStr "Entered state: Extraction");
                         ("state", JStr "Extraction")]]
    /\ entries = [JDict [("timestamp", JInt 2);
                         ("event", JStr "Exited state: OCR");
                         ("state", JStr "OCR")];
                  JDict [("timestamp", JInt 1);
                         ("event", JStr "Entered state: OCR");
                         ("state", JStr "OCR")]].
Proof.
  destruct (proj2 (StepFunctionsFacts.timeline_keeps_last_entries
                     History.str_other 2 History.events
                     (match History.analysis 2 with
                      | inr out => out
                      | inl _ => JNull
                      end)))
    as (dropped & entries & Hmap & Hitem & _).
  - discriminate.
  - reflexivity.
  - exists dropped, entries. eexists. split; [reflexivity|].
    split; [exact Hmap|]. split; [exact Hitem|].
    vm_compute in Hitem. injection Hitem as <-.
    split; [|reflexivity].
    assert (Hall : map (StepFunctions.timeline_entry History.str_other)
                       (filter StepFunctions.is_state_event History.events)
                   = map (@inr PyExn json)
                         [JDict [("timestamp", JInt 3);
                                 ("event", JStr "Entered state: Extraction");
                                 ("state", JStr "Extraction")];
                          JDict [("timestamp", JInt 2);
                                 ("event", JStr "Exited state: OCR");
                                 ("state", JStr "OCR")];
                          JDict [("timestamp", JInt 1);
                                 ("event", JStr "Entered state: OCR");
                                 ("state", JStr "OCR")]])
      by (vm_compute; reflexivity).
    rewrite Hall in Hmap. clear Hall.
    destruct dropped as [|d1 [|d2 dropped]].
    + discriminate.
    + cbn in Hmap. injection Hmap as <-. reflexivity.
    + apply (f_equal (@List.length _)) in Hmap.
      rewrite !length_map, length_app in Hmap. cbn in Hmap. lia.
Defined.

Lemma failure_point_is_first_failure_witness :
  exists out,
    History.analysis 3 = inr out
    /\ PyLib.item "failure_point" out
       = Some (JDict [("timestamp", JInt 5);
                      ("event_type", JStr "ExecutionFailed");
                      ("state", JNull);
                      ("details", JDict [("error", JStr "States.TaskFailed");
                                         ("cause", JStr "Lambda raised")])]).
Proof.
  eexists. split; [reflexivity|].
  destruct (proj2 (StepFunctionsFacts.failure_point_is_first_failure
                     History.str_other 3 History.events _
                     ltac:(discriminate) eq_refl)
                  [] History.execution_failed
                  [History.task_failed; History.entered 3 "Extraction";
                   History.exited 2 "OCR"; History.entered 1 "OCR"]
                  eq_refl eq_refl eq_refl)
    as (details & before & Hdetails & Hbefore & Hpoint & _).
  inversion Hdetails; subst. inversion Hbefore; subst. exact Hpoint.
Defined.

Lemma last_successful_state_is_last_entered_witness :
  exists out,
    History.analysis 3 = inr out
    /\ PyLib.item "last_successful_state" out = Some (JStr "OCR").
Proof.
  eexists. split; [reflexivity|].
  apply (proj2 (StepFunctionsFacts.last_successful_state_is_last_entered
                  History.str_other 3 History.events _
                  ltac:(discriminate) eq_refl)
               [History.execution_failed; History.task_failed;
                History.entered 3 "Extraction"; History.exited 2 "OCR"]
               (History.entered 1 "OCR") [] (JStr "OCR")
               eq_refl eq_refl eq_refl eq_refl).
Defined.

(** * The system-wide analysis tool *)

Module GeneralAnalysisFacts.

Import PyLib GeneralAnalysis.

Lemma category_of_cases (message : string) :
  category_of message = "validation_errors"
  \/ category_of message = "processing_errors"
  \/ category_of message = "system_errors"
  \/ category_of message = "timeout_errors"
  \/ category_of message = "access_errors".
Proof.
  unfold category_of.
  destruct (PyStr.contains "validation" message || PyStr.contains "invalid" message);
    [auto|].
  destruct (PyStr.contains "timeout" message); [auto 6|].
  destruct (PyStr.contains "access" message || PyStr.contains "denied" message);
    [auto 6|].
  destruct (PyStr.contains "exception" message || PyStr.contains "error" message);
    auto 6.
Qed.

Lemma in_category_eq (name text : string) (event : Dict) :
  get_or "message" (JStr "") event = JStr text ->
  in_category name event = String.eqb (category_of (PyStr.lower text)) name.
Proof.
  intros H. unfold in_category, event_category. rewrite H. reflexivity.
Qed.

Lemma event_category_message (event : Dict) :
  event_category event <> None ->
  exists text, get_or "message" (JStr "") event = JStr text.
Proof.
  unfold event_category.
  destruct (get_or "message" (JStr "") event); try (intros H; now contradiction H).
  eauto.
Qed.

(** The loop, started from any five lists, appends to each list the
    events of its class in their order. *)
Lemma categorize_filters (log_events : list Dict) :
  (forall event, In event log_events -> event_category event <> None) ->
  forall l1 l2 l3 l4 l5,
    categorize [("validation_errors", l1); ("processing_errors", l2);
                ("system_errors", l3); ("timeout_errors", l4);
                ("access_errors", l5)] log_events
    = inr [("validation_errors",
            (l1 ++ filter (in_category "validation_errors") log_events)%list);
           ("processing_errors",
            (l2 ++ filter (in_category "processing_errors") log_events)%list);
           ("system_errors",
            (l3 ++ filter (in_category "system_errors") log_events)%list);
           ("timeout_errors",
            (l4 ++ filter (in_category "timeout_errors") log_events)%list);
           ("access_errors",
            (l5 ++ filter (in_category "access_errors") log_events)%list)].
Proof.
  induction log_events as [|event rest IH]; intros Hstr l1 l2 l3 l4 l5.
  - cbn [categorize filter]. now rewrite !app_nil_r.
  - assert (Hrest : forall e, In e rest -> event_category e <> None).
    { intros e He. apply Hstr. now right. }
    destruct (event_category_message event (Hstr event (or_introl eq_refl)))
      as [text Htext].
    cbn [categorize filter]. rewrite Htext.
    rewrite !(in_category_eq _ text event Htext).
    destruct (category_of_cases (PyStr.lower text)) as [H|[H|[H|[H|H]]]];
      rewrite H; cbn [append_to String.eqb Ascii.eqb Bool.eqb];
      rewrite (IH Hrest); rewrite <- ?app_assoc; reflexivity.
Qed.

Lemma partition_length (log_events : list Dict) :
  (forall event, In event log_events -> event_category event <> None) ->
  (List.length (filter (in_category "validation_errors") log_events)
   + List.length (filter (in_category "processing_errors") log_events)
   + List.length (filter (in_category "system_errors") log_events)
   + List.length (filter (in_category "timeout_errors") log_events)
   + List.length (filter (in_category "access_errors") log_events)
   = List.length log_events)%nat.
Proof.
  induction log_events as [|event rest IH]; intros Hstr; [reflexivity|].
  assert (Hrest : forall e, In e rest -> event_category e <> None).
  { intros e He. apply Hstr. now right. }
  destruct (event_category_message event (Hstr event (or_introl eq_refl)))
    as [text Htext].
  specialize (IH Hrest). cbn [filter].
  rewrite !(in_category_eq _ text event Htext).
  destruct (category_of_cases (PyStr.lower text)) as [H|[H|[H|[H|H]]]];
    rewrite H; cbn [String.eqb Ascii.eqb Bool.eqb List.length]; lia.
Qed.

Lemma categorize_fails (log_events : list Dict) (event : Dict) :
  In event log_events ->
  event_category event = None ->
  forall categories, exists e, categorize categories log_events = inl e.
Proof.
  induction log_events as [|first rest IH]; intros Hin Hnone categories;
    [contradiction|].
  cbn [categorize].
  destruct (get_or "message" (JStr "") first) as [| | |text| |] eqn:Hfirst;
    try (eexists; reflexivity).
  destruct Hin as [-> | Hin].
  - unfold event_category in Hnone. rewrite Hfirst in Hnone. discriminate.
  - apply IH; assumption.
Qed.

Lemma categorize_returns_strings (log_events : list Dict) (categories : Categories) :
  _categorize_errors log_events = inr categories ->
  forall event, In event log_events -> event_category event <> None.
Proof.
  intros H event Hin Hnone.
  destruct (categorize_fails log_events event Hin Hnone
              (map (fun name => (name, [])) category_names)) as [e He].
  unfold _categorize_errors in H. congruence.
Qed.

Lemma categorize_result (log_events : list Dict) :
  (forall event, In event log_events -> event_category event <> None) ->
  _categorize_errors log_events
  = inr (map (fun name => (name, filter (in_category name) log_events))
             category_names).
Proof.
  intros Hstr. unfold _categorize_errors. cbn [map category_names].
  rewrite (categorize_filters log_events Hstr). reflexivity.
Qed.

(** X17. [_categorize_errors] sorts every event into exactly one of the
    five categories, keeping the order of arrival: when every message
    is a string (or absent) each category holds the events of its class
    and the five lists together have as many entries as there are
    events.  One event whose message is not a string makes the whole
    call raise. *)
Theorem categorize_errors_partitions (log_events : list Dict) :
  ((forall event, In event log_events -> event_category event <> None) ->
   _categorize_errors log_events
   = inr (map (fun name => (name, filter (in_category name) log_events))
              category_names)
   /\ fold_right Nat.add O
                 (map (fun name =>
                         List.length (filter (in_category name) log_events))
                      category_names)
      = List.length log_events)
  /\ (forall event,
         In event log_events ->
         event_category event = None ->
         exists e, _categorize_errors log_events = inl e).
Proof.
  split.
  - intros Hstr. split; [apply categorize_result; exact Hstr|].
    cbn [map category_names fold_right].
    pose proof (partition_length log_events Hstr). lia.
  - intros event Hin Hnone. apply (categorize_fails log_events event Hin Hnone).
Qed.

Lemma join_header (header : string) (parts : list string) :
  exists rest, join ". " (("Found " ++ header) :: parts) = String "F" rest.
Proof. destruct parts; cbn; eauto. Qed.

(** X18. The summary says that no processing errors were found exactly
    when nothing was categorized, whatever the error estimate and the
    failed documents passed in: for the categories of a list of events
    it is that sentence if and only if the list is empty, and otherwise
    it opens with the "Found ..." count. *)
Theorem error_summary_of_nothing
        (failed_documents : list json) (total_estimate : Z) :
  (forall categories,
      (forall kv, In kv categories -> snd kv = []) ->
      _generate_error_summary categories failed_documents total_estimate
      = "No processing errors found in the specified time range")
  /\ (forall log_events categories,
         _categorize_errors log_events = inr categories ->
         (_generate_error_summary categories failed_documents total_estimate
          = "No processing errors found in the specified time range"
          <-> log_events = [])
         /\ (log_events <> [] ->
             exists rest,
               _generate_error_summary categories failed_documents total_estimate
               = "Found " ++ str_int total_estimate ++ " total errors across "
                 ++ str_int (Z.of_nat (List.length failed_documents))
                 ++ " failed documents" ++ rest)).
Proof.
  split.
  - intros categories Hempty. unfold _generate_error_summary.
    assert (Hzero : fold_right Nat.add O
                      (map (fun kv => List.length (snd kv)) categories) = O).
    { induction categories as [|kv categories IH]; [reflexivity|].
      cbn [map fold_right]. rewrite (Hempty kv (or_introl eq_refl)).
      rewrite IH; [reflexivity|]. intros kv' Hin. apply Hempty. now right. }
    rewrite Hzero. reflexivity.
  - intros log_events categories Hcat.
    pose proof (categorize_returns_strings _ _ Hcat) as Hstr.
    rewrite (categorize_result log_events Hstr) in Hcat. inversion Hcat as [Heq].
    clear Hcat. unfold _generate_error_summary.
    cbn [map category_names fold_right snd].
    pose proof (partition_length log_events Hstr) as Hlen.
    destruct log_events as [|event rest].
    { split; [split; reflexivity|]. intros H. contradiction. }
    cbn [List.length] in Hlen.
    destruct (Nat.eqb_spec
                (List.length (filter (in_category "validation_errors") (event :: rest))
                 + (List.length (filter (in_category "processing_errors") (event :: rest))
                    + (List.length (filter (in_category "system_errors") (event :: rest))
                       + (List.length (filter (in_category "timeout_errors") (event :: rest))
                          + (List.length (filter (in_category "access_errors") (event :: rest))
                             + 0))))) 0) as [Hz|Hnz]; [lia|].
    split.
    + split; [|discriminate].
      match goal with
      | |- join ". " (?h :: ?b) = _ -> _ =>
          destruct b; cbn; discriminate
      end.
    + intros _.
      match goal with
      | |- exists rest, join ". " (?h :: ?b) = _ =>
          destruct b as [|p b']
      end.
      * exists "". reflexivity.
      * eexists. cbn [join]. rewrite !string_app_assoc. reflexivity.
Qed.

(** *** Filtering and de-duplication *)

(** What one iteration of the filter loop does when it does not
    raise. *)
Lemma filter_event_inv (config : Dict) (st st' : FilterState) (event : Dict) :
  filter_event config st event = inr st' ->
  exists message,
    get_or "message" (JStr "") event = JStr message
    /\ ((st' = st
         /\ (In (error_signature message) (seen_messages st)
             \/ (10 <= List.length (filtered st))%nat))
        \/ (~ In (error_signature message) (seen_messages st)
            /\ (List.length (filtered st) < 10)%nat
            /\ exists max_length timestamp log_stream,
                 int_value (get_or "max_log_message_length" (JInt 200) config)
                 = Some max_length
                 /\ Py.dict_get "timestamp" event = Some timestamp
                 /\ first_50 (get_or "log_stream" (JStr "") event) = inr log_stream
                 /\ st' = mkFilter
                            (seen_messages st ++ [error_signature message])
                            (filtered st
                             ++ [[("timestamp", timestamp);
                                  ("message", JStr (truncate max_length message));
                                  ("log_stream", log_stream)]]))).
Proof.
  unfold filter_event.
  destruct (get_or "message" (JStr "") event) as [| | |message| |];
    try discriminate.
  intros H. exists message. split; [reflexivity|].
  destruct (PyStr.mem (error_signature message) (seen_messages st)) eqn:Hmem;
    cbn [negb andb] in H.
  - injection H as <-. left. split; [reflexivity|]. left. apply mem_iff. exact Hmem.
  - destruct (Nat.ltb_spec (List.length (filtered st)) 10) as [Hlt|Hge].
    + right. split.
      { intros Hin. apply mem_iff in Hin. congruence. }
      split; [exact Hlt|].
      destruct (int_value (get_or "max_log_message_length" (JInt 200) config))
        as [max_length|]; [|discriminate].
      destruct (Py.dict_get "timestamp" event) as [timestamp|]; [|discriminate].
      unfold bind in H.
      destruct (first_50 (get_or "log_stream" (JStr "") event)) as [e|log_stream];
        [discriminate|].
      injection H as <-. exists max_length, timestamp, log_stream. auto.
    + injection H as <-. left. split; [reflexivity|]. right. exact Hge.
Qed.

Lemma signatures_cons (event : Dict) (rest : list Dict) (message : string) :
  get_or "message" (JStr "") event = JStr message ->
  signatures (event :: rest) = error_signature message :: signatures rest.
Proof.
  intros H. unfold signatures, event_message. cbn [flat_map]. rewrite H. reflexivity.
Qed.

Lemma filter_event_invariant (config : Dict) (st st' : FilterState)
      (event : Dict) (read : list string) :
  filter_invariant st read ->
  filter_event config st event = inr st' ->
  filter_invariant st' (read ++ signatures [event]).
Proof.
  intros (Hlen & Hnodup & Hseen & Hread & Hcap) H.
  destruct (filter_event_inv config st st' event H)
    as (message & Hmsg & [[-> Hskip] | (Hnew & Hlt & max_length & timestamp
                                         & log_stream & _ & _ & _ & ->)]);
    rewrite (signatures_cons event [] message Hmsg); cbn [signatures flat_map];
    unfold filter_invariant.
  - split; [exact Hlen|]. split; [exact Hnodup|].
    split; [apply incl_appl; exact Hseen|]. split; [|exact Hcap].
    intros Hlt. destruct Hskip as [Hin|Hge]; [|lia].
    apply incl_app; [apply Hread; exact Hlt|].
    intros x [<-|[]]. exact Hin.
  - cbn [filtered seen_messages]. rewrite !length_app. cbn [List.length].
    split; [lia|]. split.
    + apply NoDup_app; [exact Hnodup | repeat constructor; auto |].
      intros x Hx [<-|[]]. contradiction.
    + split; [apply incl_app_app; [exact Hseen | apply incl_refl]|].
      split; [|lia]. intros _.
      apply incl_app_app; [apply Hread; exact Hlt | apply incl_refl].
Qed.

Lemma signatures_app (es1 es2 : list Dict) :
  signatures (es1 ++ es2) = (signatures es1 ++ signatures es2)%list.
Proof. unfold signatures. apply flat_map_app. Qed.

Lemma filter_events_invariant (config : Dict) (events : list Dict)
      (st st' : FilterState) (read : list string) :
  filter_invariant st read ->
  filter_events config st events = inr st' ->
  filter_invariant st' (read ++ signatures events).
Proof.
  revert st read; induction events as [|event rest IH]; intros st read Hinv H;
    cbn [filter_events] in H.
  - inversion H; subst. cbn. rewrite app_nil_r. exact Hinv.
  - unfold bind in H.
    destruct (filter_event config st event) as [e|st1] eqn:Hstep; [discriminate|].
    change (event :: rest) with ([event] ++ rest)%list.
    rewrite signatures_app, app_assoc.
    apply (IH st1); [|exact H].
    apply (filter_event_invariant config st st1 event read Hinv Hstep).
Qed.

Lemma filter_returns (events : list Dict) (config : Dict) (out : list Dict) :
  _filter_and_deduplicate_events events config = inr out ->
  exists st,
    filter_events config (mkFilter [] []) events = inr st /\ out = filtered st.
Proof.
  unfold _filter_and_deduplicate_events, bind.
  destruct (filter_events config (mkFilter [] []) events) as [e|st]; [discriminate|].
  intros H. inversion H. eauto.
Qed.

(** X19. What [_filter_and_deduplicate_events] returns has one entry
    for each distinct error signature among the events, up to ten: its
    length is the smaller of 10 and the number of distinct
    signatures. *)
Theorem filter_keeps_distinct_signatures
        (events : list Dict) (config : Dict) (out : list Dict) :
  _filter_and_deduplicate_events events config = inr out ->
  List.length out
  = Nat.min 10 (List.length (nodup string_dec (signatures events)))
  /\ (List.length out <= List.length events)%nat.
Proof.
  intros H. destruct (filter_returns events config out H) as (st & Hrun & ->).
  assert (Hstart : filter_invariant (mkFilter [] []) []).
  { unfold filter_invariant. cbn. repeat split; auto using incl_refl.
    - constructor.
    - lia. }
  destruct (filter_events_invariant config events _ st [] Hstart Hrun)
    as (Hlen & Hnodup & Hseen & Hread & Hcap).
  cbn [app] in Hseen, Hread.
  set (sigs := signatures events) in *.
  assert (Hle : (List.length (seen_messages st)
                 <= List.length (nodup string_dec sigs))%nat).
  { apply NoDup_incl_length; [exact Hnodup|].
    intros x Hx. apply nodup_In. apply Hseen. exact Hx. }
  assert (Hsigs : (List.length (nodup string_dec sigs) <= List.length events)%nat).
  { transitivity (List.length sigs).
    - apply NoDup_incl_length; [apply NoDup_nodup|].
      intros x Hx. apply nodup_In in Hx. exact Hx.
    - subst sigs. clear. induction events as [|e es IH]; [cbn; lia|].
      change (e :: es) with ([e] ++ es)%list.
      rewrite signatures_app, length_app. cbn [List.length app].
      unfold signatures at 1. cbn [flat_map].
      destruct (event_message e); cbn; lia. }
  split; [|lia].
  destruct (Nat.lt_ge_cases (List.length (filtered st)) 10) as [Hlt|Hge].
  - assert (Hge' : (List.length (nodup string_dec sigs)
                    <= List.length (seen_messages st))%nat).
    { apply NoDup_incl_length; [apply NoDup_nodup|].
      intros x Hx. apply nodup_In in Hx. apply (Hread Hlt). exact Hx. }
    lia.
  - lia.
Qed.

(** X20. Every entry returned comes from one of the events: it carries
    that event's timestamp, its message cut to the configured length
    (200 without a setting) and the first 50 characters or items of its
    log stream, and nothing else. *)
Theorem filter_entries_come_from_events
        (events : list Dict) (config : Dict) (out : list Dict) :
  _filter_and_deduplicate_events events config = inr out ->
  forall entry,
    In entry out ->
    exists event message max_length timestamp log_stream,
      In event events
      /\ get_or "message" (JStr "") event = JStr message
      /\ int_value (get_or "max_log_message_length" (JInt 200) config)
         = Some max_length
      /\ Py.dict_get "timestamp" event = Some timestamp
      /\ first_50 (get_or "log_stream" (JStr "") event) = inr log_stream
      /\ entry = [("timestamp", timestamp);
                  ("message", JStr (truncate max_length message));
                  ("log_stream", log_stream)].
Proof.
  intros H. destruct (filter_returns events config out H) as (st & Hrun & ->).
  clear H.
  assert (Hgen : forall st0,
             filter_events config st0 events = inr st ->
             forall entry,
               In entry (filtered st) ->
               In entry (filtered st0)
               \/ exists event message max_length timestamp log_stream,
                    In event events
                    /\ get_or "message" (JStr "") event = JStr message
                    /\ int_value (get_or "max_log_message_length" (JInt 200) config)
                       = Some max_length
                    /\ Py.dict_get "timestamp" event = Some timestamp
                    /\ first_50 (get_or "log_stream" (JStr "") event)
                       = inr log_stream
                    /\ entry = [("timestamp", timestamp);
                                ("message", JStr (truncate max_length message));
                                ("log_stream", log_stream)]).
  { clear Hrun. induction events as [|event rest IH]; intros st0 Hrun entry Hin;
      cbn [filter_events] in Hrun.
    - inversion Hrun; subst. left. exact Hin.
    - unfold bind in Hrun.
      destruct (filter_event config st0 event) as [e|st1] eqn:Hstep; [discriminate|].
      destruct (IH st1 Hrun entry Hin)
        as [Hold | (ev & m & ml & ts & ls & Hev & Hrest)].
      + destruct (filter_event_inv config st0 st1 event Hstep)
          as (message & Hmsg & [[-> _] | (_ & _ & max_length & timestamp
                                          & log_stream & Hmax & Hts & Hls & ->)]).
        * left. exact Hold.
        * cbn [filtered] in Hold. apply in_app_or in Hold.
          destruct Hold as [Hold | [<- | []]]; [left; exact Hold|].
          right. exists event, message, max_length, timestamp, log_stream.
          repeat split; auto. now left.
      + right. exists ev, m, ml, ts, ls. split; [now right | exact Hrest]. }
  intros entry Hin. destruct (Hgen _ Hrun entry Hin) as [[] | Hex]. exact Hex.
Qed.

Lemma length_append (a b : string) :
  String.length (a ++ b) = (String.length a + String.length b)%nat.
Proof. induction a as [|c a IH]; cbn; [reflexivity | now rewrite IH]. Qed.

Lemma length_substring_0 (n : nat) (s : string) :
  String.length (String.substring 0 n s) = Nat.min n (String.length s).
Proof.
  revert s; induction n as [|n IH]; intros s.
  - destruct s; reflexivity.
  - destruct s as [|c s]; cbn; [reflexivity | now rewrite IH].
Qed.

(** X21. A message no longer than the limit is passed on unchanged.  A
    longer one is cut to the limit and marked with "...", so it comes
    out three characters longer than the limit; with a negative limit
    every message is marked, after losing that many characters from its
    end.  A log stream name is cut to at most 50 characters. *)
Theorem truncation_bounds (max_length : Z) (message : string) :
  let n := Z.of_nat (String.length message) in
  (n <= max_length -> truncate max_length message = message)
  /\ (0 <= max_length < n ->
      truncate max_length message
      = String.substring 0 (Z.to_nat max_length) message ++ "..."
      /\ Z.of_nat (String.length (truncate max_length message)) = max_length + 3)
  /\ (max_length < 0 ->
      Z.of_nat (String.length (truncate max_length message))
      = Z.max 0 (n + max_length) + 3)
  /\ (exists cut,
         first_50 (JStr message) = inr (JStr cut)
         /\ (String.length cut <= 50)%nat
         /\ ((String.length message <= 50)%nat -> cut = message)).
Proof.
  cbv zeta. unfold truncate, str_slice_to. split; [|split; [|split]].
  - intros Hle. destruct (Z.gtb_spec (Z.of_nat (String.length message)) max_length);
      [lia | reflexivity].
  - intros [Hpos Hlt].
    destruct (Z.gtb_spec (Z.of_nat (String.length message)) max_length); [|lia].
    destruct (Z.ltb_spec max_length 0); [lia|].
    split; [reflexivity|].
    rewrite length_append, length_substring_0. cbn [String.length]. lia.
  - intros Hneg.
    destruct (Z.gtb_spec (Z.of_nat (String.length message)) max_length); [|lia].
    destruct (Z.ltb_spec max_length 0); [|lia].
    rewrite length_append, length_substring_0. cbn [String.length]. lia.
  - exists (String.substring 0 50 message). split; [reflexivity|].
    split; [rewrite length_substring_0; lia|].
    intros Hshort. clear - Hshort.
    assert (Hgen : forall n s, (String.length s <= n)%nat ->
                               String.substring 0 n s = s).
    { induction n as [|n IH]; intros s Hs.
      - destruct s; [reflexivity | cbn in Hs; lia].
      - destruct s as [|c s]; [reflexivity|]. cbn. rewrite IH; [reflexivity|].
        cbn in Hs. lia. }
    apply Hgen. exact Hshort.
Qed.

(** *** The error signature *)

Lemma match_shape_app (shape s r rest : string) :
  match_shape shape s = Some r ->
  match_shape shape (s ++ rest) = Some (r ++ rest)
  /\ String.length s = (String.length shape + String.length r)%nat.
Proof.
  revert s; induction shape as [|p shape IH]; intros s H; cbn [match_shape] in *.
  - inversion H; subst. split; reflexivity.
  - destruct s as [|c s]; [discriminate|]. cbn [append String.length].
    destruct (if Ascii.eqb p "d" then is_digit c else Ascii.eqb c p);
      [|discriminate].
    destruct (IH s H) as [Happ Hlen]. split; [exact Happ | now rewrite Hlen].
Qed.

Lemma lazy_to_Z_whole (s rest : string) :
  lazy_to_Z s = Some (String.length s) ->
  lazy_to_Z (s ++ rest) = Some (String.length s).
Proof.
  induction s as [|c s IH]; cbn [lazy_to_Z append String.length]; [discriminate|].
  destruct (Ascii.eqb c "Z"); [intros H; exact H|].
  destruct (Ascii.eqb c (ascii_of_nat 10)); [discriminate|].
  destruct (lazy_to_Z s) as [n|] eqn:Hs; [|discriminate].
  cbn [option_map]. intros H. inversion H; subst. rewrite (IH eq_refl). reflexivity.
Qed.

Lemma lazy_to_Z_bound (s : string) (n : nat) :
  lazy_to_Z s = Some n -> (n <= String.length s)%nat.
Proof.
  revert n; induction s as [|c s IH]; intros n; cbn [lazy_to_Z String.length];
    [discriminate|].
  destruct (Ascii.eqb c "Z"); [intros H; inversion H; lia|].
  destruct (Ascii.eqb c (ascii_of_nat 10)); [discriminate|].
  destruct (lazy_to_Z s) as [k|]; [|discriminate].
  cbn. intros H. inversion H. specialize (IH k eq_refl). lia.
Qed.

Lemma match_timestamp_whole (ts rest : string) :
  is_timestamp ts = true ->
  match_timestamp (ts ++ rest) = Some (String.length ts)
  /\ (11 <= String.length ts)%nat.
Proof.
  unfold is_timestamp, match_timestamp.
  destruct (match_shape "dddd-dd-dd" ts) as [r|] eqn:Hshape; [|discriminate].
  destruct (match_shape_app _ _ _ rest Hshape) as [Happ Hlen].
  rewrite Happ. cbn [String.length] in Hlen.
  destruct (lazy_to_Z r) as [k|] eqn:Hk; [|discriminate].
  cbn [option_map]. intros H. apply Nat.eqb_eq in H.
  assert (Hkr : k = String.length r) by lia. subst k.
  rewrite (lazy_to_Z_whole r rest Hk). cbn [option_map].
  pose proof (lazy_to_Z_bound r _ Hk).
  assert (1 <= String.length r)%nat.
  { destruct r; [discriminate|]. cbn. lia. }
  split; [f_equal; lia | lia].
Qed.

Lemma sub_from_skip (matcher : string -> option nat) (p rest : string) :
  sub_from matcher (String.length p) (p ++ rest) = sub_from matcher 0 rest.
Proof.
  induction p as [|c p IH]; cbn [String.length append].
  - reflexivity.
  - cbn [sub_from]. exact IH.
Qed.

Lemma signature_drops_timestamp (ts rest : string) :
  is_timestamp ts = true ->
  error_signature (ts ++ rest) = error_signature rest.
Proof.
  intros Hts. unfold error_signature. f_equal.
  destruct (match_timestamp_whole ts rest Hts) as [Hmatch Hlen].
  destruct ts as [|c ts]; [cbn in Hlen; lia|].
  cbn [append sub_from]. cbn [append] in Hmatch. rewrite Hmatch.
  cbn [String.length]. apply sub_from_skip.
Qed.

(** X22. The error signature does not depend on a leading timestamp:
    a message that starts with a date, anything up to the first "Z" on
    the same line, has the signature of what follows.  Two events whose
    messages differ only in such a timestamp therefore count once: the
    filter returns a single entry for them. *)
Theorem signature_ignores_leading_timestamp (ts1 ts2 rest : string) :
  is_timestamp ts1 = true ->
  is_timestamp ts2 = true ->
  error_signature (ts1 ++ rest) = error_signature rest
  /\ error_signature (ts1 ++ rest) = error_signature (ts2 ++ rest)
  /\ (forall event1 event2 config out,
         get_or "message" (JStr "") event1 = JStr (ts1 ++ rest) ->
         get_or "message" (JStr "") event2 = JStr (ts2 ++ rest) ->
         _filter_and_deduplicate_events [event1; event2] config = inr out ->
         exists entry, out = [entry]).
Proof.
  intros H1 H2.
  pose proof (signature_drops_timestamp ts1 rest H1) as E1.
  pose proof (signature_drops_timestamp ts2 rest H2) as E2.
  split; [exact E1|]. split; [congruence|].
  intros event1 event2 config out Hm1 Hm2 Hout.
  destruct (filter_returns _ _ _ Hout) as (st & Hrun & ->).
  cbn [filter_events] in Hrun. unfold bind in Hrun.
  destruct (filter_event config (mkFilter [] []) event1) as [e|st1] eqn:Hstep1;
    [discriminate|].
  destruct (filter_event config st1 event2) as [e|st2] eqn:Hstep2; [discriminate|].
  inversion Hrun; subst st2. clear Hrun.
  destruct (filter_event_inv _ _ _ _ Hstep1)
    as (m1 & Hmsg1 & [[-> [[]|Hge]] | (_ & _ & ml & t & l & _ & _ & _ & ->)]).
  { cbn in Hge. lia. }
  rewrite Hm1 in Hmsg1. inversion Hmsg1; subst m1.
  destruct (filter_event_inv _ _ _ _ Hstep2)
    as (m2 & Hmsg2 & [[-> _] | (Hnew & _)]).
  - cbn. eexists. reflexivity.
  - rewrite Hm2 in Hmsg2. inversion Hmsg2; subst m2.
    exfalso. apply Hnew. cbn. left. congruence.
Qed.

End GeneralAnalysisFacts.

(** * The multi-pattern search *)

Module RecentErrorsFacts.

Import PyLib GeneralAnalysis RecentErrors.

Lemma filter_at_most_ten (events : list Dict) (config : Dict) (out : list Dict) :
  _filter_and_deduplicate_events events config = inr out ->
  (List.length out <= 10)%nat.
Proof.
  intros H.
  destruct (GeneralAnalysisFacts.filter_returns events config out H)
    as (st & Hrun & ->).
  assert (Hstart : filter_invariant (mkFilter [] []) []).
  { unfold filter_invariant. cbn. repeat split; auto using incl_refl.
    - constructor.
    - lia. }
  destruct (GeneralAnalysisFacts.filter_events_invariant
              config events _ st [] Hstart Hrun) as (_ & _ & _ & _ & Hcap).
  exact Hcap.
Qed.

Section SearchFacts.

Variable search_stack_logs : string -> Z -> Z -> Z -> PyExn + SearchResults.
Variable config : Dict.
Variable time_range_hours : Z.
Variable max_log_events : Z.

Local Abbreviation body :=
  (collect_pattern search_stack_logs config time_range_hours max_log_events).
Local Abbreviation loop :=
  (collect search_stack_logs config time_range_hours max_log_events).
Local Abbreviation search :=
  (multi_pattern_search search_stack_logs config time_range_hours max_log_events).

(** What one pass through the body of the loop does. *)
Lemma collect_pattern_inv (c c' : Collected) (pattern : string) (max_events : Z) :
  body c pattern max_events = inr c' ->
  searches c'
  = (searches c
     ++ [(pattern, Z.min max_events (max_log_events - total_events_collected c))])%list
  /\ exists added,
       all_log_events c' = (all_log_events c ++ added)%list
       /\ total_events_collected c'
          = total_events_collected c + Z.of_nat (List.length added)
       /\ (List.length added <= 10)%nat.
Proof.
  unfold collect_pattern, bind.
  destruct (search_stack_logs pattern time_range_hours
              (Z.min max_events (max_log_events - total_events_collected c)) 10)
    as [e|found]; [discriminate|].
  destruct (default 0 (total_events_found found) >? 0).
  - destruct (_filter_and_deduplicate_events
                (flat_map (fun result => default [] (events result))
                          (default [] (results found))) config)
      as [e|filtered_events] eqn:Hfilter; [discriminate|].
    destruct (int_value (get_or "max_response_events_per_group" (JInt 1) config));
      [|discriminate].
    intros H. injection H as <-. cbn. split; [reflexivity|].
    exists filtered_events. repeat split.
    apply (filter_at_most_ten _ _ _ Hfilter).
  - intros H. injection H as <-. cbn. split; [reflexivity|].
    exists []. rewrite app_nil_r. cbn. repeat split; lia.
Qed.

(** The searches a run of the loop adds, and what it collects. *)
Lemma collect_inv (patterns : list (string * Z)) (c c' : Collected) :
  Forall (fun pm => 1 <= snd pm) patterns ->
  0 <= total_events_collected c ->
  loop patterns c = inr c' ->
  exists done added,
    searches c' = (searches c ++ done)%list
    /\ map fst done = firstn (List.length done) (map fst patterns)
    /\ Forall (fun s => 1 <= snd s <= max_log_events
                        /\ exists limit, In (fst s, limit) patterns
                                         /\ snd s <= limit) done
    /\ all_log_events c' = (all_log_events c ++ added)%list
    /\ total_events_collected c'
       = total_events_collected c + Z.of_nat (List.length added)
    /\ (List.length added <= 10 * List.length done)%nat
    /\ (done = [] \/ total_events_collected c' <= max_log_events + 9).
Proof.
  intros Hpos. revert c. induction Hpos as [|[pattern max_events] rest Hp _ IH];
    intros c Hnonneg H; cbn [collect] in H.
  - injection H as <-. exists [], []. rewrite !app_nil_r. cbn.
    repeat split; auto; lia.
  - destruct (Z.geb_spec (total_events_collected c) max_log_events) as [Hge|Hlt].
    + injection H as <-. exists [], []. rewrite !app_nil_r. cbn.
      repeat split; auto; lia.
    + unfold bind in H.
      destruct (body c pattern max_events) as [e|c1] eqn:Hbody; [discriminate|].
      destruct (collect_pattern_inv _ _ _ _ Hbody)
        as (Hs1 & added1 & Ha1 & Ht1 & Hl1).
      assert (Hnonneg1 : 0 <= total_events_collected c1) by lia.
      destruct (IH c1 Hnonneg1 H)
        as (done & added & Hs & Hnames & Hall & Ha & Ht & Hl & Hb).
      cbn [snd] in Hp.
      exists ((pattern, Z.min max_events (max_log_events - total_events_collected c))
                :: done), (added1 ++ added)%list.
      split. { rewrite Hs, Hs1, <- app_assoc. reflexivity. }
      split. { cbn. f_equal. exact Hnames. }
      split.
      { constructor.
        - cbn [fst snd]. split; [lia|]. exists max_events.
          split; [now left | lia].
        - eapply Forall_impl; [|exact Hall].
          intros s (Hbound & limit & Hin & Hle). split; [exact Hbound|].
          exists limit. split; [now right | exact Hle]. }
      split. { rewrite Ha, Ha1, <- app_assoc. reflexivity. }
      split. { rewrite Ht, Ht1, length_app. lia. }
      split. { rewrite length_app. cbn [List.length]. lia. }
      right. destruct Hb as [-> | Hb]; [|exact Hb].
      cbn in Hl. assert (List.length added = 0%nat) by lia. lia.
Qed.

(** X23. The multi-pattern search goes through the five patterns in
    their fixed order and stops early once the budget is used up.  No
    search asks for fewer than one event, for more than its pattern's
    own limit, or for more than the overall limit; with a limit of zero
    or less nothing is searched at all. *)
Theorem searches_stay_within_budget (c : Collected) :
  search = inr c ->
  map fst (searches c)
  = firstn (List.length (searches c)) (map fst _get_prioritized_error_patterns)
  /\ (List.length (searches c) <= 5)%nat
  /\ Forall (fun s => 1 <= snd s <= max_log_events
                      /\ exists limit,
                           In (fst s, limit) _get_prioritized_error_patterns
                           /\ snd s <= limit) (searches c)
  /\ (max_log_events <= 0 -> searches c = [] /\ all_log_events c = []).
Proof.
  intros H. unfold multi_pattern_search in H.
  assert (Hpos : Forall (fun pm => 1 <= snd pm) _get_prioritized_error_patterns).
  { repeat constructor; cbn; lia. }
  destruct (collect_inv _ collect_start c Hpos (Z.le_refl 0) H)
    as (done & added & Hs & Hnames & Hall & Ha & _ & Hl & _).
  cbn [collect_start searches all_log_events app] in Hs, Ha. subst done.
  split; [exact Hnames|]. split.
  - apply (f_equal (@List.length string)) in Hnames.
    rewrite length_map, length_firstn in Hnames. cbn in Hnames. lia.
  - split; [exact Hall|]. intros Hmax.
    destruct (searches c) as [|s rest] eqn:Hsearches.
    + split; [reflexivity|]. cbn in Hl. rewrite Ha.
      destruct added; [reflexivity | cbn in Hl; lia].
    + inversion Hall as [|? ? [Hbound _] _]. lia.
Qed.

(** X24. The count of events collected is the number of events kept: at
    most ten per search made, so at most 50, and at most 9 above the
    limit asked for; and when the events kept are categorized, the five
    categories together hold exactly that many. *)
Theorem events_collected_is_bounded (c : Collected) :
  search = inr c ->
  total_events_collected c = Z.of_nat (List.length (all_log_events c))
  /\ total_events_collected c <= 10 * Z.of_nat (List.length (searches c))
  /\ total_events_collected c <= 50
  /\ total_events_collected c <= Z.max 0 (max_log_events + 9)
  /\ (forall categories,
         _categorize_errors (all_log_events c) = inr categories ->
         Z.of_nat (fold_right Nat.add O
                              (map (fun kv => List.length (snd kv)) categories))
         = total_events_collected c).
Proof.
  intros H. unfold multi_pattern_search in H.
  assert (Hpos : Forall (fun pm => 1 <= snd pm) _get_prioritized_error_patterns).
  { repeat constructor; cbn; lia. }
  destruct (collect_inv _ collect_start c Hpos (Z.le_refl 0) H)
    as (done & added & Hs & Hnames & _ & Ha & Ht & Hl & Hb).
  cbn [collect_start searches all_log_events total_events_collected app] in *.
  subst done.
  assert (Hfive : (List.length (searches c) <= 5)%nat).
  { apply (f_equal (@List.length string)) in Hnames.
    rewrite length_map, length_firstn in Hnames. cbn in Hnames. lia. }
  rewrite Ha, Ht. split; [lia|]. split; [lia|]. split; [lia|]. split.
  - destruct Hb as [Hnil | Hle].
    + rewrite Hnil in Hl. cbn in Hl. lia.
    + lia.
  - intros categories Hcat.
    pose proof (GeneralAnalysisFacts.categorize_returns_strings _ _ Hcat) as Hstr.
    rewrite (GeneralAnalysisFacts.categorize_result _ Hstr) in Hcat.
    injection Hcat as <-. cbn [map category_names fold_right snd].
    pose proof (GeneralAnalysisFacts.partition_length _ Hstr). lia.
Qed.

End SearchFacts.

End RecentErrorsFacts.

(** *** The analysis of a handful of log events *)

Lemma categorize_errors_partitions_witness :
  GeneralAnalysis._categorize_errors Logs.events
  = inr [("validation_errors", [Logs.invalid_first; Logs.invalid_again]);
         ("processing_errors", []);
         ("system_errors", []);
         ("timeout_errors", [Logs.timed_out]);
         ("access_errors", [])].
Proof.
  apply (proj1 (proj1 (GeneralAnalysisFacts.categorize_errors_partitions Logs.events)
                      ltac:(intros event [<-|[<-|[<-|[]]]]; discriminate))).
Defined.

Lemma error_summary_of_nothing_witness :
  exists rest,
    GeneralAnalysis._generate_error_summary
      [("validation_errors", [Logs.invalid_first; Logs.invalid_again]);
       ("processing_errors", []);
       ("system_errors", []);
       ("timeout_errors", [Logs.timed_out]);
       ("access_errors", [])] [JStr "doc-1.pdf"] 7
    = "Found 7 total errors across 1 failed documents" ++ rest.
Proof.
  apply (proj2 (proj2 (GeneralAnalysisFacts.error_summary_of_nothing
                         [JStr "doc-1.pdf"] 7)
                      Logs.events _ eq_refl)).
  discriminate.
Defined.

Lemma filter_keeps_distinct_signatures_witness :
  exists out,
    GeneralAnalysis._filter_and_deduplicate_events Logs.events Logs.config = inr out
    /\ List.length out = 2%nat.
Proof.
  destruct (GeneralAnalysis._filter_and_deduplicate_events Logs.events Logs.config)
    as [e|out] eqn:H.
  { vm_compute in H. discriminate. }
  exists out. split; [reflexivity|].
  rewrite (proj1 (GeneralAnalysisFacts.filter_keeps_distinct_signatures
                    Logs.events Logs.config out H)).
  vm_compute. reflexivity.
Defined.

Lemma filter_entries_come_from_events_witness :
  exists event message,
    In event Logs.events
    /\ PyLib.get_or "message" (JStr "") event = JStr message
    /\ "Task timeout after 3..." = GeneralAnalysis.truncate 20 message.
Proof.
  destruct (GeneralAnalysis._filter_and_deduplicate_events Logs.events Logs.config)
    as [e|out] eqn:H.
  { vm_compute in H. discriminate. }
  assert (Hin : In [("timestamp", JInt 3);
                    ("message", JStr "Task timeout after 3...");
                    ("log_stream", JStr "2024/01/15/[$LATEST]0123456789abcdef")]
                   out).
  { pose proof H as H'. vm_compute in H'. injection H' as <-.
    right; left; reflexivity. }
  destruct (GeneralAnalysisFacts.filter_entries_come_from_events
              Logs.events Logs.config out H _ Hin)
    as (event & message & max_length & timestamp & log_stream
        & Hevent & Hmsg & Hmax & Hts & Hls & Hentry).
  injection Hmax as <-. exists event, message.
  split; [exact Hevent|]. split; [exact Hmsg|].
  injection Hentry as _ Hm _. exact Hm.
Defined.

Lemma truncation_bounds_witness :
  Z.of_nat (String.length
              (GeneralAnalysis.truncate 20 "Task timeout after 30s")) = 23.
Proof.
  apply (proj2 (proj1 (proj2 (GeneralAnalysisFacts.truncation_bounds
                                20 "Task timeout after 30s"))
                      ltac:(cbn; lia))).
Defined.

Lemma signature_ignores_leading_timestamp_witness :
  GeneralAnalysis.error_signature
    "2024-01-15T10:30:00Z Validation failed for document"
  = GeneralAnalysis.error_signature
      "2024-01-16T11:31:05Z Validation failed for document".
Proof.
  apply (proj1 (proj2 (GeneralAnalysisFacts.signature_ignores_leading_timestamp
                         "2024-01-15T10:30:00Z" "2024-01-16T11:31:05Z"
                         " Validation failed for document" eq_refl eq_refl))).
Defined.

Lemma searches_stay_within_budget_witness :
  RecentErrors.searches (Logs.collected 4) = [("ERROR", 4); ("Exception", 2);
                                              ("ValidationException", 2);
                                              ("Failed", 2); ("Timeout", 1)]
  /\ Forall (fun s => 1 <= snd s <= 4) (RecentErrors.searches (Logs.collected 4)).
Proof.
  split; [reflexivity|].
  destruct (RecentErrorsFacts.searches_stay_within_budget
              Logs.search_stack_logs Logs.config 24 4 (Logs.collected 4) eq_refl)
    as (_ & _ & Hall & _).
  eapply Forall_impl; [|exact Hall]. intros s [Hbound _]. exact Hbound.
Defined.

Lemma events_collected_is_bounded_witness :
  RecentErrors.total_events_collected (Logs.collected 1) = 2
  /\ RecentErrors.total_events_collected (Logs.collected 1) <= 1 + 9.
Proof.
  split; [reflexivity|].
  apply (proj1 (proj2 (proj2 (proj2
           (RecentErrorsFacts.events_collected_is_bounded
              Logs.search_stack_logs Logs.config 24 1 (Logs.collected 1)
              eq_refl))))).
Defined.
